(** * discord-server: resilient session and request layer

    A shallow embedding of the Discord MCP server.  The repository holds
    the server twice: [src/index.ts] (version 1.0.0, five tools, no session
    management) and a session-managed rewrite (version 1.0.1: lazy login,
    single-flight [ensureConnected], pending-message queue).  Both are
    embedded here, in the modules [V100] and [V101]; what they share
    (schemas, channel lookup, the read pipeline) comes first.

    Conventions.
    - JavaScript numbers that reach the code through [z.number()] are taken
      to be integers ([Z]); fractional limits are not covered.
    - A rejected promise or a thrown exception is a [Throw] result; an
      [async] function that is awaited is a computation in the monad [M]
      below, run to completion between two requests.
    - The drain that the [ready] listener starts is awaited by nobody: it
      is a coroutine ([Drain]). Its first continuation runs as soon as the
      listener has returned; how many more run before the code that waited
      for the event goes on is up to the world; the later turns are taken
      between requests.
    - The Discord client and the gateway are an oracle [Platform W] over
      an abstract world [W]. *)

From stdpp Require Import base strings list gmap pretty.
From Stdlib Require Import ZArith Lia Sorted Permutation.

Open Scope string_scope.
Open Scope Z_scope.
Open Scope list_scope.

(* ================================================================== *)
(** * JavaScript values, errors and strings                            *)
(* ================================================================== *)

(** [ErrorCode] of the MCP SDK, the three members the server uses. *)
Inductive ErrorCode := InternalError | InvalidParams | MethodNotFound.

Definition ErrorCode_number (c : ErrorCode) : string :=
  match c with
  | InternalError => "-32603"
  | InvalidParams => "-32602"
  | MethodNotFound => "-32601"
  end.

(** One issue of a [z.ZodError]; only its message is read by the server. *)
Record ZodIssue := { issue_path : string; issue_message : string }.

(** What the server throws and catches. [PlainError] stands for every
    [Error] that is neither an [McpError] nor a [ZodError]: the login
    timeout and the failures of discord.js. *)
Inductive JsError :=
| McpError (code : ErrorCode) (message : string)
| ZodError (errors : list ZodIssue)
| PlainError (message : string).

(** [error.message]; the SDK's [McpError] constructor prefixes the code.
    Every value here is an [instanceof Error]. A [ZodError] never reaches
    the one place that reads the message (the inner [catch] of
    [send_message]); its issues stand for it. *)
Definition error_message (e : JsError) : string :=
  match e with
  | McpError c m => "MCP error " +:+ ErrorCode_number c +:+ ": " +:+ m
  | ZodError errs => String.concat ", " (map issue_message errs)
  | PlainError m => m
  end.

Inductive result (A : Type) :=
| Ok (a : A)
| Throw (e : JsError).
Arguments Ok {A} a.
Arguments Throw {A} e.

(** [hay.includes(needle)] *)
Fixpoint includes (needle hay : string) : bool :=
  if String.prefix needle hay then true
  else match hay with
       | EmptyString => false
       | String _ rest => includes needle rest
       end.

(** Truthiness of a string and of an optional string. *)
Definition truthy (s : string) : bool :=
  match s with EmptyString => false | _ => true end.

Definition truthy_opt (o : option string) : bool :=
  match o with Some s => truthy s | None => false end.

(** [a || b] on strings. *)
Definition or_else (a : string) (b : string) : string :=
  if truthy a then a else b.

Definition nl : string := String (Ascii.ascii_of_nat 10) EmptyString.
Definition check_mark : string := "✅".

(** [Array.prototype.slice(0, end)] for an integral [end]. *)
Definition slice0 {A : Type} (e : Z) (l : list A) : list A :=
  if e <? 0 then take (Z.to_nat (Z.max (Z.of_nat (length l) + e) 0)) l
  else take (Z.to_nat e) l.

(* ================================================================== *)
(** * Untyped arguments and the zod schemas                            *)
(* ================================================================== *)

Inductive Json :=
| JNull
| JBool (b : bool)
| JNum (n : Z)
| JStr (s : string)
| JArray
| JObject.

Definition Json_type (j : Json) : string :=
  match j with
  | JNull => "null"
  | JBool _ => "boolean"
  | JNum _ => "number"
  | JStr _ => "string"
  | JArray => "array"
  | JObject => "object"
  end.

(** [request.params.arguments]: absent, or a mapping from field names. *)
Abbreviation Arguments_ := (option (gmap string Json)).

Definition invalid_type (path expected : string) (received : option Json)
  : ZodIssue :=
  {| issue_path := path;
     issue_message :=
       match received with
       | None => "Required"
       | Some j => "Expected " +:+ expected +:+ ", received " +:+ Json_type j
       end |}.

(** A field parser yields the issues it raises, or a value. *)
Definition parsed (A : Type) : Type := list ZodIssue + A.

Definition issues_of {A : Type} (p : parsed A) : list ZodIssue :=
  match p with inl i => i | inr _ => [] end.

(** [z.string()] *)
Definition z_string (path : string) (v : option Json) : parsed string :=
  match v with
  | Some (JStr s) => inr s
  | _ => inl [invalid_type path "string" v]
  end.

(** [z.string().optional()] *)
Definition z_string_optional (path : string) (v : option Json)
  : parsed (option string) :=
  match v with
  | None => inr None
  | Some (JStr s) => inr (Some s)
  | _ => inl [invalid_type path "string" v]
  end.

(** [z.string().optional().default(d)] *)
Definition z_string_default (path d : string) (v : option Json)
  : parsed string :=
  match v with
  | None => inr d
  | Some (JStr s) => inr s
  | _ => inl [invalid_type path "string" v]
  end.

(** [z.number().optional().default(d)] *)
Definition z_number_default (path : string) (d : Z) (v : option Json)
  : parsed Z :=
  match v with
  | None => inr d
  | Some (JNum n) => inr n
  | _ => inl [invalid_type path "number" v]
  end.

(** [z.boolean().optional().default(d)] *)
Definition z_boolean_default (path : string) (d : bool) (v : option Json)
  : parsed bool :=
  match v with
  | None => inr d
  | Some (JBool b) => inr b
  | _ => inl [invalid_type path "boolean" v]
  end.

Definition root_required : list ZodIssue := [invalid_type EmptyString "object" None].

Module ReadMessagesSchema.
Record t := {
  channel_name : string;
  limit : Z;
  unread_only : bool;
  reaction_filter : option string }.

Definition parse (args : Arguments_) : result t :=
  match args with
  | None => Throw (ZodError root_required)
  | Some a =>
      let c := z_string "channel_name" (a !! "channel_name") in
      let l := z_number_default "limit" 10 (a !! "limit") in
      let u := z_boolean_default "unread_only" false (a !! "unread_only") in
      let r := z_string_optional "reaction_filter" (a !! "reaction_filter") in
      match c, l, u, r with
      | inr c', inr l', inr u', inr r' =>
          Ok {| channel_name := c'; limit := l';
                unread_only := u'; reaction_filter := r' |}
      | _, _, _, _ =>
          Throw (ZodError (issues_of c ++ issues_of l ++ issues_of u ++ issues_of r))
      end
  end.
End ReadMessagesSchema.

(** The 1.0.0 schema has no [project_name]; there the field is ignored. *)
Module SendMessageSchema.
Record t := {
  channel_name : string;
  content : string;
  project_name : option string }.

Definition parse (args : Arguments_) : result t :=
  match args with
  | None => Throw (ZodError root_required)
  | Some a =>
      let c := z_string "channel_name" (a !! "channel_name") in
      let m := z_string "content" (a !! "content") in
      let p := z_string_optional "project_name" (a !! "project_name") in
      match c, m, p with
      | inr c', inr m', inr p' =>
          Ok {| channel_name := c'; content := m'; project_name := p' |}
      | _, _, _ => Throw (ZodError (issues_of c ++ issues_of m ++ issues_of p))
      end
  end.

(** The 1.0.0 schema: [channel_name] and [content] only. *)
Definition parse_v100 (args : Arguments_) : result t :=
  match args with
  | None => Throw (ZodError root_required)
  | Some a =>
      let c := z_string "channel_name" (a !! "channel_name") in
      let m := z_string "content" (a !! "content") in
      match c, m with
      | inr c', inr m' =>
          Ok {| channel_name := c'; content := m'; project_name := None |}
      | _, _ => Throw (ZodError (issues_of c ++ issues_of m))
      end
  end.
End SendMessageSchema.

Module ReactionSchema.
Record t := {
  channel_name : string;
  message_id : string;
  emoji : string }.

Definition parse (args : Arguments_) : result t :=
  match args with
  | None => Throw (ZodError root_required)
  | Some a =>
      let c := z_string "channel_name" (a !! "channel_name") in
      let m := z_string "message_id" (a !! "message_id") in
      let e := z_string_default "emoji" check_mark (a !! "emoji") in
      match c, m, e with
      | inr c', inr m', inr e' =>
          Ok {| channel_name := c'; message_id := m'; emoji := e' |}
      | _, _, _ => Throw (ZodError (issues_of c ++ issues_of m ++ issues_of e))
      end
  end.
End ReactionSchema.

Module DeleteMessageSchema.
Record t := {
  channel_name : string;
  message_id : string }.

Definition parse (args : Arguments_) : result t :=
  match args with
  | None => Throw (ZodError root_required)
  | Some a =>
      let c := z_string "channel_name" (a !! "channel_name") in
      let m := z_string "message_id" (a !! "message_id") in
      match c, m with
      | inr c', inr m' => Ok {| channel_name := c'; message_id := m' |}
      | _, _ => Throw (ZodError (issues_of c ++ issues_of m))
      end
  end.
End DeleteMessageSchema.

(* ================================================================== *)
(** * What discord.js hands to the server                              *)
(* ================================================================== *)

Record Channel := {
  ch_id : string;
  ch_name : string;
  ch_isTextBased : bool }.

(** [guild.channels.cache], in the iteration order of the collection. *)
Record Guild := { channels_cache : list Channel }.

(** One entry of [message.reactions.cache]; [r.emoji.name] may be null. *)
Record MessageReaction := {
  emoji_name : option string;
  me : bool }.

Module Message.
Record t := {
  id : string;
  createdAt : Z;
  author_username : string;
  content : string;
  attachments : list string;
  reactions_cache : list MessageReaction }.
End Message.

Module PendingMessage.
Record t := {
  channel_name : string;
  content : string }.
End PendingMessage.

(** [{ content: [{ type: 'text', text }] }] *)
Record TextContent := { type : string; text : string }.
Record CallToolResult := { content : list TextContent }.

Definition text_result (s : string) : CallToolResult :=
  {| content := [ {| type := "text"; text := s |} ] |}.

(** Events of the client that [setupDiscordEvents] listens to. *)
Inductive ClientEvent :=
| EvReady
| EvError (e : JsError)
| EvShardDisconnect
| EvShardReconnecting.

(** Who wins the race that follows a resolved [client.login]. *)
Inductive RaceOutcome :=
| RaceReady
| RaceError (e : JsError)
| RaceTimeout.

(** How one login attempt plays out: the events emitted while
    [client.login] is pending, its result, the race after it, and, for
    the case that the [ready] event of this attempt starts a drain, how
    many continuations of the drain beyond the first run before the code
    that waited for the event goes on. *)
Record LoginScript := {
  during_login : list ClientEvent;
  login_result : result unit;
  race : RaceOutcome;
  ticks : nat }.

(** Requests the server issues to the client, in order of issue. *)
Inductive Call :=
| CallLogin
| CallFetchMessages (channel : string) (limit : Z)
| CallFetchMessage (channel : string) (message_id : string)
| CallSend (channel : string) (body : string) (delivered : bool)
| CallReact (message_id : string) (emoji : string)
| CallRemoveReaction (message_id : string) (emoji : option string)
| CallDelete (message_id : string).

(** The collaborator: every answer may depend on, and change, the world. *)
Record Platform (W : Type) := {
  guilds_cache : W -> list Guild;
  client_login : W -> LoginScript * W;
  messages_fetch : Channel -> Z -> W -> result (list Message.t) * W;
  messages_fetch_one : Channel -> string -> W -> result Message.t * W;
  channel_send : Channel -> string -> W -> result unit * W;
  message_react : Message.t -> string -> W -> result unit * W;
  reaction_users_remove : Message.t -> MessageReaction -> W -> result unit * W;
  message_delete : Message.t -> W -> result unit * W }.
Arguments guilds_cache {W} _ _.
Arguments client_login {W} _ _.
Arguments messages_fetch {W} _ _ _ _.
Arguments messages_fetch_one {W} _ _ _ _.
Arguments channel_send {W} _ _ _ _.
Arguments message_react {W} _ _ _ _.
Arguments reaction_users_remove {W} _ _ _ _.
Arguments message_delete {W} _ _ _.

(** [CONFIG] of the rewrite; in 1.0.0 only the token exists. *)
Record Config := {
  projectName : string;
  token : string }.

(* ================================================================== *)
(** * The server object                                                *)
(* ================================================================== *)

(** The loop of [flushPendingMessages] when nobody awaits it, at the
    [await] where it is suspended: on the lookup of the channel of [msg],
    which has answered [looked], or on the send of [msg], which the
    client answers with [reply]; [rest] are the messages of the snapshot
    still to come. *)
Inductive Drain :=
| AwaitChannel (msg : PendingMessage.t) (looked : result Channel)
    (rest : list PendingMessage.t)
| AwaitSend (msg : PendingMessage.t) (reply : result unit)
    (rest : list PendingMessage.t).

(** The fields of [class DiscordMcpServer], followed by what the model
    adds to observe it: whether the [once('ready')] listener is still
    registered, the number of login attempts created (the next attempt's
    identity) and the number of those whose [finally] block has run, what
    the promises of the attempts were settled with, the drains that were
    started and have not finished, and the log of requests made to the
    client. *)
Record DiscordMcpServer := {
  ready : bool;
  loggingIn : bool;
  pendingMessages : list PendingMessage.t;
  loginPromise : option nat;
  readyListener : bool;
  attempts : nat;
  settled : nat;
  settlements : gmap nat (result unit);
  background : list Drain;
  calls : list Call }.

(** [new DiscordMcpServer()] *)
Definition constructor : DiscordMcpServer :=
  {| ready := false; loggingIn := false; pendingMessages := [];
     loginPromise := None; readyListener := true; attempts := 0%nat;
     settled := 0%nat; settlements := ∅; background := []; calls := [] |}.

Definition set_ready (b : bool) (s : DiscordMcpServer) : DiscordMcpServer :=
  {| ready := b; loggingIn := loggingIn s;
     pendingMessages := pendingMessages s; loginPromise := loginPromise s;
     readyListener := readyListener s; attempts := attempts s;
     settled := settled s; settlements := settlements s;
     background := background s; calls := calls s |}.

Definition set_loggingIn (b : bool) (s : DiscordMcpServer) : DiscordMcpServer :=
  {| ready := ready s; loggingIn := b;
     pendingMessages := pendingMessages s; loginPromise := loginPromise s;
     readyListener := readyListener s; attempts := attempts s;
     settled := settled s; settlements := settlements s;
     background := background s; calls := calls s |}.

Definition set_pendingMessages (q : list PendingMessage.t) (s : DiscordMcpServer)
  : DiscordMcpServer :=
  {| ready := ready s; loggingIn := loggingIn s;
     pendingMessages := q; loginPromise := loginPromise s;
     readyListener := readyListener s; attempts := attempts s;
     settled := settled s; settlements := settlements s;
     background := background s; calls := calls s |}.

Definition set_loginPromise (p : option nat) (s : DiscordMcpServer)
  : DiscordMcpServer :=
  {| ready := ready s; loggingIn := loggingIn s;
     pendingMessages := pendingMessages s; loginPromise := p;
     readyListener := readyListener s; attempts := attempts s;
     settled := settled s; settlements := settlements s;
     background := background s; calls := calls s |}.

Definition set_readyListener (b : bool) (s : DiscordMcpServer) : DiscordMcpServer :=
  {| ready := ready s; loggingIn := loggingIn s;
     pendingMessages := pendingMessages s; loginPromise := loginPromise s;
     readyListener := b; attempts := attempts s;
     settled := settled s; settlements := settlements s;
     background := background s; calls := calls s |}.

Definition set_attempts (n : nat) (s : DiscordMcpServer) : DiscordMcpServer :=
  {| ready := ready s; loggingIn := loggingIn s;
     pendingMessages := pendingMessages s; loginPromise := loginPromise s;
     readyListener := readyListener s; attempts := n;
     settled := settled s; settlements := settlements s;
     background := background s; calls := calls s |}.

Definition set_settled (n : nat) (s : DiscordMcpServer) : DiscordMcpServer :=
  {| ready := ready s; loggingIn := loggingIn s;
     pendingMessages := pendingMessages s; loginPromise := loginPromise s;
     readyListener := readyListener s; attempts := attempts s;
     settled := n; settlements := settlements s;
     background := background s; calls := calls s |}.

Definition set_settlements (m : gmap nat (result unit)) (s : DiscordMcpServer)
  : DiscordMcpServer :=
  {| ready := ready s; loggingIn := loggingIn s;
     pendingMessages := pendingMessages s; loginPromise := loginPromise s;
     readyListener := readyListener s; attempts := attempts s;
     settled := settled s; settlements := m;
     background := background s; calls := calls s |}.


Definition set_background (b : list Drain) (s : DiscordMcpServer)
  : DiscordMcpServer :=
  {| ready := ready s; loggingIn := loggingIn s;
     pendingMessages := pendingMessages s; loginPromise := loginPromise s;
     readyListener := readyListener s; attempts := attempts s;
     settled := settled s; settlements := settlements s;
     background := b; calls := calls s |}.

Definition log_call (c : Call) (s : DiscordMcpServer) : DiscordMcpServer :=
  {| ready := ready s; loggingIn := loggingIn s;
     pendingMessages := pendingMessages s; loginPromise := loginPromise s;
     readyListener := readyListener s; attempts := attempts s;
     settled := settled s; settlements := settlements s;
     background := background s; calls := calls s ++ [c] |}.

(** [this.pendingMessages.push(msg)] *)
Definition push (msg : PendingMessage.t) (s : DiscordMcpServer) : DiscordMcpServer :=
  set_pendingMessages (pendingMessages s ++ [msg]) s.

(* ================================================================== *)
(** * Asynchronous code as a state and exception monad                 *)
(* ================================================================== *)

Section Monad.
Context {W : Type}.

Definition M (A : Type) : Type :=
  DiscordMcpServer * W -> result A * (DiscordMcpServer * W).

Definition ret {A : Type} (a : A) : M A := fun s => (Ok a, s).

Definition throw {A : Type} (e : JsError) : M A := fun s => (Throw e, s).

Definition bind {A B : Type} (m : M A) (k : A -> M B) : M B :=
  fun s => match m s with
           | (Ok a, s') => k a s'
           | (Throw e, s') => (Throw e, s')
           end.

(** [try { m } catch (error) { h error }] *)
Definition try_catch {A : Type} (m : M A) (h : JsError -> M A) : M A :=
  fun s => match m s with
           | (Ok a, s') => (Ok a, s')
           | (Throw e, s') => h e s'
           end.

(** [try { m } finally { f }], for an [f] that cannot throw. *)
Definition try_finally {A : Type} (m : M A)
  (f : DiscordMcpServer -> DiscordMcpServer) : M A :=
  fun s => match m s with
           | (r, (srv, w)) => (r, (f srv, w))
           end.

Definition this : M DiscordMcpServer := fun s => (Ok (fst s), s).

Definition update (f : DiscordMcpServer -> DiscordMcpServer) : M unit :=
  fun s => (Ok tt, (f (fst s), snd s)).

Definition of_result {A : Type} (r : result A) : M A := fun s => (r, s).

(** Ask the client, and write the request into the log. *)
Definition ask {A : Type} (q : W -> result A * W) (c : result A -> Call) : M A :=
  fun s => match q (snd s) with
           | (r, w') => (r, (log_call (c r) (fst s), w'))
           end.

End Monad.

Notation "'let*' x ':=' m 'in' k" := (bind m (fun x => k))
  (at level 10, x binder, m at level 100, k at level 200).
Notation "'run' m 'in' k" := (bind m (fun _ => k))
  (at level 10, m at level 100, k at level 200).

Definition is_Ok {A : Type} (r : result A) : bool :=
  match r with Ok _ => true | Throw _ => false end.

(* ================================================================== *)
(** * Shared by both versions: channel lookup and the read pipeline    *)
(* ================================================================== *)

(** Truthiness of what [Collection.find] returns. *)
Definition found {A : Type} (o : option A) : bool :=
  match o with Some _ => true | None => false end.

(** The loop of [getChannelByName] over [client.guilds.cache.values()]. *)
Fixpoint findChannel (guilds : list Guild) (name : string) : option Channel :=
  match guilds with
  | [] => None
  | guild :: rest =>
      match List.find (fun c => bool_decide (ch_name c = name) && ch_isTextBased c)
                      (channels_cache guild) with
      | Some channel => Some channel
      | None => findChannel rest name
      end
  end.

(** [m.reactions.cache.some(r => r.emoji.name === reaction_filter)] *)
Definition some_reaction (reaction_filter : string) (m : Message.t) : bool :=
  existsb (fun r => bool_decide (emoji_name r = Some reaction_filter))
          (Message.reactions_cache m).

(** [m.reactions.cache.find(r => r.emoji.name === '✅' && r.me)] *)
Definition myReaction (m : Message.t) : option MessageReaction :=
  List.find (fun r => bool_decide (emoji_name r = Some check_mark) && me r)
            (Message.reactions_cache m).

(** [(unread_only || reaction_filter)] as a condition. *)
Definition filtering (a : ReadMessagesSchema.t) : bool :=
  ReadMessagesSchema.unread_only a
  || truthy_opt (ReadMessagesSchema.reaction_filter a).

Definition fetchLimit (a : ReadMessagesSchema.t) : Z :=
  if filtering a
  then Z.min (ReadMessagesSchema.limit a * 3) 100
  else Z.min (ReadMessagesSchema.limit a) 50.

(** The two [filter] steps, in the order of the source. *)
Definition filter_messages (a : ReadMessagesSchema.t) (messages : list Message.t)
  : list Message.t :=
  let filtered := messages in
  let filtered :=
    match ReadMessagesSchema.reaction_filter a with
    | Some reaction_filter =>
        if truthy reaction_filter
        then List.filter (some_reaction reaction_filter) filtered
        else filtered
    | None => filtered
    end in
  let filtered :=
    if ReadMessagesSchema.unread_only a
    then List.filter (fun m => negb (found (myReaction m))) filtered
    else filtered in
  filtered.

(** [filtered.slice(0, limit)] after the filters: the messages rendered. *)
Definition selected (a : ReadMessagesSchema.t) (messages : list Message.t)
  : list Message.t :=
  slice0 (ReadMessagesSchema.limit a) (filter_messages a messages).

(** [filtered.map(line).reverse()] *)
Definition lines (line : Message.t -> string) (a : ReadMessagesSchema.t)
  (messages : list Message.t) : list string :=
  rev (map line (selected a messages)).

(** [lines.join('\n') || 'No messages found.'] *)
Definition read_text (line : Message.t -> string) (a : ReadMessagesSchema.t)
  (messages : list Message.t) : string :=
  or_else (String.concat nl (lines line a messages)) "No messages found.".

Definition isRead (m : Message.t) : string :=
  if found (myReaction m) then "[READ]" else "[NEW]".

Definition delay_note : string :=
  nl +:+ nl +:+ "*(Note: This message was delayed due to connection issues)*".

(** The calls of [client.login] in the log. *)
Definition logins (s : DiscordMcpServer) : nat :=
  length (List.filter (fun c => match c with CallLogin => true | _ => false end)
                      (calls s)).

(** [request.params] of a tool call. *)
Record CallToolRequest := {
  name : string;
  arguments : Arguments_ }.

(** The [catch] around the whole handler, the same in both versions. *)
Definition rethrow {W A : Type} (error : JsError) : @M W A :=
  match error with
  | ZodError errors =>
      throw (McpError InvalidParams
               ("Invalid arguments: "
                +:+ String.concat ", " (map issue_message errors)))
  | _ => throw error
  end.

(* ================================================================== *)
(** * Version 1.0.1: the session-managed server                        *)
(* ================================================================== *)

Module V101.

(** How a call of [ensureConnected] leaves its synchronous part: it has
    returned, or it is suspended on the login attempt [attempt]. *)
Inductive Entry :=
| Returned
| Awaiting (attempt : nat).

Section Server.
Context {W : Type} (client : Platform W) (CONFIG : Config)
        (toISOString : Z -> string).

(** ** [getChannelByName] *)

Definition getChannelByName (name : string) : @M W Channel :=
  fun s =>
    if negb (ready (fst s))
    then (Throw (McpError InternalError "Discord client is not ready."), s)
    else match findChannel (guilds_cache client (snd s)) name with
         | Some channel => (Ok channel, s)
         | None =>
             (Throw (McpError InvalidParams
                       ("Channel #" +:+ name +:+ " not found.")), s)
         end.

(** [channel.send(body)] *)
Definition send (channel : Channel) (body : string) : @M W unit :=
  ask (channel_send client channel body)
      (fun r => CallSend (ch_id channel) body (is_Ok r)).

(** ** [flushPendingMessages] *)

(** The [try] block of the loop of [flushPendingMessages]. *)
Definition deliver (msg : PendingMessage.t) : @M W unit :=
  let* channel := getChannelByName (PendingMessage.channel_name msg) in
  send channel (PendingMessage.content msg +:+ delay_note).

(** One turn of the loop: the [try] block and its [catch]. *)
Definition flush_one (msg : PendingMessage.t) : @M W unit :=
  try_catch (deliver msg) (fun error => update (push msg)).

(** The [for] loop of [flushPendingMessages]. *)
Fixpoint flush_loop (messages : list PendingMessage.t) : @M W unit :=
  match messages with
  | [] => ret tt
  | msg :: rest => run flush_one msg in flush_loop rest
  end.


(** One drain cycle, run to its end. *)
Definition flushPendingMessages : @M W unit :=
  let* s := this in
  if (length (pendingMessages s) =? 0)%nat then ret tt
  else
    let messages := pendingMessages s in
    run update (set_pendingMessages []) in
    flush_loop messages.

(** *** The same loop when nobody awaits it

    The [ready] listener calls [this.flushPendingMessages()] and drops the
    promise. The loop then advances one [await] at a time, each time the
    event loop resumes it. *)

(** The loop comes to its next message: the lookup is made at once
    ([getChannelByName] has no [await] of its own) and the loop is
    suspended on its answer. [None]: the loop has come to its end. *)
Definition drain_next (rest : list PendingMessage.t) : @M W (option Drain) :=
  match rest with
  | [] => ret None
  | msg :: rest =>
      fun s =>
        (Ok (Some (AwaitChannel msg
                     (fst (getChannelByName (PendingMessage.channel_name msg) s))
                     rest)), s)
  end.

(** The loop resumes. After a lookup that found the channel the send is
    issued, and the loop is suspended on its answer; after a lookup or a
    send that failed the [catch] puts the message back and the loop goes
    on; after a send that went through the loop goes on. *)
Definition drain_resume (d : Drain) : @M W (option Drain) :=
  match d with
  | AwaitChannel msg (Ok channel) rest =>
      fun s =>
        match send channel (PendingMessage.content msg +:+ delay_note) s with
        | (reply, s') => (Ok (Some (AwaitSend msg reply rest)), s')
        end
  | AwaitChannel msg (Throw error) rest =>
      run update (push msg) in drain_next rest
  | AwaitSend msg (Ok _) rest => drain_next rest
  | AwaitSend msg (Throw error) rest =>
      run update (push msg) in drain_next rest
  end.

(** Continuations that follow one another without waiting for the
    client: after a lookup that failed the loop is at its next lookup,
    whose continuation runs in the same turn of the event loop. At most
    [n] of them; the chain ends when a send has been issued or the
    snapshot is through. *)
Fixpoint drain_chain (n : nat) (d : option Drain) : @M W (option Drain) :=
  match n, d with
  | S n, Some (AwaitChannel msg looked rest) =>
      let* suspended := drain_resume (AwaitChannel msg looked rest) in
      drain_chain n suspended
  | _, _ => ret d
  end.

(** A suspended drain is left to the event loop. *)
Definition park (d : option Drain) (s : DiscordMcpServer) : DiscordMcpServer :=
  set_background (background s ++ option_list d) s.

(** [this.flushPendingMessages()] in the [ready] listener: snapshot,
    clear, and the loop up to its first [await]. The continuation of that
    [await] is the first job the listener leaves behind, so it runs as
    soon as the listeners have returned, before any code that waits for
    the event: here, at once. [ticks] more continuations may follow in the
    same way; then the drain is parked. *)
Definition flushPendingMessages_start (ticks : nat) : @M W unit :=
  let* s := this in
  if (length (pendingMessages s) =? 0)%nat then ret tt
  else
    let messages := pendingMessages s in
    run update (set_pendingMessages []) in
    let* suspended := drain_next messages in
    let* suspended := drain_chain (S ticks) suspended in
    update (park suspended).

(** A later turn: the event loop resumes the drain that has waited
    longest. *)
Definition drain_turn : @M W unit :=
  let* s := this in
  match background s with
  | [] => ret tt
  | d :: waiting =>
      run update (set_background waiting) in
      let* suspended := drain_resume d in
      update (fun s => set_background (option_list suspended ++ background s) s)
  end.

(** [n] turns in a row. *)
Fixpoint drain_turns (n : nat) : @M W unit :=
  match n with
  | O => ret tt
  | S k => run drain_turn in drain_turns k
  end.

(** A drain resumed again and again with nothing in between, for at most
    [fuel] turns. *)
Fixpoint drain_finish (fuel : nat) (d : option Drain) : @M W unit :=
  match d, fuel with
  | Some d, S fuel =>
      let* suspended := drain_resume d in
      drain_finish fuel suspended
  | _, _ => ret tt
  end.

(** ** [setupDiscordEvents] *)

Definition on_ready (ticks : nat) : @M W unit :=
  let* s := this in
  if readyListener s
  then
    run update (fun s =>
                  set_loggingIn false (set_ready true (set_readyListener false s))) in
    flushPendingMessages_start ticks
  else ret tt.

Definition on_error (s : DiscordMcpServer) : DiscordMcpServer :=
  set_loggingIn false s.

Definition on_shardDisconnect (s : DiscordMcpServer) : DiscordMcpServer :=
  set_ready false s.

Definition on_shardReconnecting (s : DiscordMcpServer) : DiscordMcpServer := s.

(** The listeners of an event; [ticks] concerns the drain that the
    [ready] listener may start. *)
Definition emit (ticks : nat) (ev : ClientEvent) : @M W unit :=
  match ev with
  | EvReady => on_ready ticks
  | EvError _ => update on_error
  | EvShardDisconnect => update on_shardDisconnect
  | EvShardReconnecting => update on_shardReconnecting
  end.

Fixpoint emit_all (ticks : nat) (evs : list ClientEvent) : @M W unit :=
  match evs with
  | [] => ret tt
  | ev :: rest => run emit ticks ev in emit_all ticks rest
  end.

(** ** [ensureConnected] *)

(** The synchronous part of a call, up to its first [await]. A new
    attempt gets the next identity, and its promise is pending. *)
Definition ensureConnected_enter (s : DiscordMcpServer) : Entry * DiscordMcpServer :=
  if ready s then (Returned, s)
  else if loggingIn s then
    match loginPromise s with
    | Some p => (Awaiting p, s)
    | None => (Returned, s)
    end
  else
    let p := attempts s in
    (Awaiting p,
     set_settlements (delete p (settlements s))
       (set_loginPromise (Some p)
          (set_attempts (S p) (log_call CallLogin (set_loggingIn true s))))).

(** The [finally] block of a login attempt. *)
Definition attempt_finally (s : DiscordMcpServer) : DiscordMcpServer :=
  set_settled (S (settled s)) (set_loginPromise None (set_loggingIn false s)).

(** The promise of attempt [p] is settled with [r]. *)
Definition settle (p : nat) (r : result unit) (s : DiscordMcpServer)
  : DiscordMcpServer :=
  set_settlements (<[p := r]> (settlements s)) s.

Definition consult_login : @M W LoginScript :=
  fun s => match client_login client (snd s) with
           | (script, w') => (Ok script, (fst s, w'))
           end.

(** The body of login attempt [p] from the moment [client.login] has been
    called, to the settlement of its promise; the client's events reach
    the listeners of [setupDiscordEvents] before those of the attempt. *)
Definition loginAttempt (p : nat) : @M W unit :=
  fun st =>
    match
      try_finally
        (let* script := consult_login in
         run emit_all (ticks script) (during_login script) in
         run of_result (login_result script) in
         let* s := this in
         if negb (ready s) then
           match race script with
           | RaceReady => emit (ticks script) EvReady
           | RaceError err => run emit (ticks script) (EvError err) in throw err
           | RaceTimeout => throw (PlainError "Login timeout (15s)")
           end
         else ret tt)
        attempt_finally st
    with
    | (r, (srv, w)) => (r, (settle p r srv, w))
    end.

(** [await this.loginPromise]: the caller resumes with what the promise
    was settled with. When the attempt has not played out yet it does so
    first, nothing else being interleaved. *)
Definition await_loginPromise (p : nat) : @M W unit :=
  fun st =>
    match settlements (fst st) !! p with
    | Some r => (r, st)
    | None => loginAttempt p st
    end.

(** What a call does after its synchronous part. *)
Definition ensureConnected_resume (e : Entry) : @M W unit :=
  match e with
  | Returned => ret tt
  | Awaiting p => await_loginPromise p
  end.

Definition ensureConnected : @M W unit :=
  fun st =>
    match ensureConnected_enter (fst st) with
    | (e, srv) => ensureConnected_resume e (srv, snd st)
    end.




(** What the scheduler can run next on the session: the synchronous part
    of a call, a listener of [setupDiscordEvents] (with the first turn of
    the drain it starts), the [finally] block of an attempt, or a later
    turn of a drain, whatever it waits for. *)
Inductive Step :=
| StepCall
| StepEvent (ev : ClientEvent)
| StepSettle
| StepDrain.

Definition step (st : DiscordMcpServer * W) (t : Step) : DiscordMcpServer * W :=
  match t with
  | StepCall => (snd (ensureConnected_enter (fst st)), snd st)
  | StepEvent ev => snd (emit 0 ev st)
  | StepSettle => (attempt_finally (fst st), snd st)
  | StepDrain => snd (drain_turn st)
  end.


(** Steps other than an [error] or a [shardDisconnect] event. *)
Definition quiet (t : Step) : bool :=
  match t with
  | StepEvent (EvError _) | StepEvent EvShardDisconnect => false
  | _ => true
  end.


(** ** [setupToolHandlers] *)

Definition line (m : Message.t) : string :=
  "ID:" +:+ Message.id m +:+ " " +:+ isRead m
  +:+ " [" +:+ toISOString (Message.createdAt m) +:+ "] "
  +:+ Message.author_username m +:+ ": " +:+ Message.content m.

Definition read_recent_messages (args : Arguments_) : @M W CallToolResult :=
  let* a := of_result (ReadMessagesSchema.parse args) in
  let* channel := getChannelByName (ReadMessagesSchema.channel_name a) in
  let* messages :=
    ask (messages_fetch client channel (fetchLimit a))
        (fun _ => CallFetchMessages (ch_id channel) (fetchLimit a)) in
  ret (text_result (read_text line a messages)).

Definition queue_notice (error : JsError) : string :=
  let isAuthError :=
    includes "Token" (error_message error)
    || includes "Auth" (error_message error) in
  let suggestion :=
    if isAuthError
    then "設定をご確認ください。"
    else "接続が不安定なようです。VSCodeウィンドウをリロード(Ctrl+R)すると改善する場合があります。" in
  "⚠️ [QUEUE] メッセージを送信待ちリストに保存しました。" +:+ nl
  +:+ suggestion +:+ nl +:+ "(現在、再接続を試みています...)".

Definition messageContent (a : SendMessageSchema.t) : string :=
  let projectName :=
    match SendMessageSchema.project_name a with
    | Some project_name => or_else project_name (projectName CONFIG)
    | None => projectName CONFIG
    end in
  if truthy projectName
  then "[" +:+ projectName +:+ "] " +:+ SendMessageSchema.content a
  else SendMessageSchema.content a.

(** The inner [try] block of [send_message]. *)
Definition send_now (a : SendMessageSchema.t) : @M W CallToolResult :=
  let channel_name := SendMessageSchema.channel_name a in
  run ensureConnected in
  let* channel := getChannelByName channel_name in
  run send channel (messageContent a) in
  ret (text_result ("✅ Message sent to #" +:+ channel_name)).

(** What the inner [catch] pushes. *)
Definition queued (a : SendMessageSchema.t) : PendingMessage.t :=
  {| PendingMessage.channel_name := SendMessageSchema.channel_name a;
     PendingMessage.content := messageContent a |}.

Definition send_message (args : Arguments_) : @M W CallToolResult :=
  let* a := of_result (SendMessageSchema.parse args) in
  try_catch
    (send_now a)
    (fun error =>
       run update (push (queued a)) in
       ret (text_result (queue_notice error))).

Definition add_reaction (args : Arguments_) : @M W CallToolResult :=
  let* a := of_result (ReactionSchema.parse args) in
  let message_id := ReactionSchema.message_id a in
  let emoji := or_else (ReactionSchema.emoji a) check_mark in
  let* channel := getChannelByName (ReactionSchema.channel_name a) in
  let* message :=
    ask (messages_fetch_one client channel message_id)
        (fun _ => CallFetchMessage (ch_id channel) message_id) in
  run ask (message_react client message emoji)
          (fun _ => CallReact message_id emoji) in
  ret (text_result ("Added " +:+ emoji +:+ " to message " +:+ message_id)).

(** The names in the answer of the handler of [ListToolsRequestSchema]. *)
Definition tools : list string :=
  ["read_recent_messages"; "send_message"; "add_reaction"].

(** The handler of [CallToolRequestSchema]. *)
Definition callTool (request : CallToolRequest) : @M W CallToolResult :=
  try_catch
    (run (if decide (name request = "send_message")
          then ret tt else ensureConnected) in
     if decide (name request = "read_recent_messages")
     then read_recent_messages (arguments request)
     else if decide (name request = "send_message")
     then send_message (arguments request)
     else if decide (name request = "add_reaction")
     then add_reaction (arguments request)
     else throw (McpError MethodNotFound ("Unknown tool: " +:+ name request)))
    rethrow.

End Server.
End V101.

(* ================================================================== *)
(** * Version 1.0.0: [src/index.ts]                                    *)
(* ================================================================== *)

Module V100.
Section Server.
Context {W : Type} (client : Platform W) (toISOString : Z -> string).

(** ** [setupDiscordEvents]: the [ready] listener only sets the flag. *)

Definition on_ready (s : DiscordMcpServer) : DiscordMcpServer :=
  if readyListener s then set_ready true (set_readyListener false s) else s.

(** ** [getChannelByName] *)

Definition getChannelByName (name : string) : @M W Channel :=
  fun s =>
    if negb (ready (fst s))
    then (Throw (McpError InternalError "Discord client is not ready yet."), s)
    else match findChannel (guilds_cache client (snd s)) name with
         | Some channel => (Ok channel, s)
         | None =>
             (Throw (McpError InvalidParams
                       ("Channel #" +:+ name +:+ " not found in any guild.")), s)
         end.

(** ** [setupToolHandlers] *)

Definition line (m : Message.t) : string :=
  let attachments := String.concat ", " (Message.attachments m) in
  let allReactions :=
    String.concat " "
      (map (fun r => default EmptyString (emoji_name r))
           (Message.reactions_cache m)) in
  "ID:" +:+ Message.id m +:+ " " +:+ isRead m
  +:+ " [" +:+ toISOString (Message.createdAt m) +:+ "] "
  +:+ Message.author_username m +:+ ": " +:+ Message.content m +:+ " "
  +:+ (if truthy attachments then "(Files: " +:+ attachments +:+ ")"
       else EmptyString)
  +:+ " "
  +:+ (if truthy allReactions then "(Reactions: " +:+ allReactions +:+ ")"
       else EmptyString).

Definition read_recent_messages (args : Arguments_) : @M W CallToolResult :=
  let* a := of_result (ReadMessagesSchema.parse args) in
  let* channel := getChannelByName (ReadMessagesSchema.channel_name a) in
  let* messages :=
    ask (messages_fetch client channel (fetchLimit a))
        (fun _ => CallFetchMessages (ch_id channel) (fetchLimit a)) in
  ret (text_result (read_text line a messages)).

Definition send_message (args : Arguments_) : @M W CallToolResult :=
  let* a := of_result (SendMessageSchema.parse_v100 args) in
  let channel_name := SendMessageSchema.channel_name a in
  let* channel := getChannelByName channel_name in
  run ask (channel_send client channel (SendMessageSchema.content a))
          (fun r => CallSend (ch_id channel) (SendMessageSchema.content a) (is_Ok r)) in
  ret (text_result ("Message sent to #" +:+ channel_name)).

Definition add_reaction (args : Arguments_) : @M W CallToolResult :=
  let* a := of_result (ReactionSchema.parse args) in
  let message_id := ReactionSchema.message_id a in
  let emoji := or_else (ReactionSchema.emoji a) check_mark in
  let* channel := getChannelByName (ReactionSchema.channel_name a) in
  let* message :=
    ask (messages_fetch_one client channel message_id)
        (fun _ => CallFetchMessage (ch_id channel) message_id) in
  run ask (message_react client message emoji)
          (fun _ => CallReact message_id emoji) in
  ret (text_result ("Added " +:+ emoji +:+ " to message " +:+ message_id)).

Definition remove_reaction (args : Arguments_) : @M W CallToolResult :=
  let* a := of_result (ReactionSchema.parse args) in
  let message_id := ReactionSchema.message_id a in
  let emoji := or_else (ReactionSchema.emoji a) check_mark in
  let* channel := getChannelByName (ReactionSchema.channel_name a) in
  let* message :=
    ask (messages_fetch_one client channel message_id)
        (fun _ => CallFetchMessage (ch_id channel) message_id) in
  let reaction :=
    List.find (fun r => bool_decide (emoji_name r = Some emoji))
              (Message.reactions_cache message) in
  match reaction with
  | Some reaction =>
      run ask (reaction_users_remove client message reaction)
              (fun _ => CallRemoveReaction message_id (emoji_name reaction)) in
      ret (text_result ("Removed " +:+ emoji +:+ " from message " +:+ message_id))
  | None =>
      ret (text_result
             ("Reaction " +:+ emoji +:+ " not found on message " +:+ message_id))
  end.

Definition delete_message (args : Arguments_) : @M W CallToolResult :=
  let* a := of_result (DeleteMessageSchema.parse args) in
  let message_id := DeleteMessageSchema.message_id a in
  let* channel := getChannelByName (DeleteMessageSchema.channel_name a) in
  let* message :=
    ask (messages_fetch_one client channel message_id)
        (fun _ => CallFetchMessage (ch_id channel) message_id) in
  run ask (message_delete client message)
          (fun _ => CallDelete message_id) in
  ret (text_result ("Deleted message " +:+ message_id)).

(** The names in the answer of the handler of [ListToolsRequestSchema]. *)
Definition tools : list string :=
  ["read_recent_messages"; "send_message"; "add_reaction";
   "remove_reaction"; "delete_message"].

(** The handler of [CallToolRequestSchema]. *)
Definition callTool (request : CallToolRequest) : @M W CallToolResult :=
  try_catch
    (if decide (name request = "read_recent_messages")
     then read_recent_messages (arguments request)
     else if decide (name request = "send_message")
     then send_message (arguments request)
     else if decide (name request = "add_reaction")
     then add_reaction (arguments request)
     else if decide (name request = "remove_reaction")
     then remove_reaction (arguments request)
     else if decide (name request = "delete_message")
     then delete_message (arguments request)
     else throw (McpError MethodNotFound ("Unknown tool: " +:+ name request)))
    rethrow.

End Server.
End V100.



(** Order of a fetched window, by [createdAt]. *)
Definition newest_first (l : list Message.t) : Prop :=
  StronglySorted (fun m1 m2 => Message.createdAt m2 <= Message.createdAt m1) l.

Definition oldest_first (l : list Message.t) : Prop :=
  StronglySorted (fun m1 m2 => Message.createdAt m1 <= Message.createdAt m2) l.

(** A message carries the bot's own check mark. *)
Definition own_check (m : Message.t) : Prop :=
  exists r, In r (Message.reactions_cache m)
            /\ emoji_name r = Some check_mark /\ me r = true.

(** A channel that [getChannelByName name] would accept. *)
Definition text_channel_named (name : string) (guilds : list Guild) : Prop :=
  exists guild c, In guild guilds /\ In c (channels_cache guild)
                  /\ ch_name c = name /\ ch_isTextBased c = true.

(* ================================================================== *)
(** * A scripted client, for the examples                              *)
(* ================================================================== *)

Module Fake.
Record World := {
  guilds : list Guild;
  script : LoginScript;
  history : list Message.t;
  closed : list string;
  outbox : list (string * string) }.

Definition deliver_to (c : Channel) (body : string) (w : World) : World :=
  {| guilds := guilds w; script := script w; history := history w;
     closed := closed w; outbox := outbox w ++ [(ch_id c, body)] |}.

(** Login follows [script]; a fetch answers with the newest [limit]
    messages of [history]; a send fails on the channels in [closed]. *)
Definition client : Platform World :=
  {| guilds_cache := guilds;
     client_login := fun w => (script w, w);
     messages_fetch := fun c limit w => (Ok (take (Z.to_nat limit) (history w)), w);
     messages_fetch_one := fun c message_id w =>
       (match List.find (fun m => bool_decide (Message.id m = message_id))
                        (history w) with
        | Some m => Ok m
        | None => Throw (PlainError "Unknown Message")
        end, w);
     channel_send := fun c body w =>
       if bool_decide (ch_id c ∈ closed w)
       then (Throw (PlainError "Missing Access"), w)
       else (Ok tt, deliver_to c body w);
     message_react := fun m e w => (Ok tt, w);
     reaction_users_remove := fun m r w => (Ok tt, w);
     message_delete := fun m w => (Ok tt, w) |}.

Definition general : Channel :=
  {| ch_id := "100"; ch_name := "general"; ch_isTextBased := true |}.
Definition inbox : Channel :=
  {| ch_id := "101"; ch_name := "inbox"; ch_isTextBased := true |}.
Definition lounge : Channel :=
  {| ch_id := "102"; ch_name := "lounge"; ch_isTextBased := false |}.

Definition home : Guild := {| channels_cache := [lounge; general; inbox] |}.

Definition logs_in : LoginScript :=
  {| during_login := []; login_result := Ok tt; race := RaceReady; ticks := 0 |}.
Definition times_out : LoginScript :=
  {| during_login := []; login_result := Ok tt; race := RaceTimeout; ticks := 0 |}.

Definition message (n : nat) (reactions : list MessageReaction) : Message.t :=
  {| Message.id := pretty n; Message.createdAt := 1000 - Z.of_nat n;
     Message.author_username := "alice"; Message.content := "hello";
     Message.attachments := []; Message.reactions_cache := reactions |}.

Definition mine : MessageReaction := {| emoji_name := Some check_mark; me := true |}.
Definition theirs : MessageReaction := {| emoji_name := Some check_mark; me := false |}.

Definition world (s : LoginScript) (h : list Message.t) (c : list string) : World :=
  {| guilds := [home]; script := s; history := h; closed := c; outbox := [] |}.

Definition toISOString (t : Z) : string := "T" +:+ pretty t.

Definition CONFIG : Config := {| projectName := "mcp-servers"; token := "secret" |}.

Definition online : DiscordMcpServer :=
  set_ready true (set_readyListener false constructor).

Definition request (n : string) (fields : list (string * Json)) : CallToolRequest :=
  {| name := n; arguments := Some (list_to_map fields) |}.
Definition read_args (limit : Z) (unread : bool) : Arguments_ :=
  Some (list_to_map [("channel_name", JStr "general");
                     ("limit", JNum limit);
                     ("unread_only", JBool unread)]).

Definition read_parsed (limit : Z) (unread : bool) : ReadMessagesSchema.t :=
  {| ReadMessagesSchema.channel_name := "general";
     ReadMessagesSchema.limit := limit;
     ReadMessagesSchema.unread_only := unread;
     ReadMessagesSchema.reaction_filter := None |}.

Definition three_messages : list Message.t :=
  [message 1 []; message 2 [mine]; message 3 [theirs]].

Definition hundred_messages : list Message.t :=
  map (fun n => message n []) (seq 0 100).

Definition send_args : Arguments_ :=
  Some (list_to_map [("channel_name", JStr "general"); ("content", JStr "hi")]).

Definition send_parsed : SendMessageSchema.t :=
  {| SendMessageSchema.channel_name := "general";
     SendMessageSchema.content := "hi";
     SendMessageSchema.project_name := None |}.

Definition hi : PendingMessage.t :=
  {| PendingMessage.channel_name := "general";
     PendingMessage.content := "[mcp-servers] hi" |}.
End Fake.

(* ================================================================== *)
(** * Start-up: command line, environment and [CONFIG]                 *)
(* ================================================================== *)

Module Startup.

(** [s.split(sep)] for a separator of one character. *)
Fixpoint split (sep : Ascii.ascii) (s : string) : list string :=
  match s with
  | EmptyString => [EmptyString]
  | String c rest =>
      if Ascii.eqb c sep then EmptyString :: split sep rest
      else match split sep rest with
           | piece :: pieces => String c piece :: pieces
           | [] => [String c EmptyString]
           end
  end.

Definition equals_sign : Ascii.ascii := Ascii.ascii_of_nat 61.

(** [parseCliArg(prefix)] over [process.argv]. *)
Definition parseCliArg (argv : list string) (prefix : string) : option string :=
  let arg := List.find (fun a => String.prefix (prefix +:+ "=") a) argv in
  match arg with
  | Some arg => if truthy arg then nth_error (split equals_sign arg) 1 else None
  | None => None
  end.

(** [a || b] where [a] may be undefined. *)
Definition or_undefined (a b : option string) : option string :=
  if truthy_opt a then a else b.

(** [CONFIG.projectName], from [process.argv] and [process.env]. *)
Definition CONFIG_projectName (argv : list string) (env : gmap string string) : string :=
  default "mcp-servers"
    (or_undefined
       (or_undefined
          (or_undefined (parseCliArg argv "--project-name")
                        (env !! "PROJECT_NAME"))
          (env !! "MCP_PROJECT_NAME"))
       (Some "mcp-servers")).

(** [CONFIG], for a process that gets past the token check; [None] is
    [process.exit(1)]. *)
Definition CONFIG (argv : list string) (env : gmap string string) : option Config :=
  match env !! "DISCORD_BOT_TOKEN" with
  | Some t =>
      if truthy t
      then Some {| projectName := CONFIG_projectName argv env; token := t |}
      else None
  | None => None
  end.

End Startup.

(** [s.includes(c)] for one character. *)
Fixpoint has_char (c : Ascii.ascii) (s : string) : bool :=
  match s with
  | EmptyString => false
  | String d rest => Ascii.eqb d c || has_char c rest
  end.




(** The first character of every line of a read. *)
Definition letter_I : Ascii.ascii := Ascii.ascii_of_nat 73.


(** More requests for the examples. *)
Module Samples.
Definition red : string := "🔴".

Definition flagged : MessageReaction := {| emoji_name := Some red; me := false |}.

Definition window : list Message.t :=
  [Fake.message 1 [flagged]; Fake.message 2 []; Fake.message 3 [flagged; Fake.mine]].

Definition filter_args (filter : string) : Arguments_ :=
  Some (list_to_map [("channel_name", JStr "general");
                     ("reaction_filter", JStr filter)]).

Definition filter_parsed (filter : option string) : ReadMessagesSchema.t :=
  {| ReadMessagesSchema.channel_name := "general";
     ReadMessagesSchema.limit := 10;
     ReadMessagesSchema.unread_only := false;
     ReadMessagesSchema.reaction_filter := filter |}.

Definition bare_args : Arguments_ :=
  Some (list_to_map [("channel_name", JStr "general")]).

Definition target_args (message_id : string) : Arguments_ :=
  Some (list_to_map [("channel_name", JStr "general");
                     ("message_id", JStr message_id)]).

Definition target_parsed (message_id : string) : ReactionSchema.t :=
  {| ReactionSchema.channel_name := "general";
     ReactionSchema.message_id := message_id;
     ReactionSchema.emoji := check_mark |}.

Definition delete_parsed (message_id : string) : DeleteMessageSchema.t :=
  {| DeleteMessageSchema.channel_name := "general";
     DeleteMessageSchema.message_id := message_id |}.
End Samples.


(** A computation that leaves the session alone and asks the client at
    most [n] things, none of them a login. *)
Definition only_asks (n : nat) (s s' : DiscordMcpServer) : Prop :=
  ready s' = ready s /\ loggingIn s' = loggingIn s
  /\ pendingMessages s' = pendingMessages s
  /\ loginPromise s' = loginPromise s
  /\ background s' = background s
  /\ exists log, calls s' = calls s ++ log
                 /\ (length log <= n)%nat
                 /\ ~ In CallLogin log.

Definition asks {W A : Type} (n : nat) (m : @M W A) : Prop :=
  forall st, only_asks n (fst st) (fst (snd (m st))).

(** A handler whose answers are single text blocks. *)
Definition answers_text {W : Type} (m : @M W CallToolResult) : Prop :=
  forall st response,
    fst (m st) = Ok response -> exists text, response = text_result text.

(** What the listeners leave alone once the [ready] listener has gone:
    the queue, the drains and the log; and a session that is not ready
    stays so. *)
Definition spent_frame (s s' : DiscordMcpServer) : Prop :=
  readyListener s' = false
  /\ pendingMessages s' = pendingMessages s
  /\ background s' = background s
  /\ calls s' = calls s
  /\ (ready s = false -> ready s' = false).

(** What a turn of a drain leaves alone: the flags of the session, its
    attempts and their promises, and the number of logins. *)
Definition session_kept (s s' : DiscordMcpServer) : Prop :=
  ready s' = ready s /\ loggingIn s' = loggingIn s
  /\ loginPromise s' = loginPromise s /\ readyListener s' = readyListener s
  /\ attempts s' = attempts s /\ settled s' = settled s
  /\ settlements s' = settlements s /\ logins s' = logins s.

(** The messages a suspended drain still answers for. *)
Definition in_hand (d : Drain) : list PendingMessage.t :=
  match d with
  | AwaitChannel msg _ rest => msg :: rest
  | AwaitSend msg _ rest => msg :: rest
  end.

(** A send of the body of a queued message is in the log. *)
Definition send_issued (msg : PendingMessage.t) (log : list Call) : Prop :=
  exists channel delivered,
    In (CallSend channel (PendingMessage.content msg +:+ delay_note) delivered) log.

(** Where a message can be once it has been handed to a drain: back in
    the queue, in the hands of a drain that has not finished, or sent. *)
Definition accounted (msg : PendingMessage.t) (s : DiscordMcpServer) : Prop :=
  In msg (pendingMessages s)
  \/ (exists d, In d (background s) /\ In msg (in_hand d))
  \/ send_issued msg (calls s).

(** What is known of the messages [queued] while a drain is at work on
    them: each is back in the queue, in the hands of the drain [d], or its
    send is in the log. *)
Definition in_work (queued : list PendingMessage.t) (d : option Drain)
  (u : DiscordMcpServer) : Prop :=
  forall x, In x queued ->
    In x (pendingMessages u)
    \/ (exists d0, d = Some d0 /\ In x (in_hand d0))
    \/ send_issued x (calls u).

(** A bound on the turns a drain still needs. *)
Definition drain_measure (d : option Drain) : nat :=
  match d with
  | None => 0
  | Some (AwaitChannel _ _ rest) => 2 * length rest + 2
  | Some (AwaitSend _ _ rest) => 2 * length rest + 1
  end.

(** What the first turn of a drain does with the first message [msg] of
    its snapshot, in the world [w]: the send is in the log when the
    channel exists, the message is back in the queue when it does not. *)
Definition first_tried {W : Type} (client : Platform W) (w : W)
  (msg : PendingMessage.t) (s : DiscordMcpServer) : Prop :=
  match findChannel (guilds_cache client w) (PendingMessage.channel_name msg) with
  | Some channel =>
      let body := PendingMessage.content msg +:+ delay_note in
      In (CallSend (ch_id channel) body
            (is_Ok (fst (channel_send client channel body w)))) (calls s)
  | None => In msg (pendingMessages s)
  end.

(* ================================================================== *)
(** * Properties                                                       *)
(* ================================================================== *)

(** ** Strings and lists *)

Lemma prefix_app (a b : string) : String.prefix a (a +:+ b) = true.
Proof.
  induction a as [|c a IH]; simpl.
  - now destruct b.
  - destruct (Ascii.ascii_dec c c) as [_|Hc]; [exact IH | now elim Hc].
Qed.

Lemma includes_prefix (n h : string) :
  String.prefix n h = true -> includes n h = true.
Proof. intros H. destruct h; cbn [includes]; rewrite H; reflexivity. Qed.

Lemma includes_app (n a b : string) : includes n (a +:+ n +:+ b) = true.
Proof.
  induction a as [|c a IH].
  - change (EmptyString +:+ n +:+ b) with (n +:+ b).
    apply includes_prefix, prefix_app.
  - change (String c a +:+ n +:+ b) with (String c (a +:+ n +:+ b)).
    cbn [includes]. rewrite IH. now destruct (String.prefix _ _).
Qed.

Lemma slice0_nonneg {A : Type} (e : Z) (l : list A) :
  0 <= e -> slice0 e l = take (Z.to_nat e) l.
Proof.
  intros He. unfold slice0.
  destruct (e <? 0) eqn:E; [apply Z.ltb_lt in E; lia | reflexivity].
Qed.

Lemma slice0_take {A : Type} (e : Z) (l : list A) :
  exists n, slice0 e l = take n l.
Proof. unfold slice0. destruct (e <? 0); eauto. Qed.

Lemma StronglySorted_take {A : Type} (R : A -> A -> Prop) (n : nat) (l : list A) :
  StronglySorted R l -> StronglySorted R (take n l).
Proof.
  intros H. revert n.
  induction H as [|x l Hl IH Hx]; intros [|n]; simpl; try constructor.
  - apply IH.
  - now apply Forall_take.
Qed.

Lemma Forall_filter_bool {A : Type} (P : A -> Prop) (f : A -> bool) (l : list A) :
  Forall P l -> Forall P (List.filter f l).
Proof.
  induction 1 as [|x l Hx Hl IH]; simpl; [constructor|].
  destruct (f x); [constructor|]; assumption.
Qed.

Lemma StronglySorted_filter {A : Type} (R : A -> A -> Prop) (f : A -> bool)
  (l : list A) :
  StronglySorted R l -> StronglySorted R (List.filter f l).
Proof.
  induction 1 as [|x l Hl IH Hx]; simpl; [constructor|].
  destruct (f x); [|exact IH].
  constructor; [exact IH | now apply Forall_filter_bool].
Qed.

Lemma StronglySorted_snoc {A : Type} (R : A -> A -> Prop) (l : list A) (x : A) :
  StronglySorted R l -> Forall (fun y => R y x) l -> StronglySorted R (l ++ [x]).
Proof.
  induction 1 as [|y l Hl IH Hy]; intros Hx; simpl.
  - repeat constructor.
  - inversion Hx as [|? ? Hyx Hlx]; subst.
    constructor; [now apply IH|].
    apply Forall_app. split; [exact Hy | now constructor].
Qed.

Lemma StronglySorted_rev {A : Type} (R : A -> A -> Prop) (l : list A) :
  StronglySorted R l -> StronglySorted (fun a b => R b a) (rev l).
Proof.
  induction 1 as [|x l Hl IH Hx]; simpl; [constructor|].
  apply StronglySorted_snoc; [exact IH | now apply List.Forall_rev].
Qed.

(** ** Running the handlers *)

Ltac route :=
  cbn [name arguments]; repeat (case_decide; try congruence).

Ltac monad_unfold :=
  unfold bind, of_result, ret, throw, ask, this, update, try_catch;
  cbn [fst snd].

Section Runs.
Context {W : Type} (client : Platform W) (CONFIG : Config)
        (toISOString : Z -> string).

Lemma ensureConnected_ready (s : DiscordMcpServer) (w : W) :
  ready s = true -> V101.ensureConnected client (s, w) = (Ok tt, (s, w)).
Proof.
  intros H. unfold V101.ensureConnected, V101.ensureConnected_enter.
  cbn [fst snd]. rewrite H. reflexivity.
Qed.

Lemma getChannelByName_found_V101 (n : string) (s : DiscordMcpServer) (w : W)
  (channel : Channel) :
  ready s = true -> findChannel (guilds_cache client w) n = Some channel ->
  V101.getChannelByName client n (s, w) = (Ok channel, (s, w)).
Proof.
  intros Hr Hc. unfold V101.getChannelByName. cbn [fst snd]. now rewrite Hr, Hc.
Qed.

Lemma getChannelByName_found_V100 (n : string) (s : DiscordMcpServer) (w : W)
  (channel : Channel) :
  ready s = true -> findChannel (guilds_cache client w) n = Some channel ->
  V100.getChannelByName client n (s, w) = (Ok channel, (s, w)).
Proof.
  intros Hr Hc. unfold V100.getChannelByName. cbn [fst snd]. now rewrite Hr, Hc.
Qed.

(** A read that reaches the fetch, in the rewrite: one request to the
    client, with [fetchLimit], and the text made of its answer. *)
Lemma read_run_V101 (args : Arguments_) (a : ReadMessagesSchema.t)
  (s : DiscordMcpServer) (w : W) (channel : Channel) :
  ReadMessagesSchema.parse args = Ok a ->
  ready s = true ->
  findChannel (guilds_cache client w) (ReadMessagesSchema.channel_name a)
    = Some channel ->
  V101.callTool client CONFIG toISOString
    {| name := "read_recent_messages"; arguments := args |} (s, w)
  = (match fst (messages_fetch client channel (fetchLimit a) w) with
     | Ok messages =>
         Ok (text_result (read_text (V101.line toISOString) a messages))
     | Throw e => fst (@rethrow W CallToolResult e (s, w))
     end,
     (log_call (CallFetchMessages (ch_id channel) (fetchLimit a)) s,
      snd (messages_fetch client channel (fetchLimit a) w))).
Proof.
  intros Hp Hr Hc.
  unfold V101.callTool. route.
  unfold V101.read_recent_messages. monad_unfold.
  rewrite (ensureConnected_ready s w Hr), Hp. cbn [fst snd].
  rewrite (getChannelByName_found_V101 _ s w channel Hr Hc). cbn [fst snd].
  destruct (messages_fetch client channel (fetchLimit a) w) as [[ms|e] w'];
    cbn [fst snd]; [reflexivity|].
  destruct e; reflexivity.
Qed.

Lemma read_run_V100 (args : Arguments_) (a : ReadMessagesSchema.t)
  (s : DiscordMcpServer) (w : W) (channel : Channel) :
  ReadMessagesSchema.parse args = Ok a ->
  ready s = true ->
  findChannel (guilds_cache client w) (ReadMessagesSchema.channel_name a)
    = Some channel ->
  V100.callTool client toISOString
    {| name := "read_recent_messages"; arguments := args |} (s, w)
  = (match fst (messages_fetch client channel (fetchLimit a) w) with
     | Ok messages =>
         Ok (text_result (read_text (V100.line toISOString) a messages))
     | Throw e => fst (@rethrow W CallToolResult e (s, w))
     end,
     (log_call (CallFetchMessages (ch_id channel) (fetchLimit a)) s,
      snd (messages_fetch client channel (fetchLimit a) w))).
Proof.
  intros Hp Hr Hc.
  unfold V100.callTool. route.
  unfold V100.read_recent_messages. monad_unfold.
  rewrite Hp. cbn [fst snd].
  rewrite (getChannelByName_found_V100 _ s w channel Hr Hc). cbn [fst snd].
  destruct (messages_fetch client channel (fetchLimit a) w) as [[ms|e] w'];
    cbn [fst snd]; [reflexivity|].
  destruct e; reflexivity.
Qed.

End Runs.

(** ** The read path *)

Lemma filter_messages_sorted (R : Message.t -> Message.t -> Prop)
  (a : ReadMessagesSchema.t) (messages : list Message.t) :
  StronglySorted R messages -> StronglySorted R (filter_messages a messages).
Proof.
  intros H. unfold filter_messages.
  assert (H1 : StronglySorted R
                 match ReadMessagesSchema.reaction_filter a with
                 | Some rf => if truthy rf
                              then List.filter (some_reaction rf) messages
                              else messages
                 | None => messages
                 end).
  { destruct (ReadMessagesSchema.reaction_filter a) as [rf|]; [|exact H].
    destruct (truthy rf); [now apply StronglySorted_filter | exact H]. }
  destruct (ReadMessagesSchema.unread_only a);
    [now apply StronglySorted_filter | exact H1].
Qed.

Lemma filter_messages_length (a : ReadMessagesSchema.t) (messages : list Message.t) :
  (length (filter_messages a messages) <= length messages)%nat.
Proof.
  unfold filter_messages.
  assert (H1 : (length
                 match ReadMessagesSchema.reaction_filter a with
                 | Some rf => if truthy rf
                              then List.filter (some_reaction rf) messages
                              else messages
                 | None => messages
                 end <= length messages)%nat).
  { destruct (ReadMessagesSchema.reaction_filter a) as [rf|]; [|lia].
    destruct (truthy rf); [apply List.filter_length_le | lia]. }
  destruct (ReadMessagesSchema.unread_only a); [|exact H1].
  etransitivity; [apply List.filter_length_le | exact H1].
Qed.

Lemma myReaction_none (m : Message.t) :
  found (myReaction m) = false -> ~ own_check m.
Proof.
  unfold myReaction. intros H (r & Hin & He & Hme).
  destruct (List.find _ _) eqn:E; [discriminate|].
  pose proof (List.find_none _ _ E r Hin) as Hr. cbn beta in Hr.
  rewrite Hme, bool_decide_eq_true_2 in Hr; [discriminate | exact He].
Qed.

Lemma unread_only_filtered (a : ReadMessagesSchema.t) (messages : list Message.t) :
  ReadMessagesSchema.unread_only a = true ->
  Forall (fun m => found (myReaction m) = false) (filter_messages a messages).
Proof.
  intros H. unfold filter_messages. rewrite H.
  apply List.Forall_forall. intros m Hm. apply List.filter_In in Hm.
  destruct Hm as [_ Hm]. now apply negb_true_iff in Hm.
Qed.

Lemma lines_map (line : Message.t -> string) (a : ReadMessagesSchema.t)
  (messages : list Message.t) :
  lines line a messages = map line (rev (selected a messages)).
Proof. unfold lines. symmetry. apply List.map_rev. Qed.

(** C8. A [read_recent_messages] call that reaches the fetch asks the
    client for exactly [min(limit, 50)] messages when neither
    [unread_only] nor [reaction_filter] is active, and for exactly
    [min(limit * 3, 100)] when at least one of them is: that number is
    what the log records and what the client answers to, in both versions
    of the server. *)
Theorem fetch_requests_clamped_limit {W : Type} (client : Platform W)
  (CONFIG : Config) (toISOString : Z -> string) (args : Arguments_)
  (a : ReadMessagesSchema.t) (s : DiscordMcpServer) (w : W) (channel : Channel) :
  ReadMessagesSchema.parse args = Ok a ->
  ready s = true ->
  findChannel (guilds_cache client w) (ReadMessagesSchema.channel_name a)
    = Some channel ->
  exists requested : Z,
    snd (V101.callTool client CONFIG toISOString
           {| name := "read_recent_messages"; arguments := args |} (s, w))
    = (log_call (CallFetchMessages (ch_id channel) requested) s,
       snd (messages_fetch client channel requested w))
    /\ snd (V100.callTool client toISOString
              {| name := "read_recent_messages"; arguments := args |} (s, w))
       = (log_call (CallFetchMessages (ch_id channel) requested) s,
          snd (messages_fetch client channel requested w))
    /\ (ReadMessagesSchema.unread_only a = false ->
        truthy_opt (ReadMessagesSchema.reaction_filter a) = false ->
        requested = Z.min (ReadMessagesSchema.limit a) 50)
    /\ (ReadMessagesSchema.unread_only a = true
        \/ truthy_opt (ReadMessagesSchema.reaction_filter a) = true ->
        requested = Z.min (ReadMessagesSchema.limit a * 3) 100).
Proof.
  intros Hp Hr Hc. exists (fetchLimit a).
  rewrite (read_run_V101 client CONFIG toISOString args a s w channel Hp Hr Hc).
  rewrite (read_run_V100 client toISOString args a s w channel Hp Hr Hc).
  cbn [fst snd]. repeat split.
  - intros Hu Hf. unfold fetchLimit, filtering. now rewrite Hu, Hf.
  - intros H. unfold fetchLimit, filtering.
    destruct H as [H|H]; rewrite H; [reflexivity|].
    now rewrite orb_true_r.
Qed.

(** C6. When the fetch delivers its window newest-first, the lines of a
    [read_recent_messages] result are those of the messages that survive
    the filters, cut to the first [limit] of them and then reversed, so
    they run from the oldest to the newest. *)
Theorem read_output_oldest_first {W : Type} (client : Platform W)
  (CONFIG : Config) (toISOString : Z -> string) (args : Arguments_)
  (a : ReadMessagesSchema.t) (s : DiscordMcpServer) (w : W) (channel : Channel)
  (messages : list Message.t) :
  ReadMessagesSchema.parse args = Ok a ->
  ready s = true ->
  findChannel (guilds_cache client w) (ReadMessagesSchema.channel_name a)
    = Some channel ->
  fst (messages_fetch client channel (fetchLimit a) w) = Ok messages ->
  newest_first messages ->
  exists shown : list Message.t,
    fst (V101.callTool client CONFIG toISOString
           {| name := "read_recent_messages"; arguments := args |} (s, w))
    = Ok (text_result
            (or_else (String.concat nl (map (V101.line toISOString) shown))
                     "No messages found."))
    /\ shown = rev (slice0 (ReadMessagesSchema.limit a) (filter_messages a messages))
    /\ (0 <= ReadMessagesSchema.limit a ->
        shown = rev (take (Z.to_nat (ReadMessagesSchema.limit a))
                          (filter_messages a messages)))
    /\ oldest_first shown.
Proof.
  intros Hp Hr Hc Hf Hs.
  exists (rev (selected a messages)).
  rewrite (read_run_V101 client CONFIG toISOString args a s w channel Hp Hr Hc).
  cbn [fst snd]. rewrite Hf. unfold read_text. rewrite lines_map.
  repeat split.
  - intros Hl. unfold selected. now rewrite slice0_nonneg.
  - unfold oldest_first, selected.
    destruct (slice0_take (ReadMessagesSchema.limit a) (filter_messages a messages))
      as [n ->].
    apply (StronglySorted_rev
             (fun m1 m2 => Message.createdAt m2 <= Message.createdAt m1)).
    apply StronglySorted_take. now apply filter_messages_sorted.
Qed.

(** C7. With [unread_only] set, no message of a [read_recent_messages]
    result carries the bot's own check mark: every such message was
    removed by the unread filter, and every line is marked [NEW]. *)
Theorem unread_only_hides_own_check {W : Type} (client : Platform W)
  (CONFIG : Config) (toISOString : Z -> string) (args : Arguments_)
  (a : ReadMessagesSchema.t) (s : DiscordMcpServer) (w : W) (channel : Channel)
  (messages : list Message.t) :
  ReadMessagesSchema.parse args = Ok a ->
  ReadMessagesSchema.unread_only a = true ->
  ready s = true ->
  findChannel (guilds_cache client w) (ReadMessagesSchema.channel_name a)
    = Some channel ->
  fst (messages_fetch client channel (fetchLimit a) w) = Ok messages ->
  exists shown : list Message.t,
    fst (V101.callTool client CONFIG toISOString
           {| name := "read_recent_messages"; arguments := args |} (s, w))
    = Ok (text_result
            (or_else (String.concat nl (map (V101.line toISOString) shown))
                     "No messages found."))
    /\ shown = rev (selected a messages)
    /\ Forall (fun m => ~ own_check m) shown
    /\ Forall (fun m => isRead m = "[NEW]") shown.
Proof.
  intros Hp Hu Hr Hc Hf.
  exists (rev (selected a messages)).
  rewrite (read_run_V101 client CONFIG toISOString args a s w channel Hp Hr Hc).
  cbn [fst snd]. rewrite Hf. unfold read_text. rewrite lines_map.
  assert (Hall : Forall (fun m => found (myReaction m) = false)
                        (rev (selected a messages))).
  { apply List.Forall_rev. unfold selected.
    destruct (slice0_take (ReadMessagesSchema.limit a) (filter_messages a messages))
      as [n ->].
    apply Forall_take. now apply unread_only_filtered. }
  repeat split.
  - eapply Forall_impl; [exact Hall|]. intros m. apply myReaction_none.
  - eapply Forall_impl; [exact Hall|]. intros m Hm. unfold isRead. now rewrite Hm.
Qed.

(** C10. When the client answers with at most the number of messages it
    was asked for: with [unread_only] or [reaction_filter] active and a
    limit [L > 50], the request is for [min(3 * L, 100)] messages and the
    cut after the filters keeps [L] of the survivors, not 50, so the result
    has [min(L, survivors)] messages and never more than [min(3 * L, 100)];
    with no filter active the result has at most 50 messages. *)
Theorem filtered_read_keeps_limit {W : Type} (client : Platform W)
  (CONFIG : Config) (toISOString : Z -> string) (args : Arguments_)
  (a : ReadMessagesSchema.t) (s : DiscordMcpServer) (w : W) (channel : Channel)
  (messages : list Message.t) :
  ReadMessagesSchema.parse args = Ok a ->
  ready s = true ->
  findChannel (guilds_cache client w) (ReadMessagesSchema.channel_name a)
    = Some channel ->
  fst (messages_fetch client channel (fetchLimit a) w) = Ok messages ->
  Z.of_nat (length messages) <= fetchLimit a ->
  exists shown : list Message.t,
    fst (V101.callTool client CONFIG toISOString
           {| name := "read_recent_messages"; arguments := args |} (s, w))
    = Ok (text_result
            (or_else (String.concat nl (map (V101.line toISOString) shown))
                     "No messages found."))
    /\ fst (V100.callTool client toISOString
              {| name := "read_recent_messages"; arguments := args |} (s, w))
       = Ok (text_result
               (or_else (String.concat nl (map (V100.line toISOString) shown))
                        "No messages found."))
    /\ (filtering a = true -> 50 < ReadMessagesSchema.limit a ->
        fetchLimit a = Z.min (3 * ReadMessagesSchema.limit a) 100
        /\ length shown
           = Nat.min (Z.to_nat (ReadMessagesSchema.limit a))
                     (length (filter_messages a messages))
        /\ Z.of_nat (length shown) <= Z.min (3 * ReadMessagesSchema.limit a) 100)
    /\ (filtering a = false -> Z.of_nat (length shown) <= 50).
Proof.
  intros Hp Hr Hc Hf Hlen.
  exists (rev (selected a messages)).
  rewrite (read_run_V101 client CONFIG toISOString args a s w channel Hp Hr Hc).
  rewrite (read_run_V100 client toISOString args a s w channel Hp Hr Hc).
  cbn [fst snd]. rewrite Hf. unfold read_text. rewrite !lines_map.
  pose proof (filter_messages_length a messages) as Hfl.
  split; [reflexivity|]. split; [reflexivity|]. split.
  - intros Ha HL.
    assert (Hlim : fetchLimit a = Z.min (3 * ReadMessagesSchema.limit a) 100).
    { unfold fetchLimit. rewrite Ha. f_equal. lia. }
    split; [exact Hlim|].
    rewrite length_rev. unfold selected.
    rewrite slice0_nonneg by lia. rewrite length_take.
    split; [reflexivity | lia].
  - intros Ha. rewrite length_rev. unfold selected.
    unfold fetchLimit in Hlen. rewrite Ha in Hlen.
    destruct (slice0_take (ReadMessagesSchema.limit a) (filter_messages a messages))
      as [n ->].
    rewrite length_take. lia.
Qed.

(** ** The read path on the scripted client *)

Lemma three_messages_newest_first : newest_first Fake.three_messages.
Proof.
  unfold newest_first, Fake.three_messages.
  repeat (constructor; [|repeat constructor; cbn; lia]). constructor.
Defined.

Lemma fetch_requests_clamped_limit_witness :
  calls (fst (snd (V101.callTool Fake.client Fake.CONFIG Fake.toISOString
                     {| name := "read_recent_messages";
                        arguments := Fake.read_args 20 true |}
                     (Fake.online, Fake.world Fake.logs_in Fake.three_messages []))))
  = [CallFetchMessages "100" 60].
Proof.
  destruct (fetch_requests_clamped_limit Fake.client Fake.CONFIG Fake.toISOString
              (Fake.read_args 20 true) (Fake.read_parsed 20 true) Fake.online
              (Fake.world Fake.logs_in Fake.three_messages []) Fake.general
              eq_refl eq_refl eq_refl)
    as (requested & H101 & _ & _ & Hsome).
  rewrite H101. rewrite (Hsome (or_introl eq_refl)). reflexivity.
Defined.

Lemma read_output_oldest_first_witness :
  fst (V101.callTool Fake.client Fake.CONFIG Fake.toISOString
         {| name := "read_recent_messages"; arguments := Fake.read_args 2 false |}
         (Fake.online, Fake.world Fake.logs_in Fake.three_messages []))
  = Ok (text_result ("ID:2 [READ] [T998] alice: hello" +:+ nl
                     +:+ "ID:1 [NEW] [T999] alice: hello")).
Proof.
  destruct (read_output_oldest_first Fake.client Fake.CONFIG Fake.toISOString
              (Fake.read_args 2 false) (Fake.read_parsed 2 false) Fake.online
              (Fake.world Fake.logs_in Fake.three_messages []) Fake.general
              (take 2 Fake.three_messages)
              eq_refl eq_refl eq_refl eq_refl
              (StronglySorted_take _ 2 _ three_messages_newest_first))
    as (shown & Htext & Hshown & _ & _).
  rewrite Htext, Hshown. reflexivity.
Defined.

Lemma unread_only_hides_own_check_witness :
  fst (V101.callTool Fake.client Fake.CONFIG Fake.toISOString
         {| name := "read_recent_messages"; arguments := Fake.read_args 10 true |}
         (Fake.online, Fake.world Fake.logs_in Fake.three_messages []))
  = Ok (text_result ("ID:3 [NEW] [T997] alice: hello" +:+ nl
                     +:+ "ID:1 [NEW] [T999] alice: hello")).
Proof.
  destruct (unread_only_hides_own_check Fake.client Fake.CONFIG Fake.toISOString
              (Fake.read_args 10 true) (Fake.read_parsed 10 true) Fake.online
              (Fake.world Fake.logs_in Fake.three_messages []) Fake.general
              Fake.three_messages eq_refl eq_refl eq_refl eq_refl eq_refl)
    as (shown & Htext & Hshown & _ & _).
  rewrite Htext, Hshown. reflexivity.
Defined.

Lemma filtered_read_keeps_limit_witness :
  exists shown : list Message.t,
    fst (V101.callTool Fake.client Fake.CONFIG Fake.toISOString
           {| name := "read_recent_messages"; arguments := Fake.read_args 60 true |}
           (Fake.online, Fake.world Fake.logs_in Fake.hundred_messages []))
    = Ok (text_result
            (or_else (String.concat nl (map (V101.line Fake.toISOString) shown))
                     "No messages found."))
    /\ length shown = 60%nat.
Proof.
  assert (Hlen : Z.of_nat (length Fake.hundred_messages) <= fetchLimit (Fake.read_parsed 60 true))
    by (vm_compute; discriminate).
  destruct (filtered_read_keeps_limit Fake.client Fake.CONFIG Fake.toISOString
              (Fake.read_args 60 true) (Fake.read_parsed 60 true) Fake.online
              (Fake.world Fake.logs_in Fake.hundred_messages []) Fake.general
              Fake.hundred_messages eq_refl eq_refl eq_refl eq_refl Hlen)
    as (shown & Htext & _ & Hkeep & _).
  exists shown. split; [exact Htext|].
  destruct (Hkeep eq_refl eq_refl) as (_ & Hn & _).
  rewrite Hn. reflexivity.
Defined.

(** ** Channel lookup *)

Lemma find_channel_none (c : Channel) (n : string) (l : list Channel) :
  List.find (fun c => bool_decide (ch_name c = n) && ch_isTextBased c) l = None ->
  In c l -> ~ (ch_name c = n /\ ch_isTextBased c = true).
Proof.
  intros Hf Hin [Hn Ht].
  pose proof (List.find_none _ _ Hf c Hin) as H. cbn beta in H.
  rewrite Ht, bool_decide_eq_true_2 in H; [discriminate | exact Hn].
Qed.

Lemma findChannel_none (guilds : list Guild) (n : string) :
  ~ text_channel_named n guilds -> findChannel guilds n = None.
Proof.
  induction guilds as [|g guilds IH]; intros H; simpl; [reflexivity|].
  destruct (List.find _ (channels_cache g)) as [c|] eqn:E.
  - exfalso. apply H. apply List.find_some in E. destruct E as [Hin Hc].
    apply andb_true_iff in Hc. destruct Hc as [Hn Ht].
    apply bool_decide_eq_true_1 in Hn.
    exists g, c. repeat split; auto. now left.
  - apply IH. intros (g' & c & Hg & Hc & Hn & Ht). apply H.
    exists g', c. repeat split; auto. now right.
Qed.

Lemma findChannel_some (guilds : list Guild) (n : string) (c : Channel) :
  findChannel guilds n = Some c ->
  ch_name c = n /\ ch_isTextBased c = true /\ text_channel_named n guilds.
Proof.
  induction guilds as [|g guilds IH]; simpl; [discriminate|].
  destruct (List.find _ (channels_cache g)) as [c'|] eqn:E.
  - intros [= ->]. apply List.find_some in E. destruct E as [Hin Hc].
    apply andb_true_iff in Hc. destruct Hc as [Hn Ht].
    apply bool_decide_eq_true_1 in Hn.
    repeat split; auto. exists g, c. repeat split; auto. now left.
  - intros H. destruct (IH H) as (Hn & Ht & g' & c' & Hg & Hc & Hn' & Ht').
    repeat split; auto. exists g', c'. repeat split; auto. now right.
Qed.

(** C4, as amended. When no text-capable channel of the requested name
    exists in any joined guild, [getChannelByName] fails: while the
    session is ready, with the not-found error (an [McpError] of code
    [InvalidParams]) whose message names the requested channel; while it is
    not, with the not-ready error, which does not depend on the name. The
    server is left as it was. *)
Theorem getChannelByName_absent {W : Type} (client : Platform W)
  (n : string) (s : DiscordMcpServer) (w : W) :
  ~ text_channel_named n (guilds_cache client w) ->
  V101.getChannelByName client n (s, w)
  = (Throw (if ready s
            then McpError InvalidParams ("Channel #" +:+ n +:+ " not found.")
            else McpError InternalError "Discord client is not ready."),
     (s, w))
  /\ V100.getChannelByName client n (s, w)
     = (Throw (if ready s
               then McpError InvalidParams
                      ("Channel #" +:+ n +:+ " not found in any guild.")
               else McpError InternalError "Discord client is not ready yet."),
        (s, w))
  /\ includes n ("Channel #" +:+ n +:+ " not found.") = true
  /\ includes n ("Channel #" +:+ n +:+ " not found in any guild.") = true.
Proof.
  intros H. apply findChannel_none in H.
  unfold V101.getChannelByName, V100.getChannelByName. cbn [fst snd].
  rewrite H. destruct (ready s); cbn [negb];
    repeat split; apply includes_app.
Qed.

Lemma no_channel_x : ~ text_channel_named "x" [Fake.home].
Proof.
  intros (g & c & Hg & Hc & Hn & _).
  destruct Hg as [<-|[]]. cbn in Hc.
  destruct Hc as [<-|[<-|[<-|[]]]]; discriminate Hn.
Defined.

Lemma getChannelByName_absent_witness :
  fst (V101.getChannelByName Fake.client "x"
         (Fake.online, Fake.world Fake.logs_in [] []))
  = Throw (McpError InvalidParams "Channel #x not found.").
Proof.
  destruct (getChannelByName_absent Fake.client "x" Fake.online
              (Fake.world Fake.logs_in [] []) no_channel_x) as (H & _).
  rewrite H. reflexivity.
Defined.

(** C4, as first stated, fails in two places. While the session is not
    ready (here after a disconnect), looking up a channel that no guild has
    is answered with the not-ready error, which is not of the not-found
    kind and does not name the channel. And in the rewrite, [send_message]
    to such a channel on a ready session does not fail at all: the
    message is queued and the response is the queued notice. *)
Lemma getChannelByName_not_ready_counterexample :
  let w := Fake.world Fake.logs_in [] [] in
  let r := fst (V101.getChannelByName Fake.client "x"
                  (V101.on_shardDisconnect Fake.online, w)) in
  let sent := V101.callTool Fake.client Fake.CONFIG Fake.toISOString
                (Fake.request "send_message"
                   [("channel_name", JStr "x"); ("content", JStr "hi")])
                (Fake.online, w) in
  ~ text_channel_named "x" [Fake.home]
  /\ r = Throw (McpError InternalError "Discord client is not ready.")
  /\ (forall message, r <> Throw (McpError InvalidParams message))
  /\ includes "x" "Discord client is not ready." = false
  /\ fst sent
     = Ok (text_result
             (V101.queue_notice (McpError InvalidParams "Channel #x not found.")))
  /\ pendingMessages (fst (snd sent))
     = [ {| PendingMessage.channel_name := "x";
            PendingMessage.content := "[mcp-servers] hi" |} ].
Proof.
  cbv zeta. split; [exact no_channel_x|].
  split; [reflexivity|]. split; [|repeat split; vm_compute; reflexivity].
  intros message. vm_compute. discriminate.
Qed.

(** On a ready session every operation other than the rewrite's
    [send_message] passes the not-found error of the lookup on to its
    caller: the five of 1.0.0, and [read_recent_messages] and
    [add_reaction] of the rewrite. The first part is the scenario of the
    specification. *)
Lemma unknown_channel_fails {W : Type} (client : Platform W)
  (CONFIG : Config) (toISOString : Z -> string) (args : Arguments_)
  (n : string) (s : DiscordMcpServer) (w : W) :
  ready s = true ->
  ~ text_channel_named n (guilds_cache client w) ->
  let missing := McpError InvalidParams ("Channel #" +:+ n +:+ " not found.") in
  let missing' :=
    McpError InvalidParams ("Channel #" +:+ n +:+ " not found in any guild.") in
  (forall a, ReactionSchema.parse args = Ok a ->
             ReactionSchema.channel_name a = n ->
     V101.callTool client CONFIG toISOString
       {| name := "add_reaction"; arguments := args |} (s, w)
     = (Throw missing, (s, w))
     /\ V100.callTool client toISOString
          {| name := "add_reaction"; arguments := args |} (s, w)
        = (Throw missing', (s, w))
     /\ V100.callTool client toISOString
          {| name := "remove_reaction"; arguments := args |} (s, w)
        = (Throw missing', (s, w)))
  /\ (forall a, ReadMessagesSchema.parse args = Ok a ->
                ReadMessagesSchema.channel_name a = n ->
       V101.callTool client CONFIG toISOString
         {| name := "read_recent_messages"; arguments := args |} (s, w)
       = (Throw missing, (s, w))
       /\ V100.callTool client toISOString
            {| name := "read_recent_messages"; arguments := args |} (s, w)
          = (Throw missing', (s, w)))
  /\ (forall a, SendMessageSchema.parse_v100 args = Ok a ->
                SendMessageSchema.channel_name a = n ->
       V100.callTool client toISOString
         {| name := "send_message"; arguments := args |} (s, w)
       = (Throw missing', (s, w)))
  /\ (forall a, DeleteMessageSchema.parse args = Ok a ->
                DeleteMessageSchema.channel_name a = n ->
       V100.callTool client toISOString
         {| name := "delete_message"; arguments := args |} (s, w)
       = (Throw missing', (s, w))).
Proof.
  intros Hr Hc. cbv zeta.
  destruct (getChannelByName_absent client n s w Hc) as (H101 & H100 & _).
  rewrite Hr in H101, H100.
  split; [|split; [|split]]; intros a Hp <-.
  - split; [|split].
    + unfold V101.callTool. route. unfold V101.add_reaction. monad_unfold.
      rewrite (ensureConnected_ready client s w Hr), Hp. cbn [fst snd].
      now rewrite H101.
    + unfold V100.callTool. route. unfold V100.add_reaction. monad_unfold.
      rewrite Hp. cbn [fst snd]. now rewrite H100.
    + unfold V100.callTool. route. unfold V100.remove_reaction. monad_unfold.
      rewrite Hp. cbn [fst snd]. now rewrite H100.
  - split.
    + unfold V101.callTool. route. unfold V101.read_recent_messages.
      monad_unfold.
      rewrite (ensureConnected_ready client s w Hr), Hp. cbn [fst snd].
      now rewrite H101.
    + unfold V100.callTool. route. unfold V100.read_recent_messages.
      monad_unfold. rewrite Hp. cbn [fst snd]. now rewrite H100.
  - unfold V100.callTool. route. unfold V100.send_message. monad_unfold.
    rewrite Hp. cbn [fst snd]. now rewrite H100.
  - unfold V100.callTool. route. unfold V100.delete_message. monad_unfold.
    rewrite Hp. cbn [fst snd]. now rewrite H100.
Qed.

(** ** The dispatcher *)

(** In 1.0.0 each of the five tool names reaches its own handler, and
    every other name is answered with [MethodNotFound]. *)
Lemma callTool_V100_routes {W : Type} (client : Platform W)
  (toISOString : Z -> string) (args : Arguments_) (st : DiscordMcpServer * W) :
  V100.callTool client toISOString
    {| name := "read_recent_messages"; arguments := args |} st
  = try_catch (V100.read_recent_messages client toISOString args) rethrow st
  /\ V100.callTool client toISOString
       {| name := "send_message"; arguments := args |} st
     = try_catch (V100.send_message client args) rethrow st
  /\ V100.callTool client toISOString
       {| name := "add_reaction"; arguments := args |} st
     = try_catch (V100.add_reaction client args) rethrow st
  /\ V100.callTool client toISOString
       {| name := "remove_reaction"; arguments := args |} st
     = try_catch (V100.remove_reaction client args) rethrow st
  /\ V100.callTool client toISOString
       {| name := "delete_message"; arguments := args |} st
     = try_catch (V100.delete_message client args) rethrow st
  /\ forall n : string,
       n ∉ ["read_recent_messages"; "send_message"; "add_reaction";
            "remove_reaction"; "delete_message"] ->
       V100.callTool client toISOString {| name := n; arguments := args |} st
       = (Throw (McpError MethodNotFound ("Unknown tool: " +:+ n)), st).
Proof.
  repeat split; try (unfold V100.callTool; route; reflexivity).
  intros n Hn. unfold V100.callTool. cbn [name arguments].
  repeat (case_decide; [subst n; exfalso; apply Hn; set_solver|]).
  reflexivity.
Qed.

(** In the rewrite three names are routed; every other name, once the
    session is ready, is answered with [MethodNotFound]. *)
Lemma callTool_V101_routes {W : Type} (client : Platform W)
  (CONFIG : Config) (toISOString : Z -> string) (args : Arguments_)
  (s : DiscordMcpServer) (w : W) :
  ready s = true ->
  V101.callTool client CONFIG toISOString
    {| name := "read_recent_messages"; arguments := args |} (s, w)
  = try_catch (V101.read_recent_messages client toISOString args) rethrow (s, w)
  /\ V101.callTool client CONFIG toISOString
       {| name := "send_message"; arguments := args |} (s, w)
     = try_catch (V101.send_message client CONFIG args) rethrow (s, w)
  /\ V101.callTool client CONFIG toISOString
       {| name := "add_reaction"; arguments := args |} (s, w)
     = try_catch (V101.add_reaction client args) rethrow (s, w)
  /\ forall n : string,
       n ∉ ["read_recent_messages"; "send_message"; "add_reaction"] ->
       V101.callTool client CONFIG toISOString
         {| name := n; arguments := args |} (s, w)
       = (Throw (McpError MethodNotFound ("Unknown tool: " +:+ n)), (s, w)).
Proof.
  intros Hr.
  repeat split;
    try (unfold V101.callTool; route; monad_unfold;
         rewrite ?(ensureConnected_ready client s w Hr); reflexivity).
  intros n Hn. unfold V101.callTool. cbn [name arguments].
  repeat (case_decide; [subst n; exfalso; apply Hn; set_solver|]).
  monad_unfold. rewrite (ensureConnected_ready client s w Hr). reflexivity.
Qed.

Section TextBlocks.
Context {W : Type}.

Lemma answers_text_ret (text : string) : @answers_text W (ret (text_result text)).
Proof. intros st response [= <-]. now exists text. Qed.

Lemma answers_text_throw (e : JsError) : @answers_text W (throw e).
Proof. intros st response H. discriminate. Qed.

Lemma answers_text_rethrow (e : JsError) : @answers_text W (rethrow e).
Proof. intros st response H. destruct e; discriminate. Qed.

Lemma answers_text_bind {A : Type} (m : @M W A) (f : A -> @M W CallToolResult) :
  (forall a, answers_text (f a)) -> answers_text (bind m f).
Proof.
  intros Hf st response. unfold bind.
  destruct (m st) as [[a|e] st1]; [apply Hf | discriminate].
Qed.

Lemma answers_text_try_catch (m : @M W CallToolResult)
  (h : JsError -> @M W CallToolResult) :
  answers_text m -> (forall e, answers_text (h e)) -> answers_text (try_catch m h).
Proof.
  intros Hm Hh st response. unfold try_catch.
  pose proof (Hm st) as Hm'.
  destruct (m st) as [[a|e] st1]; [exact (Hm' response) | apply Hh].
Qed.

End TextBlocks.

Ltac text_blocks :=
  repeat first
    [ apply answers_text_ret
    | apply answers_text_throw
    | apply answers_text_rethrow
    | apply answers_text_try_catch; [|intros ?]
    | apply answers_text_bind; intros ?
    | match goal with
      | |- answers_text (match ?x with _ => _ end) => destruct x
      | |- answers_text (if ?b then _ else _) => destruct b
      end ].

(** C5, as amended. Each version routes exactly the tools it advertises
    to their handlers: 1.0.0 its five, the rewrite its three
    ([send_message] directly, the other two once [ensureConnected] has
    returned). Every other name is answered with [MethodNotFound]: in
    1.0.0 with the server left as it was, in the rewrite unless
    connecting has failed first, and there [remove_reaction] and
    [delete_message] are such names. Whatever the request, an answer that
    is not an error is a single text block. *)
Theorem dispatcher_routes_advertised_tools {W : Type} (client : Platform W)
  (CONFIG : Config) (toISOString : Z -> string) (args : Arguments_)
  (st : DiscordMcpServer * W) :
  let call100 n :=
    V100.callTool client toISOString {| name := n; arguments := args |} st in
  let call101 n :=
    V101.callTool client CONFIG toISOString {| name := n; arguments := args |} st in
  let unknown n := McpError MethodNotFound ("Unknown tool: " +:+ n) in
  (call100 "read_recent_messages"
   = try_catch (V100.read_recent_messages client toISOString args) rethrow st
   /\ call100 "send_message"
      = try_catch (V100.send_message client args) rethrow st
   /\ call100 "add_reaction"
      = try_catch (V100.add_reaction client args) rethrow st
   /\ call100 "remove_reaction"
      = try_catch (V100.remove_reaction client args) rethrow st
   /\ call100 "delete_message"
      = try_catch (V100.delete_message client args) rethrow st
   /\ forall n, n ∉ V100.tools -> call100 n = (Throw (unknown n), st))
  /\ (call101 "read_recent_messages"
      = try_catch (run V101.ensureConnected client in
                   V101.read_recent_messages client toISOString args) rethrow st
      /\ call101 "send_message"
         = try_catch (V101.send_message client CONFIG args) rethrow st
      /\ call101 "add_reaction"
         = try_catch (run V101.ensureConnected client in
                      V101.add_reaction client args) rethrow st
      /\ forall n, n ∉ V101.tools ->
           call101 n
           = match V101.ensureConnected client st with
             | (Ok _, st') => (Throw (unknown n), st')
             | (Throw e, st') => rethrow e st'
             end)
  /\ (forall n response,
        fst (call100 n) = Ok response \/ fst (call101 n) = Ok response ->
        exists text, response = text_result text).
Proof.
  cbv zeta. split; [|split].
  - repeat split; try (unfold V100.callTool; route; reflexivity).
    intros n Hn. unfold V100.callTool, V100.tools in *. cbn [name arguments].
    repeat (case_decide; [subst n; exfalso; apply Hn; set_solver|]).
    reflexivity.
  - repeat split; try (unfold V101.callTool; route; reflexivity).
    intros n Hn. unfold V101.callTool, V101.tools in *. cbn [name arguments].
    repeat (case_decide; [subst n; exfalso; apply Hn; set_solver|]).
    unfold try_catch, bind.
    destruct (V101.ensureConnected client st) as [[[]|e] st']; reflexivity.
  - intros n response [H|H]; revert H.
    + apply (answers_text_try_catch (W := W)); [|intros e; apply answers_text_rethrow].
      cbn [name arguments].
      unfold V100.read_recent_messages, V100.send_message, V100.add_reaction,
        V100.remove_reaction, V100.delete_message.
      text_blocks.
    + apply (answers_text_try_catch (W := W)); [|intros e; apply answers_text_rethrow].
      cbn [name arguments].
      unfold V101.read_recent_messages, V101.send_message, V101.send_now,
        V101.add_reaction.
      text_blocks.
Qed.

Lemma dispatcher_routes_advertised_tools_witness :
  let st := (Fake.online, Fake.world Fake.logs_in Fake.three_messages []) in
  V100.callTool Fake.client Fake.toISOString
    {| name := "purge_channel"; arguments := None |} st
  = (Throw (McpError MethodNotFound "Unknown tool: purge_channel"), st)
  /\ V101.callTool Fake.client Fake.CONFIG Fake.toISOString
       {| name := "delete_message"; arguments := None |} st
     = (Throw (McpError MethodNotFound "Unknown tool: delete_message"), st).
Proof.
  cbv zeta.
  destruct (dispatcher_routes_advertised_tools Fake.client Fake.CONFIG
              Fake.toISOString None
              (Fake.online, Fake.world Fake.logs_in Fake.three_messages []))
    as ((_ & _ & _ & _ & _ & H100) & (_ & _ & _ & H101) & _).
  split.
  - apply H100. intros H.
    repeat (apply elem_of_cons in H; destruct H as [H|H]; [discriminate H|]).
    now apply elem_of_nil in H.
  - rewrite H101; [reflexivity|]. intros H.
    repeat (apply elem_of_cons in H; destruct H as [H|H]; [discriminate H|]).
    now apply elem_of_nil in H.
Defined.

(** C5, as first stated, fails for the rewrite: with the session ready,
    [remove_reaction] and [delete_message] are answered with
    [MethodNotFound] by the 1.0.1 dispatcher, which neither advertises nor
    routes them, while the 1.0.0 dispatcher routes the same requests to
    their handlers. *)
Theorem rewrite_rejects_remove_and_delete :
  let w := Fake.world Fake.logs_in Fake.three_messages [] in
  let target := [("channel_name", JStr "general"); ("message_id", JStr "2")] in
  fst (V101.callTool Fake.client Fake.CONFIG Fake.toISOString
         (Fake.request "remove_reaction" target) (Fake.online, w))
  = Throw (McpError MethodNotFound "Unknown tool: remove_reaction")
  /\ fst (V101.callTool Fake.client Fake.CONFIG Fake.toISOString
            (Fake.request "delete_message" target) (Fake.online, w))
     = Throw (McpError MethodNotFound "Unknown tool: delete_message")
  /\ fst (V100.callTool Fake.client Fake.toISOString
            (Fake.request "remove_reaction" target) (Fake.online, w))
     = Ok (text_result ("Removed " +:+ check_mark +:+ " from message 2"))
  /\ fst (V100.callTool Fake.client Fake.toISOString
            (Fake.request "delete_message" target) (Fake.online, w))
     = Ok (text_result "Deleted message 2").
Proof. cbv zeta. repeat split; vm_compute; reflexivity. Qed.

(** C9. In 1.0.0, a [remove_reaction] request whose message was fetched
    and carries no reaction of the requested emoji returns a text saying
    that the reaction was not found on that message: nothing is thrown, and
    the only request made to the client is the fetch of the message. *)
Theorem remove_reaction_not_found {W : Type} (client : Platform W)
  (toISOString : Z -> string) (args : Arguments_) (a : ReactionSchema.t)
  (s : DiscordMcpServer) (w : W) (channel : Channel) (message : Message.t) :
  ReactionSchema.parse args = Ok a ->
  ready s = true ->
  findChannel (guilds_cache client w) (ReactionSchema.channel_name a)
    = Some channel ->
  fst (messages_fetch_one client channel (ReactionSchema.message_id a) w)
    = Ok message ->
  (forall r, In r (Message.reactions_cache message) ->
             emoji_name r <> Some (or_else (ReactionSchema.emoji a) check_mark)) ->
  V100.callTool client toISOString
    {| name := "remove_reaction"; arguments := args |} (s, w)
  = (Ok (text_result ("Reaction " +:+ or_else (ReactionSchema.emoji a) check_mark
                      +:+ " not found on message "
                      +:+ ReactionSchema.message_id a)),
     (log_call (CallFetchMessage (ch_id channel) (ReactionSchema.message_id a)) s,
      snd (messages_fetch_one client channel (ReactionSchema.message_id a) w))).
Proof.
  intros Hp Hr Hc Hf Hnone.
  unfold V100.callTool. route. unfold V100.remove_reaction. monad_unfold.
  rewrite Hp. cbn [fst snd].
  rewrite (getChannelByName_found_V100 client _ s w channel Hr Hc). cbn [fst snd].
  destruct (messages_fetch_one client channel (ReactionSchema.message_id a) w)
    as [r w'] eqn:E. cbn [fst snd] in Hf |- *. subst r.
  destruct (List.find _ (Message.reactions_cache message)) as [r|] eqn:Ef.
  - exfalso. apply List.find_some in Ef. destruct Ef as [Hin Hr'].
    apply bool_decide_eq_true_1 in Hr'. exact (Hnone r Hin Hr').
  - reflexivity.
Qed.

Lemma remove_reaction_not_found_witness :
  V100.callTool Fake.client Fake.toISOString
    (Fake.request "remove_reaction"
       [("channel_name", JStr "general"); ("message_id", JStr "1")])
    (Fake.online, Fake.world Fake.logs_in Fake.three_messages [])
  = (Ok (text_result ("Reaction " +:+ check_mark +:+ " not found on message 1")),
     (log_call (CallFetchMessage "100" "1") Fake.online,
      Fake.world Fake.logs_in Fake.three_messages [])).
Proof.
  apply (remove_reaction_not_found Fake.client Fake.toISOString
           (Some (list_to_map [("channel_name", JStr "general");
                               ("message_id", JStr "1")]))
           {| ReactionSchema.channel_name := "general";
              ReactionSchema.message_id := "1";
              ReactionSchema.emoji := check_mark |}
           Fake.online (Fake.world Fake.logs_in Fake.three_messages [])
           Fake.general (Fake.message 1 []));
    try (vm_compute; reflexivity).
  intros r [].
Defined.

(** ** The pending queue *)




Section Queue.
Context {W : Type} (client : Platform W).






End Queue.

(** ** Events, attempts and the drain, one turn at a time *)

Lemma session_kept_refl (s : DiscordMcpServer) : session_kept s s.
Proof. unfold session_kept. repeat split. Qed.

Lemma session_kept_trans (s1 s2 s3 : DiscordMcpServer) :
  session_kept s1 s2 -> session_kept s2 s3 -> session_kept s1 s3.
Proof.
  intros (A1 & A2 & A3 & A4 & A5 & A6 & A7 & A8)
         (B1 & B2 & B3 & B4 & B5 & B6 & B7 & B8).
  unfold session_kept.
  rewrite B1, B2, B3, B4, B5, B6, B7, B8. now repeat split.
Qed.

Lemma logins_log_send (s : DiscordMcpServer) (c b : string) (ok : bool) :
  logins (log_call (CallSend c b ok) s) = logins s.
Proof.
  unfold logins. cbn [calls log_call].
  rewrite List.filter_app, length_app. cbn. lia.
Qed.


Section Session.
Context {W : Type} (client : Platform W).

Lemma getChannelByName_state (n : string) (st : DiscordMcpServer * W) :
  snd (V101.getChannelByName client n st) = st.
Proof.
  unfold V101.getChannelByName. destruct (negb (ready (fst st))); [reflexivity|].
  now destruct (findChannel _ _).
Qed.

(** Coming to the next message changes nothing. *)
Lemma drain_next_run (rest : list PendingMessage.t) (st : DiscordMcpServer * W) :
  exists d, V101.drain_next client rest st = (Ok d, st)
            /\ (rest = [] -> d = None)
            /\ (forall msg rest', rest = msg :: rest' ->
                  d = Some (AwaitChannel msg
                              (fst (V101.getChannelByName client
                                      (PendingMessage.channel_name msg) st))
                              rest')).
Proof.
  destruct rest as [|msg rest']; cbn [V101.drain_next]; eexists;
    (split; [reflexivity|]); split; try discriminate; try reflexivity.
  now intros ? ? [= <- <-].
Qed.

(** A turn of the loop cannot throw. It keeps the session and the
    drains that are parked; the queue and the log can only grow. *)
Lemma drain_resume_run (d : Drain) (s : DiscordMcpServer) (w : W) :
  exists d' s' w',
    V101.drain_resume client d (s, w) = (Ok d', (s', w'))
    /\ session_kept s s'
    /\ background s' = background s
    /\ (exists pushed, pendingMessages s' = pendingMessages s ++ pushed)
    /\ (exists log, calls s' = calls s ++ log).
Proof.
  assert (Hpush : forall msg rest,
            exists d' s' w',
              (run update (push msg) in V101.drain_next client rest) (s, w)
              = (Ok d', (s', w'))
              /\ session_kept s s'
              /\ background s' = background s
              /\ (exists pushed, pendingMessages s' = pendingMessages s ++ pushed)
              /\ (exists log, calls s' = calls s ++ log)).
  { intros msg rest. unfold bind, update. cbn [fst snd].
    destruct (drain_next_run rest (push msg s, w)) as (d' & -> & _).
    exists d', (push msg s), w. split; [reflexivity|].
    split; [unfold session_kept, push, logins; cbn; now repeat split|].
    split; [reflexivity|]. split.
    - now exists [msg].
    - exists []. now rewrite app_nil_r. }
  destruct d as [msg [channel|e] rest | msg [[]|e] rest]; cbn [V101.drain_resume].
  - unfold V101.send, ask. cbn [fst snd].
    destruct (channel_send client channel _ w) as [reply w'].
    do 3 eexists. split; [reflexivity|]. split.
    + unfold session_kept. rewrite logins_log_send. now repeat split.
    + split; [reflexivity|]. split.
      * exists []. now rewrite app_nil_r.
      * eexists. reflexivity.
  - apply Hpush.
  - destruct (drain_next_run rest (s, w)) as (d' & -> & _).
    exists d', s, w. split; [reflexivity|].
    split; [apply session_kept_refl|]. split; [reflexivity|].
    split; exists []; now rewrite app_nil_r.
  - apply Hpush.
Qed.

(** Nor can a chain of turns. *)
Lemma drain_chain_run (n : nat) (d : option Drain) (s : DiscordMcpServer) (w : W) :
  exists d' s' w',
    V101.drain_chain client n d (s, w) = (Ok d', (s', w'))
    /\ session_kept s s'
    /\ background s' = background s.
Proof.
  revert d s w. induction n as [|n IH]; intros d s w.
  { exists d, s, w. split; [now destruct d as [[]|]|].
    split; [apply session_kept_refl | reflexivity]. }
  destruct d as [[msg looked rest|msg reply rest]|]; cbn [V101.drain_chain].
  - unfold bind.
    destruct (drain_resume_run (AwaitChannel msg looked rest) s w)
      as (d1 & s1 & w1 & -> & K1 & B1 & _).
    destruct (IH d1 s1 w1) as (d2 & s2 & w2 & -> & K2 & B2).
    exists d2, s2, w2. split; [reflexivity|]. split.
    + now apply (session_kept_trans s s1 s2).
    + now rewrite B2.
  - do 3 eexists. split; [reflexivity|].
    split; [apply session_kept_refl | reflexivity].
  - do 3 eexists. split; [reflexivity|].
    split; [apply session_kept_refl | reflexivity].
Qed.

(** The start of a drain cannot throw and keeps the session. *)
Lemma flush_start_run (ticks : nat) (s : DiscordMcpServer) (w : W) :
  exists s' w',
    V101.flushPendingMessages_start client ticks (s, w) = (Ok tt, (s', w'))
    /\ session_kept s s'
    /\ (pendingMessages s = [] -> s' = s /\ w' = w).
Proof.
  unfold V101.flushPendingMessages_start. unfold bind at 1, this. cbn [fst snd].
  destruct (pendingMessages s) as [|msg rest] eqn:E; cbn [length Nat.eqb].
  { exists s, w. split; [reflexivity|]. split; [apply session_kept_refl|].
    now intros _. }
  unfold bind at 1, update. cbn [fst snd].
  unfold bind at 1.
  destruct (drain_next_run (msg :: rest) (set_pendingMessages [] s, w))
    as (d & -> & _). unfold bind.
  destruct (drain_chain_run (S ticks) d (set_pendingMessages [] s) w)
    as (d' & s' & w' & -> & Hk & _).
  cbn [fst snd]. do 2 eexists. split; [reflexivity|]. split; [|discriminate].
  destruct Hk as (K1 & K2 & K3 & K4 & K5 & K6 & K7 & K8).
  unfold session_kept, V101.park, logins in *. cbn.
  now repeat split.
Qed.

(** A later turn cannot throw and keeps the session. *)
Lemma drain_turn_run (s : DiscordMcpServer) (w : W) :
  exists s' w',
    V101.drain_turn client (s, w) = (Ok tt, (s', w')) /\ session_kept s s'.
Proof.
  unfold V101.drain_turn. unfold bind at 1, this. cbn [fst snd].
  destruct (background s) as [|d waiting] eqn:E.
  { exists s, w. split; [reflexivity | apply session_kept_refl]. }
  unfold bind, update. cbn [fst snd].
  destruct (drain_resume_run d (set_background waiting s) w)
    as (d' & s' & w' & -> & Hk & _).
  cbn [fst snd]. do 2 eexists. split; [reflexivity|].
  destruct Hk as (K1 & K2 & K3 & K4 & K5 & K6 & K7 & K8).
  unfold session_kept, logins in *. cbn. now repeat split.
Qed.

Lemma on_ready_armed (ticks : nat) (s : DiscordMcpServer) (w : W) :
  readyListener s = true ->
  V101.on_ready client ticks (s, w)
  = V101.flushPendingMessages_start client ticks
      (set_loggingIn false (set_ready true (set_readyListener false s)), w).
Proof.
  intros H. unfold V101.on_ready. unfold bind at 1, this. cbn [fst snd].
  rewrite H. reflexivity.
Qed.

Lemma on_ready_spent (ticks : nat) (s : DiscordMcpServer) (w : W) :
  readyListener s = false -> V101.on_ready client ticks (s, w) = (Ok tt, (s, w)).
Proof.
  intros H. unfold V101.on_ready. unfold bind at 1, this. cbn [fst snd].
  rewrite H. reflexivity.
Qed.

(** No listener throws, creates or settles an attempt, or logs in. *)
Lemma emit_run (ticks : nat) (ev : ClientEvent) (s : DiscordMcpServer) (w : W) :
  exists s' w',
    V101.emit client ticks ev (s, w) = (Ok tt, (s', w'))
    /\ loginPromise s' = loginPromise s
    /\ attempts s' = attempts s /\ settled s' = settled s
    /\ settlements s' = settlements s /\ logins s' = logins s
    /\ (ev = EvReady -> readyListener s = true ->
        ready s' = true /\ loggingIn s' = false /\ readyListener s' = false)
    /\ (ev = EvReady -> readyListener s = false -> s' = s /\ w' = w)
    /\ (forall e, ev = EvError e -> s' = V101.on_error s /\ w' = w)
    /\ (ev = EvShardDisconnect -> s' = V101.on_shardDisconnect s /\ w' = w)
    /\ (ev = EvShardReconnecting -> s' = s /\ w' = w).
Proof.
  destruct ev as [|e| |]; cbn [V101.emit]; unfold update; cbn [fst snd];
    try (do 2 eexists; split; [reflexivity|]; repeat split; discriminate).
  unfold V101.on_ready. unfold bind at 1, this. cbn [fst snd].
  destruct (readyListener s) eqn:Hl.
  - unfold bind, update. cbn [fst snd].
    destruct (flush_start_run ticks
                (set_loggingIn false (set_ready true (set_readyListener false s))) w)
      as (s' & w' & -> & (K1 & K2 & K3 & K4 & K5 & K6 & K7 & K8) & _).
    exists s', w'. split; [reflexivity|].
    repeat split; try discriminate; try assumption.
  - exists s, w. split; [reflexivity|].
    repeat split; try discriminate.
Qed.

(** The same for a series of events. *)
Lemma emit_all_run (ticks : nat) (evs : list ClientEvent)
  (s : DiscordMcpServer) (w : W) :
  exists s' w',
    V101.emit_all client ticks evs (s, w) = (Ok tt, (s', w'))
    /\ loginPromise s' = loginPromise s
    /\ attempts s' = attempts s /\ settled s' = settled s
    /\ settlements s' = settlements s /\ logins s' = logins s.
Proof.
  revert s w. induction evs as [|ev evs IH]; intros s w; cbn [V101.emit_all].
  { exists s, w. now repeat split. }
  unfold bind.
  destruct (emit_run ticks ev s w) as (s1 & w1 & -> & A1 & A2 & A3 & A4 & A5 & _).
  destruct (IH s1 w1) as (s2 & w2 & -> & B1 & B2 & B3 & B4 & B5).
  exists s2, w2. split; [reflexivity|].
  rewrite B1, B2, B3, B4, B5. now repeat split.
Qed.

(** Once the [ready] listener has gone, no event moves the queue, the
    drains or the log, and none makes the session ready. *)
Lemma emit_spent (ticks : nat) (ev : ClientEvent) (s : DiscordMcpServer) (w : W) :
  readyListener s = false ->
  exists s', V101.emit client ticks ev (s, w) = (Ok tt, (s', w)) /\ spent_frame s s'.
Proof.
  intros Hl. destruct ev as [|e| |]; cbn [V101.emit]; unfold update; cbn [fst snd];
    try (eexists; split; [reflexivity|]; unfold spent_frame; cbn; now repeat split).
  unfold V101.on_ready. unfold bind, this. cbn [fst snd]. rewrite Hl.
  exists s. split; [reflexivity|]. unfold spent_frame. now repeat split.
Qed.

Lemma spent_frame_trans (s1 s2 s3 : DiscordMcpServer) :
  spent_frame s1 s2 -> spent_frame s2 s3 -> spent_frame s1 s3.
Proof.
  intros (A1 & A2 & A3 & A4 & A5) (B1 & B2 & B3 & B4 & B5).
  unfold spent_frame. rewrite B2, B3, B4. repeat split; auto.
Qed.

Lemma emit_all_spent (ticks : nat) (evs : list ClientEvent)
  (s : DiscordMcpServer) (w : W) :
  readyListener s = false ->
  exists s',
    V101.emit_all client ticks evs (s, w) = (Ok tt, (s', w)) /\ spent_frame s s'.
Proof.
  revert s. induction evs as [|ev evs IH]; intros s Hl; cbn [V101.emit_all].
  { exists s. split; [reflexivity|]. unfold spent_frame. now repeat split. }
  unfold bind. destruct (emit_spent ticks ev s w Hl) as (s1 & -> & F1).
  destruct (IH s1 (proj1 F1)) as (s2 & -> & F2).
  exists s2. split; [reflexivity|]. now apply (spent_frame_trans s s1 s2).
Qed.

(** What the body of an attempt comes to, in terms of the script. *)
Lemma loginAttempt_run (p : nat) (s : DiscordMcpServer) (w : W) :
  let script := fst (client_login client w) in
  let w0 := snd (client_login client w) in
  let s1 := fst (snd (V101.emit_all client (ticks script)
                        (during_login script) (s, w0))) in
  let w1 := snd (snd (V101.emit_all client (ticks script)
                        (during_login script) (s, w0))) in
  V101.loginAttempt client p (s, w)
  = match login_result script with
    | Throw e => (Throw e, (V101.settle p (Throw e) (V101.attempt_finally s1), w1))
    | Ok _ =>
        if ready s1
        then (Ok tt, (V101.settle p (Ok tt) (V101.attempt_finally s1), w1))
        else match race script with
             | RaceReady =>
                 (Ok tt,
                  (V101.settle p (Ok tt)
                     (V101.attempt_finally
                        (fst (snd (V101.emit client (ticks script) EvReady
                                     (s1, w1))))),
                   snd (snd (V101.emit client (ticks script) EvReady (s1, w1)))))
             | RaceError err =>
                 (Throw err,
                  (V101.settle p (Throw err)
                     (V101.attempt_finally (V101.on_error s1)), w1))
             | RaceTimeout =>
                 (Throw (PlainError "Login timeout (15s)"),
                  (V101.settle p (Throw (PlainError "Login timeout (15s)"))
                     (V101.attempt_finally s1), w1))
             end
    end.
Proof.
  cbv zeta. unfold V101.loginAttempt, try_finally, V101.consult_login.
  unfold bind at 1. cbn [fst snd].
  destruct (client_login client w) as [script w0]. cbn [fst snd].
  unfold bind at 1.
  destruct (emit_all_run (ticks script) (during_login script) s w0)
    as (s1 & w1 & -> & _).
  cbn [fst snd]. unfold bind at 1, of_result.
  destruct (login_result script) as [[]|e]; [|reflexivity].
  unfold bind at 1, this. cbn [fst snd].
  destruct (ready s1); cbn [negb]; [reflexivity|].
  destruct (race script).
  - destruct (emit_run (ticks script) EvReady s1 w1) as (s2 & w2 & -> & _).
    reflexivity.
  - unfold bind. cbn [V101.emit]. unfold update, throw. reflexivity.
  - reflexivity.
Qed.


(** With the [ready] listener gone, an attempt moves neither the queue
    nor the drains nor the log, and does not make the session ready. *)
Lemma loginAttempt_spent (p : nat) (s : DiscordMcpServer) (w : W) :
  readyListener s = false ->
  spent_frame s (fst (snd (V101.loginAttempt client p (s, w)))).
Proof.
  intros Hl. rewrite loginAttempt_run.
  destruct (emit_all_spent (ticks (fst (client_login client w)))
              (during_login (fst (client_login client w))) s
              (snd (client_login client w)) Hl)
    as (s1 & E & F1).
  rewrite E. cbn [fst snd].
  assert (Hsettle : forall r u,
            spent_frame s u ->
            spent_frame s (V101.settle p r (V101.attempt_finally u))).
  { intros r u (H1 & H2 & H3 & H4 & H5).
    unfold spent_frame, V101.settle, V101.attempt_finally. cbn.
    now repeat split. }
  destruct (login_result (fst (client_login client w))) as [[]|e]; cbn [fst snd];
    [|now apply Hsettle].
  destruct (ready s1); cbn [fst snd]; [now apply Hsettle|].
  destruct (race (fst (client_login client w))); cbn [fst snd].
  - destruct (emit_spent (ticks (fst (client_login client w))) EvReady s1
                (snd (client_login client w)) (proj1 F1))
      as (s2 & -> & F2).
    cbn [fst snd]. apply Hsettle. now apply (spent_frame_trans s s1 s2).
  - apply Hsettle. destruct F1 as (H1 & H2 & H3 & H4 & H5).
    unfold spent_frame, V101.on_error. cbn. now repeat split.
  - now apply Hsettle.
Qed.

(** A call on a session whose [ready] listener has gone: the queue and
    the drains are as they were, at most one login was asked for, and a
    session that was not ready is not ready. *)
Lemma ensureConnected_spent (s : DiscordMcpServer) (w : W) :
  readyListener s = false ->
  let s' := fst (snd (V101.ensureConnected client (s, w))) in
  readyListener s' = false
  /\ pendingMessages s' = pendingMessages s
  /\ background s' = background s
  /\ (calls s' = calls s \/ calls s' = calls s ++ [CallLogin])
  /\ (ready s = false -> ready s' = false).
Proof.
  intros Hl. cbv zeta.
  assert (Hawait : forall p u,
            spent_frame s u \/
            (readyListener u = false /\ pendingMessages u = pendingMessages s
             /\ background u = background s /\ calls u = calls s ++ [CallLogin]
             /\ (ready s = false -> ready u = false)) ->
            let s' := fst (snd (V101.await_loginPromise client p (u, w))) in
            readyListener s' = false
            /\ pendingMessages s' = pendingMessages s
            /\ background s' = background s
            /\ (calls s' = calls s \/ calls s' = calls s ++ [CallLogin])
            /\ (ready s = false -> ready s' = false)).
  { intros p u Hu. cbv zeta. unfold V101.await_loginPromise. cbn [fst snd].
    assert (Hul : readyListener u = false) by (destruct Hu as [H|H]; apply H).
    destruct (settlements u !! p) as [r|]; cbn [fst snd].
    - destruct Hu as [(H1 & H2 & H3 & H4 & H5)|(H1 & H2 & H3 & H4 & H5)];
        repeat split; auto.
    - destruct (loginAttempt_spent p u w Hul) as (K1 & K2 & K3 & K4 & K5).
      destruct Hu as [(H1 & H2 & H3 & H4 & H5)|(H1 & H2 & H3 & H4 & H5)];
        rewrite K2, K3, K4; repeat split; auto. }
  unfold V101.ensureConnected, V101.ensureConnected_enter. cbn [fst snd].
  destruct (ready s) eqn:Hr.
  { cbn. repeat split; auto. discriminate. }
  destruct (loggingIn s).
  - destruct (loginPromise s) as [p|]; cbn [V101.ensureConnected_resume].
    + apply Hawait. left. unfold spent_frame. now repeat split.
    + cbn. repeat split; auto.
  - cbn [V101.ensureConnected_resume]. apply Hawait. right. cbn.
    now repeat split.
Qed.

End Session.

(** ** Sending *)

Section Sending.
Context {W : Type} (client : Platform W) (CONFIG : Config)
        (toISOString : Z -> string).

(** On a session whose [ready] listener has gone, the [try] block of
    [send_message] leaves the queue and the drains as they were. *)
Lemma send_now_spent (a : SendMessageSchema.t) (s : DiscordMcpServer) (w : W) :
  readyListener s = false ->
  let s' := fst (snd (V101.send_now client CONFIG a (s, w))) in
  readyListener s' = false
  /\ pendingMessages s' = pendingMessages s
  /\ background s' = background s.
Proof.
  intros Hl. cbv zeta.
  destruct (ensureConnected_spent client s w Hl) as (H1 & H2 & H3 & _).
  unfold V101.send_now. monad_unfold.
  destruct (V101.ensureConnected client (s, w)) as [[[]|e] [s1 w1]];
    cbn [fst snd] in *; [|now repeat split].
  unfold V101.getChannelByName. cbn [fst snd].
  destruct (ready s1); cbn [negb]; [|now repeat split].
  destruct (findChannel _ _) as [channel|]; [|now repeat split].
  unfold V101.send, ask. cbn [fst snd].
  destruct (channel_send client channel _ w1) as [[[]|e] w2]; cbn [fst snd];
    now repeat split.
Qed.

(** What the [try] block returns when it returns. *)
Lemma send_now_returns (a : SendMessageSchema.t) (st : DiscordMcpServer * W)
  (sent : CallToolResult) :
  fst (V101.send_now client CONFIG a st) = Ok sent ->
  sent = text_result ("✅ Message sent to #" +:+ SendMessageSchema.channel_name a).
Proof.
  unfold V101.send_now. monad_unfold.
  destruct (V101.ensureConnected client st) as [[[]|e] st1];
    cbn [fst snd]; [|discriminate].
  destruct (V101.getChannelByName client _ st1) as [[channel|e] st2];
    cbn [fst snd]; [|discriminate].
  destruct (V101.send client channel _ st2) as [[[]|e] st3];
    cbn [fst snd]; [|discriminate].
  now intros [= <-].
Qed.

(** The [try] block fails as soon as the connection, the lookup or the
    send does. *)
Lemma send_now_fails (a : SendMessageSchema.t) (st : DiscordMcpServer * W)
  (e : JsError) :
  fst (V101.ensureConnected client st) = Throw e
  \/ (exists st1,
        V101.ensureConnected client st = (Ok tt, st1)
        /\ (fst (V101.getChannelByName client (SendMessageSchema.channel_name a) st1)
            = Throw e
            \/ exists channel st2,
                 V101.getChannelByName client (SendMessageSchema.channel_name a) st1
                 = (Ok channel, st2)
                 /\ fst (V101.send client channel (V101.messageContent CONFIG a) st2)
                    = Throw e)) ->
  fst (V101.send_now client CONFIG a st) = Throw e.
Proof.
  unfold V101.send_now. monad_unfold.
  intros [H|(st1 & H1 & [H|(channel & st2 & H2 & H)])].
  - destruct (V101.ensureConnected client st) as [[[]|e'] st1];
      cbn [fst snd] in *; [discriminate | now injection H as ->].
  - rewrite H1.
    destruct (V101.getChannelByName client _ st1) as [[channel|e'] st2];
      cbn [fst snd] in *; [discriminate | now injection H as ->].
  - rewrite H1, H2.
    destruct (V101.send client channel _ st2) as [[[]|e'] st3];
      cbn [fst snd] in *; [discriminate | now injection H as ->].
Qed.

(** C2, as amended. A [send_message] request with valid arguments never
    raises. When its attempt (connect on demand, look the channel up,
    send) fails for any reason, exactly one pending message is pushed
    on the queue and the response is the queued notice; when the attempt
    succeeds, as it does from a disconnected session whose login goes
    through, the response reports the send and nothing is queued. Where
    no drain can start any more (the [ready] listener has gone), the queue
    is the one the request found, with that one message more when the
    attempt failed. *)
Theorem send_message_never_raises (args : Arguments_) (a : SendMessageSchema.t)
  (s : DiscordMcpServer) (w : W) :
  SendMessageSchema.parse args = Ok a ->
  let attempt := V101.send_now client CONFIG a (s, w) in
  let r := V101.callTool client CONFIG toISOString
             {| name := "send_message"; arguments := args |} (s, w) in
  (exists response, fst r = Ok response)
  /\ (forall e, fst attempt = Throw e ->
        r = (Ok (text_result (V101.queue_notice e)),
             (push (V101.queued CONFIG a) (fst (snd attempt)), snd (snd attempt)))
        /\ pendingMessages (fst (snd r))
           = pendingMessages (fst (snd attempt)) ++ [V101.queued CONFIG a]
        /\ (readyListener s = false ->
            pendingMessages (fst (snd r))
            = pendingMessages s ++ [V101.queued CONFIG a]))
  /\ (forall sent, fst attempt = Ok sent ->
        r = (Ok (text_result ("✅ Message sent to #"
                              +:+ SendMessageSchema.channel_name a)),
             snd attempt)
        /\ (readyListener s = false ->
            pendingMessages (fst (snd r)) = pendingMessages s)).
Proof.
  intros Hp. cbv zeta.
  pose proof (send_now_spent a s w) as Hh.
  pose proof (send_now_returns a (s, w)) as Hs.
  unfold V101.callTool. route. unfold V101.send_message. monad_unfold.
  rewrite Hp. cbn [fst snd].
  destruct (V101.send_now client CONFIG a (s, w)) as [[sent|e] [s1 w1]];
    cbn [fst snd] in *.
  - split; [eauto|]. split; [discriminate|].
    intros sent' _. rewrite (Hs sent eq_refl). split; [reflexivity|].
    intros Hl. now apply Hh.
  - split; [eauto|]. split; [|discriminate].
    intros e' [= <-]. split; [reflexivity|]. split; [reflexivity|].
    intros Hl. destruct (Hh Hl) as (_ & Hq & _).
    unfold push. cbn [pendingMessages set_pendingMessages]. now rewrite Hq.
Qed.

End Sending.

Lemma send_message_never_raises_witness :
  let r := V101.callTool Fake.client Fake.CONFIG Fake.toISOString
             {| name := "send_message"; arguments := Fake.send_args |}
             (constructor, Fake.world Fake.times_out [] []) in
  fst r = Ok (text_result (V101.queue_notice (PlainError "Login timeout (15s)")))
  /\ pendingMessages (fst (snd r)) = [Fake.hi].
Proof.
  cbv zeta.
  destruct (send_message_never_raises Fake.client Fake.CONFIG Fake.toISOString
              Fake.send_args Fake.send_parsed
              constructor (Fake.world Fake.times_out [] []) eq_refl)
    as (_ & Hfail & _).
  destruct (Hfail (PlainError "Login timeout (15s)") eq_refl) as (Hr & Hq & _).
  split; [now rewrite Hr | rewrite Hq; reflexivity].
Defined.

(** C2, as first stated, fails on a disconnected session whose login goes
    through: the message is sent at once, the response is not the queued
    notice, and nothing is put on the queue. *)
Lemma send_while_disconnected_counterexample :
  let r := V101.callTool Fake.client Fake.CONFIG Fake.toISOString
             {| name := "send_message"; arguments := Fake.send_args |}
             (constructor, Fake.world Fake.logs_in [] []) in
  ready constructor = false
  /\ SendMessageSchema.parse Fake.send_args = Ok Fake.send_parsed
  /\ fst r = Ok (text_result "✅ Message sent to #general")
  /\ (forall e, fst r <> Ok (text_result (V101.queue_notice e)))
  /\ pendingMessages (fst (snd r)) = []
  /\ Fake.outbox (snd (snd r)) = [("100", "[mcp-servers] hi")].
Proof.
  cbv zeta. repeat split; try (vm_compute; reflexivity).
  intros e. vm_compute. discriminate.
Qed.

(** ** Single flight *)





Section SingleFlight.
Context {W : Type} (client : Platform W).



End SingleFlight.



(** Once the attempt has settled, the next call starts a fresh one. *)
Lemma settled_then_fresh_attempt (s : DiscordMcpServer) :
  ready s = false ->
  fst (V101.ensureConnected_enter (V101.attempt_finally s))
  = V101.Awaiting (attempts s)
  /\ calls (snd (V101.ensureConnected_enter (V101.attempt_finally s)))
     = calls s ++ [CallLogin].
Proof.
  intros Hr. unfold V101.ensureConnected_enter, V101.attempt_finally. cbn.
  now rewrite Hr.
Qed.

(** ** The drain that nobody awaits *)

Lemma drain_finish_step {W : Type} (client : Platform W)
  (fuel : nat) (d : Drain) (st : DiscordMcpServer * W) :
  V101.drain_finish client (S fuel) (Some d) st
  = match V101.drain_resume client d st with
    | (Ok d', st') => V101.drain_finish client fuel d' st'
    | (Throw e, st') => (Throw e, st')
    end.
Proof. reflexivity. Qed.

(** Resumed to its end with nothing in between, the drain does what the
    awaited loop does: the same sends, in the same order, and the same
    messages put back. *)
Lemma drain_uninterrupted {W : Type} (client : Platform W)
  (messages : list PendingMessage.t) (fuel : nat) (st : DiscordMcpServer * W)
  (d : option Drain) :
  (2 * length messages <= fuel)%nat ->
  V101.drain_next client messages st = (Ok d, st) ->
  V101.drain_finish client fuel d st = V101.flush_loop client messages st.
Proof.
  revert fuel st d. induction messages as [|msg rest IH]; intros fuel st d Hf Hd.
  { cbn in Hd. injection Hd as <-. now destruct fuel. }
  destruct fuel as [|[|fuel]]; cbn [length] in Hf; try lia.
  destruct st as [s w]. cbn [V101.drain_next] in Hd. injection Hd as <-.
  rewrite drain_finish_step.
  cbn [V101.flush_loop]. unfold bind, V101.flush_one, try_catch, V101.deliver, bind.
  pose proof (getChannelByName_state client (PendingMessage.channel_name msg) (s, w))
    as Hst.
  destruct (V101.getChannelByName client (PendingMessage.channel_name msg) (s, w))
    as [[channel|e] st1]; cbn [snd] in Hst; subst st1;
    cbn [fst V101.drain_resume].
  - destruct (V101.send client channel _ (s, w)) as [[[]|e] st2].
    + rewrite drain_finish_step. cbn [V101.drain_resume].
      destruct (drain_next_run client rest st2) as (d2 & E2 & _). rewrite E2.
      apply IH; [lia | exact E2].
    + rewrite drain_finish_step. cbn [V101.drain_resume].
      unfold bind, update. cbn [fst snd].
      destruct (drain_next_run client rest (push msg (fst st2), snd st2))
        as (d2 & E2 & _).
      rewrite E2. apply IH; [lia | exact E2].
  - unfold bind, update. cbn [fst snd].
    destruct (drain_next_run client rest (push msg s, w)) as (d2 & E2 & _).
    rewrite E2. apply IH; [lia | exact E2].
Qed.

(** A drain on the scripted client: of three queued messages, the one for
    a channel that does not exist and the one for a closed channel stay in
    the queue, in their order; the third is delivered with the note. *)
Example drain_example :
  let s := set_pendingMessages
             [ {| PendingMessage.channel_name := "nowhere";
                  PendingMessage.content := "a" |};
               {| PendingMessage.channel_name := "general";
                  PendingMessage.content := "b" |};
               {| PendingMessage.channel_name := "inbox";
                  PendingMessage.content := "c" |} ] Fake.online in
  let r := V101.flushPendingMessages Fake.client
             (s, Fake.world Fake.logs_in [] ["101"]) in
  pendingMessages (fst (snd r))
  = [ {| PendingMessage.channel_name := "nowhere";
         PendingMessage.content := "a" |};
      {| PendingMessage.channel_name := "inbox";
         PendingMessage.content := "c" |} ]
  /\ Fake.outbox (snd (snd r)) = [("100", "b" +:+ delay_note)].
Proof. split; vm_compute; reflexivity. Qed.

(* ================================================================== *)
(** * Further properties                                               *)
(* ================================================================== *)

(** ** Start-up *)

Lemma prefix_inv (a b : string) :
  String.prefix a b = true -> exists r, b = a +:+ r.
Proof.
  revert b. induction a as [|c a IH]; intros b H; [now exists b|].
  destruct b as [|d b]; [discriminate|]. cbn in H.
  destruct (Ascii.ascii_dec c d) as [<-|]; [|discriminate].
  destruct (IH b H) as [r ->]. now exists r.
Qed.

Lemma append_assoc (a b c : string) : (a +:+ b) +:+ c = a +:+ b +:+ c.
Proof.
  induction a as [|d a IH]; [reflexivity|].
  change ((String d a +:+ b) +:+ c) with (String d ((a +:+ b) +:+ c)).
  now rewrite IH.
Qed.

Lemma split_not_nil (sep : Ascii.ascii) (s : string) : Startup.split sep s <> [].
Proof.
  induction s as [|c s IH]; cbn -[Ascii.eqb]; [discriminate|].
  destruct (Ascii.eqb c sep); [discriminate|].
  destruct (Startup.split sep s); [contradiction | discriminate].
Qed.

Lemma split_free (sep : Ascii.ascii) (v : string) :
  has_char sep v = false -> Startup.split sep v = [v].
Proof.
  induction v as [|c v IH]; cbn -[Ascii.eqb]; [reflexivity|].
  intros H. apply orb_false_iff in H. destruct H as [Hc Hv].
  rewrite Hc, (IH Hv). reflexivity.
Qed.

Lemma split_at_first (sep : Ascii.ascii) (a b : string) :
  has_char sep a = false ->
  Startup.split sep (a +:+ String sep b) = a :: Startup.split sep b.
Proof.
  induction a as [|c a IH].
  - intros _. change (EmptyString +:+ String sep b) with (String sep b).
    cbn -[Ascii.eqb]. now rewrite Ascii.eqb_refl.
  - intros H. cbn -[Ascii.eqb] in H.
    apply orb_false_iff in H. destruct H as [Hc Ha].
    change (String c a +:+ String sep b) with (String c (a +:+ String sep b)).
    cbn -[Ascii.eqb String.append]. rewrite Hc, (IH Ha). reflexivity.
Qed.

(** A string is cut at its first occurrence of the separator. *)
Lemma split_head (sep : Ascii.ascii) (v : string) :
  exists value pieces,
    Startup.split sep v = value :: pieces
    /\ has_char sep value = false
    /\ (v = value \/ exists rest, v = value +:+ String sep rest).
Proof.
  induction v as [|c v (value & pieces & Hs & Hf & Hv)]; cbn -[Ascii.eqb].
  - exists EmptyString, []. repeat split. now left.
  - destruct (Ascii.eqb c sep) eqn:E.
    + apply Ascii.eqb_eq in E. subst c.
      exists EmptyString, (Startup.split sep v). repeat split.
      right. now exists v.
    + rewrite Hs. exists (String c value), pieces. cbn -[Ascii.eqb]. rewrite E, Hf.
      repeat split. destruct Hv as [->|[rest ->]]; [now left|].
      right. now exists rest.
Qed.

Lemma split_two (sep : Ascii.ascii) (s : string) :
  has_char sep s = true ->
  exists first second pieces, Startup.split sep s = first :: second :: pieces.
Proof.
  induction s as [|c s IH]; cbn -[Ascii.eqb]; [discriminate|].
  destruct (Ascii.eqb c sep) eqn:E.
  - intros _. destruct (Startup.split sep s) as [|x l] eqn:Es.
    + now apply split_not_nil in Es.
    + now exists EmptyString, x, l.
  - cbn -[Ascii.eqb]. intros H. destruct (IH H) as (x & y & l & ->).
    now exists (String c x), y, l.
Qed.

Lemma has_char_app (c : Ascii.ascii) (a b : string) :
  has_char c (a +:+ b) = has_char c a || has_char c b.
Proof.
  induction a as [|d a IH]; [reflexivity|].
  change (String d a +:+ b) with (String d (a +:+ b)).
  cbn -[Ascii.eqb String.append]. now rewrite IH, orb_assoc.
Qed.

Lemma find_skip {A : Type} (f : A -> bool) (before after : list A) (x : A) :
  (forall a, In a before -> f a = false) -> f x = true ->
  List.find f (before ++ x :: after) = Some x.
Proof.
  induction before as [|b before IH]; intros Hb Hx; cbn.
  - now rewrite Hx.
  - rewrite (Hb b (or_introl eq_refl)). apply IH; [|exact Hx].
    intros a Ha. apply Hb. now right.
Qed.

Lemma parseCliArg_first (before after : list string) (prefix v : string) :
  has_char Startup.equals_sign prefix = false ->
  (forall a, In a before -> String.prefix (prefix +:+ "=") a = false) ->
  Startup.parseCliArg (before ++ (prefix +:+ "=" +:+ v) :: after) prefix
  = head (Startup.split Startup.equals_sign v).
Proof.
  intros Hp Hb. unfold Startup.parseCliArg. cbv zeta.
  rewrite (find_skip (fun a => String.prefix (prefix +:+ "=") a)
             before after (prefix +:+ "=" +:+ v) Hb).
  2:{ rewrite <- append_assoc. apply prefix_app. }
  assert (Ht : truthy (prefix +:+ "=" +:+ v) = true)
    by (destruct prefix; reflexivity).
  rewrite Ht.
  change (prefix +:+ "=" +:+ v) with (prefix +:+ String Startup.equals_sign v).
  rewrite (split_at_first _ _ _ Hp). cbn [nth_error].
  now destruct (Startup.split Startup.equals_sign v).
Qed.

(** X1. [parseCliArg] answers with the value of the first argument of the
    form [prefix=value], cut at the first [=] of the value: the answer has
    no [=] in it, and it is the whole value when the value has none. *)
Theorem parseCliArg_value (before after : list string) (prefix v : string) :
  has_char Startup.equals_sign prefix = false ->
  (forall a, In a before -> String.prefix (prefix +:+ "=") a = false) ->
  exists value,
    Startup.parseCliArg (before ++ (prefix +:+ "=" +:+ v) :: after) prefix
    = Some value
    /\ has_char Startup.equals_sign value = false
    /\ (v = value \/ exists rest, v = value +:+ "=" +:+ rest)
    /\ (has_char Startup.equals_sign v = false -> value = v).
Proof.
  intros Hp Hb.
  destruct (split_head Startup.equals_sign v) as (value & pieces & Hs & Hf & Hv).
  exists value. rewrite (parseCliArg_first before after prefix v Hp Hb), Hs.
  repeat split; [exact Hf | exact Hv |].
  intros Hv'. rewrite (split_free _ _ Hv') in Hs. congruence.
Qed.

Lemma parseCliArg_value_witness :
  exists value,
    Startup.parseCliArg
      ["node"; "index.js"; "--project-name=my=proj"; "--project-name=x"]
      "--project-name"
    = Some value
    /\ has_char Startup.equals_sign value = false
    /\ ("my=proj" = value \/ exists rest, "my=proj" = value +:+ "=" +:+ rest).
Proof.
  destruct (parseCliArg_value ["node"; "index.js"] ["--project-name=x"]
              "--project-name" "my=proj" eq_refl) as (value & Hr & Hf & Hv & _).
  - intros a [<-|[<-|[]]]; reflexivity.
  - exists value. split; [exact Hr|]. split; [exact Hf | exact Hv].
Defined.

(** X2. [parseCliArg] is undefined exactly when no argument starts with
    [prefix=]. *)
Theorem parseCliArg_undefined (argv : list string) (prefix : string) :
  Startup.parseCliArg argv prefix = None
  <-> Forall (fun a => String.prefix (prefix +:+ "=") a = false) argv.
Proof.
  unfold Startup.parseCliArg. split.
  - intros H. destruct (List.find _ argv) as [arg|] eqn:E.
    + exfalso. apply List.find_some in E. destruct E as [_ E].
      destruct (prefix_inv _ _ E) as [r ->].
      assert (Ht : truthy ((prefix +:+ "=") +:+ r) = true)
        by (destruct prefix; reflexivity).
      rewrite Ht in H.
      destruct (split_two Startup.equals_sign ((prefix +:+ "=") +:+ r))
        as (x & y & l & Hs).
      { rewrite !has_char_app. cbn. now rewrite orb_true_r. }
      rewrite Hs in H. discriminate.
    + apply List.Forall_forall. intros a Ha. exact (List.find_none _ _ E a Ha).
  - intros H. destruct (List.find _ argv) as [arg|] eqn:E; [|reflexivity].
    apply List.find_some in E. destruct E as [Hin E].
    rewrite List.Forall_forall in H. rewrite (H arg Hin) in E. discriminate.
Qed.

(** X3. A command-line argument [--project-name=value], the first of that
    form, with a value that is not empty and has no [=] in it, decides
    [CONFIG.projectName] whatever the environment holds. *)
Theorem projectName_from_command_line (before after : list string)
  (v : string) (env : gmap string string) :
  (forall a, In a before -> String.prefix "--project-name=" a = false) ->
  truthy v = true ->
  has_char Startup.equals_sign v = false ->
  Startup.CONFIG_projectName (before ++ ("--project-name=" +:+ v) :: after) env = v.
Proof.
  intros Hb Ht Hv.
  pose proof (parseCliArg_first before after "--project-name" v eq_refl Hb) as Hr.
  rewrite (split_free _ _ Hv) in Hr. cbn [head] in Hr.
  unfold Startup.CONFIG_projectName.
  change ("--project-name=" +:+ v) with ("--project-name" +:+ "=" +:+ v).
  rewrite Hr. unfold Startup.or_undefined.
  repeat (cbn [truthy_opt default]; rewrite ?Ht). reflexivity.
Qed.

Lemma projectName_from_command_line_witness :
  Startup.CONFIG_projectName ["node"; "build/index.js"; "--project-name=mcp-servers"]
    (<["PROJECT_NAME" := "other"]> ∅)
  = "mcp-servers".
Proof.
  apply (projectName_from_command_line ["node"; "build/index.js"] []
           "mcp-servers").
  - intros a [<-|[<-|[]]]; reflexivity.
  - reflexivity.
  - reflexivity.
Defined.

Lemma CONFIG_projectName_truthy (argv : list string) (env : gmap string string) :
  truthy (Startup.CONFIG_projectName argv env) = true.
Proof.
  unfold Startup.CONFIG_projectName, Startup.or_undefined.
  repeat match goal with
         | |- context [truthy_opt ?o] =>
             let E := fresh "E" in destruct (truthy_opt o) eqn:E
         end;
    cbn [default];
    repeat match goal with
           | H : truthy_opt ?o = true |- context [default _ ?o] =>
               destruct o; cbn [default truthy_opt] in *; try discriminate
           end; auto.
Qed.

(** X4. Whatever the command line and the environment, a server that
    gets past the token check has a project name and a token that are not
    empty. *)
Theorem CONFIG_never_empty (argv : list string) (env : gmap string string)
  (c : Config) :
  Startup.CONFIG argv env = Some c ->
  truthy (projectName c) = true /\ truthy (token c) = true
  /\ env !! "DISCORD_BOT_TOKEN" = Some (token c).
Proof.
  unfold Startup.CONFIG.
  destruct (env !! "DISCORD_BOT_TOKEN") as [t|]; [|discriminate].
  destruct (truthy t) eqn:Ht; [|discriminate].
  intros [= <-]. cbn [projectName token]. split; [|now split].
  apply CONFIG_projectName_truthy.
Qed.

Lemma CONFIG_never_empty_witness :
  exists c,
    Startup.CONFIG ["node"; "build/index.js"; "--project-name="]
      (<["DISCORD_BOT_TOKEN" := "secret"]> ∅) = Some c
    /\ truthy (projectName c) = true.
Proof.
  exists {| projectName := "mcp-servers"; token := "secret" |}.
  split; [reflexivity|].
  apply (CONFIG_never_empty ["node"; "build/index.js"; "--project-name="]
           (<["DISCORD_BOT_TOKEN" := "secret"]> ∅)).
  reflexivity.
Defined.

(** X5. With such a [CONFIG], the text that [send_message] sends or
    queues is always the content behind a bracketed project name: the
    request's [project_name] when it is given and not empty, the
    configured one otherwise. *)
Theorem messageContent_prefixed (argv : list string) (env : gmap string string)
  (c : Config) (a : SendMessageSchema.t) :
  Startup.CONFIG argv env = Some c ->
  exists p,
    truthy p = true
    /\ V101.messageContent c a = "[" +:+ p +:+ "] " +:+ SendMessageSchema.content a
    /\ p = match SendMessageSchema.project_name a with
           | Some q => if truthy q then q else projectName c
           | None => projectName c
           end.
Proof.
  intros Hc.
  assert (Hp : truthy (projectName c) = true).
  { unfold Startup.CONFIG in Hc.
    destruct (env !! "DISCORD_BOT_TOKEN") as [t|]; [|discriminate].
    destruct (truthy t); [|discriminate]. injection Hc as <-.
    apply CONFIG_projectName_truthy. }
  unfold V101.messageContent, or_else.
  destruct (SendMessageSchema.project_name a) as [q|].
  - destruct (truthy q) eqn:Hq.
    + exists q. now rewrite Hq.
    + exists (projectName c). now rewrite Hp.
  - exists (projectName c). now rewrite Hp.
Qed.

Lemma messageContent_prefixed_witness :
  V101.messageContent {| projectName := "mcp-servers"; token := "secret" |}
    {| SendMessageSchema.channel_name := "general";
       SendMessageSchema.content := "hi";
       SendMessageSchema.project_name := Some EmptyString |}
  = "[mcp-servers] hi".
Proof.
  assert (Hc : Startup.CONFIG ["node"; "build/index.js"]
                 (<["DISCORD_BOT_TOKEN" := "secret"]> ∅)
               = Some {| projectName := "mcp-servers"; token := "secret" |})
    by (vm_compute; reflexivity).
  destruct (messageContent_prefixed _ _ _
              {| SendMessageSchema.channel_name := "general";
                 SendMessageSchema.content := "hi";
                 SendMessageSchema.project_name := Some EmptyString |}
              Hc) as (p & _ & Hm & Hp).
  rewrite Hm, Hp. reflexivity.
Defined.

(** ** Validation and dispatch *)

Lemma rethrow_run {W A : Type} (e : JsError) (st : DiscordMcpServer * W) :
  snd (@rethrow W A e st) = st
  /\ forall errors, fst (@rethrow W A e st) <> Throw (ZodError errors).
Proof. destruct e; cbn; split; auto; discriminate. Qed.

Lemma try_catch_rethrow_not_zod {W A : Type} (m : @M W A)
  (st : DiscordMcpServer * W) (errors : list ZodIssue) :
  fst (try_catch m rethrow st) <> Throw (ZodError errors).
Proof.
  unfold try_catch. destruct (m st) as [[a|e] st']; [discriminate|].
  apply rethrow_run.
Qed.

(** X6. Neither dispatcher lets a [ZodError] out: whatever the request,
    the session and the client, what reaches the caller is a result or an
    error of another kind. *)
Theorem callTool_never_throws_ZodError {W : Type} (client : Platform W)
  (CONFIG : Config) (toISOString : Z -> string) (request : CallToolRequest)
  (st : DiscordMcpServer * W) (errors : list ZodIssue) :
  fst (V101.callTool client CONFIG toISOString request st) <> Throw (ZodError errors)
  /\ fst (V100.callTool client toISOString request st) <> Throw (ZodError errors).
Proof. split; apply try_catch_rethrow_not_zod. Qed.

(** The message of the error that stands for a [ZodError]. *)
Lemma invalid_arguments_run {W A B : Type} (p : result A) (k : A -> @M W B)
  (st : DiscordMcpServer * W) (errors : list ZodIssue) :
  p = Throw (ZodError errors) ->
  try_catch (let* a := of_result p in k a) rethrow st
  = (Throw (McpError InvalidParams
              ("Invalid arguments: "
               +:+ String.concat ", " (map issue_message errors))), st).
Proof. intros ->. reflexivity. Qed.

(** X7. In 1.0.0, arguments that the schema of the tool rejects are
    answered with [InvalidParams] and a message that joins the messages of
    all the issues; nothing is asked of the client and the server is left
    as it was. *)
Theorem invalid_arguments_V100 {W : Type} (client : Platform W)
  (toISOString : Z -> string) (args : Arguments_)
  (st : DiscordMcpServer * W) (errors : list ZodIssue) :
  let invalid :=
    (Throw (McpError InvalidParams
              ("Invalid arguments: "
               +:+ String.concat ", " (map issue_message errors))), st) in
  (ReadMessagesSchema.parse args = Throw (ZodError errors) ->
   V100.callTool client toISOString
     {| name := "read_recent_messages"; arguments := args |} st = invalid)
  /\ (SendMessageSchema.parse_v100 args = Throw (ZodError errors) ->
      V100.callTool client toISOString
        {| name := "send_message"; arguments := args |} st = invalid)
  /\ (ReactionSchema.parse args = Throw (ZodError errors) ->
      V100.callTool client toISOString
        {| name := "add_reaction"; arguments := args |} st = invalid
      /\ V100.callTool client toISOString
           {| name := "remove_reaction"; arguments := args |} st = invalid)
  /\ (DeleteMessageSchema.parse args = Throw (ZodError errors) ->
      V100.callTool client toISOString
        {| name := "delete_message"; arguments := args |} st = invalid).
Proof.
  cbv zeta. repeat split; intros; unfold V100.callTool; route;
    [unfold V100.read_recent_messages | unfold V100.send_message
    | unfold V100.add_reaction | unfold V100.remove_reaction
    | unfold V100.delete_message];
    now apply invalid_arguments_run.
Qed.

(** X8. In the rewrite, [send_message] with arguments that its schema
    rejects does raise: the answer is [InvalidParams], no login is
    attempted and nothing is queued, whatever the state of the session. *)
Theorem send_message_invalid_arguments {W : Type} (client : Platform W)
  (CONFIG : Config) (toISOString : Z -> string) (args : Arguments_)
  (st : DiscordMcpServer * W) (errors : list ZodIssue) :
  SendMessageSchema.parse args = Throw (ZodError errors) ->
  V101.callTool client CONFIG toISOString
    {| name := "send_message"; arguments := args |} st
  = (Throw (McpError InvalidParams
              ("Invalid arguments: "
               +:+ String.concat ", " (map issue_message errors))), st).
Proof.
  intros Hp. unfold V101.callTool. route. unfold V101.send_message.
  unfold bind at 1. unfold ret at 1.
  destruct st as [s w]. now apply invalid_arguments_run.
Qed.

Lemma send_message_invalid_arguments_witness :
  V101.callTool Fake.client Fake.CONFIG Fake.toISOString
    (Fake.request "send_message" [("channel_name", JStr "general")])
    (constructor, Fake.world Fake.logs_in [] [])
  = (Throw (McpError InvalidParams "Invalid arguments: Required"),
     (constructor, Fake.world Fake.logs_in [] [])).
Proof.
  apply (send_message_invalid_arguments Fake.client Fake.CONFIG Fake.toISOString
           _ _ [invalid_type "content" "string" None]).
  vm_compute. reflexivity.
Defined.

(** X9. In the rewrite every tool name other than [send_message] goes
    through [ensureConnected] before anything else: when that fails, its
    error is what the caller gets, the arguments are not looked at and the
    name is not looked up, so not even an unknown name is answered with
    [MethodNotFound]. *)
Theorem connect_failure_comes_first {W : Type} (client : Platform W)
  (CONFIG : Config) (toISOString : Z -> string) (request : CallToolRequest)
  (st : DiscordMcpServer * W) (e : JsError) :
  name request <> "send_message" ->
  fst (V101.ensureConnected client st) = Throw e ->
  V101.callTool client CONFIG toISOString request st
  = rethrow e (snd (V101.ensureConnected client st)).
Proof.
  intros Hn He. unfold V101.callTool.
  destruct (decide (name request = "send_message")) as [|_]; [contradiction|].
  unfold try_catch, bind.
  destruct (V101.ensureConnected client st) as [[[]|e'] st']; cbn [fst snd] in *;
    [discriminate|]. now injection He as ->.
Qed.

Lemma connect_failure_comes_first_witness :
  fst (V101.callTool Fake.client Fake.CONFIG Fake.toISOString
         (Fake.request "no_such_tool" [])
         (constructor, Fake.world Fake.times_out [] []))
  = Throw (PlainError "Login timeout (15s)").
Proof.
  rewrite (connect_failure_comes_first Fake.client Fake.CONFIG Fake.toISOString
             (Fake.request "no_such_tool" [])
             (constructor, Fake.world Fake.times_out [] [])
             (PlainError "Login timeout (15s)"));
    [reflexivity | discriminate | reflexivity].
Defined.

(** ** A session that has been ready once *)

Section AfterReady.
Context {W : Type} (client : Platform W) (CONFIG : Config)
        (toISOString : Z -> string).


Lemma getChannelByName_unready (n : string) (s : DiscordMcpServer) (w : W) :
  ready s = false ->
  V101.getChannelByName client n (s, w)
  = (Throw (McpError InternalError "Discord client is not ready."), (s, w)).
Proof. intros Hr. unfold V101.getChannelByName. cbn [fst snd]. now rewrite Hr. Qed.


End AfterReady.



(** What [send_message] with valid arguments comes to, in terms of its
    [try] block. *)
Lemma send_message_run {W : Type} (client : Platform W) (CONFIG : Config)
  (toISOString : Z -> string) (args : Arguments_) (a : SendMessageSchema.t)
  (st : DiscordMcpServer * W) :
  SendMessageSchema.parse args = Ok a ->
  V101.callTool client CONFIG toISOString
    {| name := "send_message"; arguments := args |} st
  = match V101.send_now client CONFIG a st with
    | (Ok r, st') => (Ok r, st')
    | (Throw e, st') =>
        (Ok (text_result (V101.queue_notice e)),
         (push (V101.queued CONFIG a) (fst st'), snd st'))
    end.
Proof.
  intros Hp. unfold V101.callTool. route. unfold V101.send_message.
  monad_unfold. rewrite Hp.
  destruct (V101.send_now client CONFIG a st) as [[r|e] st']; reflexivity.
Qed.




(** ** Login attempts *)

Lemma promise_while_loggingIn_step {W : Type} (client : Platform W)
  (st : DiscordMcpServer * W) (t : V101.Step) :
  (loggingIn (fst st) = true -> is_Some (loginPromise (fst st))) ->
  loggingIn (fst (V101.step client st t)) = true ->
  is_Some (loginPromise (fst (V101.step client st t))).
Proof.
  destruct st as [s w]. cbn [fst].
  intros H. destruct t as [|ev| |]; cbn [V101.step fst snd].
  - unfold V101.ensureConnected_enter.
    destruct (ready s); [exact H|].
    destruct (loggingIn s) eqn:Hl.
    + assert (Hs : snd (match loginPromise s with
                        | Some p => (V101.Awaiting p, s)
                        | None => (V101.Returned, s)
                        end) = s) by now destruct (loginPromise s).
      rewrite Hs. intros _. now apply H.
    + cbn. eauto.
  - destruct (emit_run client 0 ev s w)
      as (s' & w' & E & A1 & A2 & A3 & A4 & A5 & Rt & Rf & Re & Rd & Rr).
    rewrite E. cbn [fst snd].
    destruct ev as [|e| |].
    + destruct (readyListener s) eqn:Hl.
      * destruct (Rt eq_refl eq_refl) as (_ & K2 & _). rewrite K2. discriminate.
      * destruct (Rf eq_refl eq_refl) as [-> _]. exact H.
    + destruct (Re e eq_refl) as [-> _]. cbn. discriminate.
    + destruct (Rd eq_refl) as [-> _]. exact H.
    + destruct (Rr eq_refl) as [-> _]. exact H.
  - cbn. discriminate.
  - destruct (drain_turn_run client s w)
      as (s' & w' & E & K1 & K2 & K3 & _).
    rewrite E. cbn [fst snd]. rewrite K2, K3. exact H.
Qed.

Lemma promise_while_loggingIn_run {W : Type} (client : Platform W)
  (trace : list V101.Step) (st : DiscordMcpServer * W) :
  (loggingIn (fst st) = true -> is_Some (loginPromise (fst st))) ->
  loggingIn (fst (foldl (V101.step client) st trace)) = true ->
  is_Some (loginPromise (fst (foldl (V101.step client) st trace))).
Proof.
  revert st. induction trace as [|t trace IH]; intros st H; [exact H|].
  cbn [foldl]. apply IH. now apply promise_while_loggingIn_step.
Qed.

(** X12. However calls, events of the client (errors and disconnects
    included), settlements and turns of the drain follow one another on a
    new server, a call of [ensureConnected] returns without waiting only
    when the session is ready: whenever [loggingIn] is set there is a
    promise to wait for, so the branch that returns without one is never
    taken. *)
Theorem ensureConnected_returns_at_once_only_when_ready {W : Type}
  (client : Platform W) (w : W) (trace : list V101.Step) :
  let s := fst (foldl (V101.step client) (constructor, w) trace) in
  fst (V101.ensureConnected_enter s) = V101.Returned -> ready s = true.
Proof.
  cbv zeta. set (s := fst (foldl (V101.step client) (constructor, w) trace)).
  pose proof (promise_while_loggingIn_run client trace (constructor, w)) as H.
  fold s in H. unfold V101.ensureConnected_enter.
  destruct (ready s); [reflexivity|].
  destruct (loggingIn s).
  - destruct H as [p Hp]; [discriminate | reflexivity |].
    rewrite Hp. discriminate.
  - discriminate.
Qed.

Lemma ensureConnected_returns_at_once_only_when_ready_witness :
  ready (fst (foldl (V101.step Fake.client)
                (constructor, Fake.world Fake.logs_in [] [])
                [V101.StepCall; V101.StepEvent EvReady; V101.StepSettle;
                 V101.StepCall]))
  = true.
Proof.
  apply (ensureConnected_returns_at_once_only_when_ready Fake.client
           (Fake.world Fake.logs_in [] [])
           [V101.StepCall; V101.StepEvent EvReady; V101.StepSettle; V101.StepCall]).
  reflexivity.
Defined.



(** ** Draining *)

Lemma flush_loop_not_ready {W : Type} (client : Platform W)
  (messages : list PendingMessage.t) (s : DiscordMcpServer) (w : W) :
  ready s = false ->
  V101.flush_loop client messages (s, w)
  = (Ok tt, (foldl (fun s m => push m s) s messages, w)).
Proof.
  revert s. induction messages as [|msg rest IH]; intros s Hr; [reflexivity|].
  cbn [V101.flush_loop foldl]. unfold bind, V101.flush_one, try_catch, V101.deliver.
  unfold bind. rewrite (getChannelByName_unready client _ s w Hr).
  unfold update. cbn [fst snd]. now apply IH.
Qed.

Lemma foldl_push (messages : list PendingMessage.t) (s : DiscordMcpServer) :
  let s' := foldl (fun s m => push m s) s messages in
  pendingMessages s' = pendingMessages s ++ messages
  /\ calls s' = calls s /\ ready s' = ready s /\ background s' = background s.
Proof.
  revert s. induction messages as [|msg rest IH]; intros s; cbn [foldl].
  - now rewrite app_nil_r.
  - destruct (IH (push msg s)) as (H1 & H2 & H3 & H4). cbv zeta.
    rewrite H1, H2, H3, H4. cbn. now rewrite <- app_assoc.
Qed.

(** X14. A drain that runs while the session is not ready delivers
    nothing: every message fails at the channel lookup and is put back, so
    the queue ends as it began, in the same order; the client is not asked
    anything. *)
Theorem drain_while_not_ready {W : Type} (client : Platform W)
  (s : DiscordMcpServer) (w : W) :
  ready s = false ->
  let r := V101.flushPendingMessages client (s, w) in
  fst r = Ok tt
  /\ pendingMessages (fst (snd r)) = pendingMessages s
  /\ calls (fst (snd r)) = calls s
  /\ snd (snd r) = w.
Proof.
  intros Hr. cbv zeta. unfold V101.flushPendingMessages. monad_unfold.
  destruct (pendingMessages s) as [|msg rest] eqn:E;
    cbn [length Nat.eqb fst snd].
  - now rewrite E.
  - rewrite (flush_loop_not_ready client (msg :: rest)
               (set_pendingMessages [] s) w Hr).
    cbn [fst snd].
    destruct (foldl_push (msg :: rest) (set_pendingMessages [] s))
      as (H1 & H2 & _).
    rewrite H1, H2. now repeat split.
Qed.

Lemma drain_while_not_ready_witness :
  pendingMessages
    (fst (snd (V101.flushPendingMessages Fake.client
                 (set_pendingMessages [Fake.hi; Fake.hi]
                    (V101.on_shardDisconnect Fake.online),
                  Fake.world Fake.logs_in [] []))))
  = [Fake.hi; Fake.hi].
Proof.
  apply (drain_while_not_ready Fake.client
           (set_pendingMessages [Fake.hi; Fake.hi]
              (V101.on_shardDisconnect Fake.online))
           (Fake.world Fake.logs_in [] []) eq_refl).
Defined.

(** ** The first login *)

Section FirstLogin.
Context {W : Type} (client : Platform W).

Lemma first_tried_mono (w : W) (m : PendingMessage.t) (u u' : DiscordMcpServer) :
  (forall x, In x (pendingMessages u) -> In x (pendingMessages u')) ->
  (forall c, In c (calls u) -> In c (calls u')) ->
  first_tried client w m u -> first_tried client w m u'.
Proof.
  intros Hq Hc. unfold first_tried.
  destruct (findChannel _ _); [apply Hc | apply Hq].
Qed.

(** A continuation of a lookup loses nothing. *)
Lemma resume_keeps (queued : list PendingMessage.t)
  (msg : PendingMessage.t) (looked : result Channel) (rest : list PendingMessage.t)
  (u : DiscordMcpServer) (w : W) :
  exists d' u' w',
    V101.drain_resume client (AwaitChannel msg looked rest) (u, w)
    = (Ok d', (u', w'))
    /\ ready u' = ready u /\ readyListener u' = readyListener u
    /\ background u' = background u
    /\ (forall x, In x (pendingMessages u) -> In x (pendingMessages u'))
    /\ (forall c, In c (calls u) -> In c (calls u'))
    /\ (in_work queued (Some (AwaitChannel msg looked rest)) u ->
        in_work queued d' u').
Proof.
  destruct looked as [channel|e]; cbn [V101.drain_resume].
  - unfold V101.send, ask. cbn [fst snd].
    destruct (channel_send client channel _ w) as [reply w'].
    do 3 eexists. split; [reflexivity|]. cbn.
    repeat split; auto.
    + intros c Hc. apply in_or_app. now left.
    + intros H x Hx. destruct (H x Hx) as [Hp|[(d0 & [= <-] & Hd)|(ch & ok & Hs)]].
      * now left.
      * right. left. eexists. split; [reflexivity | exact Hd].
      * right. right. exists ch, ok. apply in_or_app. now left.
  - unfold bind, update. cbn [fst snd].
    destruct (drain_next_run client rest (push msg u, w)) as (d & -> & _ & Hd).
    do 3 eexists. split; [reflexivity|]. cbn.
    repeat split; auto.
    + intros x Hx. apply in_or_app. now left.
    + intros H x Hx. destruct (H x Hx) as [Hp|[(d0 & [= <-] & Hin)|Hs]].
      * left. apply in_or_app. now left.
      * destruct Hin as [<-|Hin].
        -- left. apply in_or_app. right. now left.
        -- destruct rest as [|m2 rest']; [destruct Hin|].
           rewrite (Hd m2 rest' eq_refl). right. left.
           eexists. split; [reflexivity | exact Hin].
      * now right; right.
Qed.

(** Nor does a chain of them. *)
Lemma chain_keeps (queued : list PendingMessage.t) (w0 : W) (m : PendingMessage.t)
  (n : nat) (d : option Drain) (u : DiscordMcpServer) (w : W) :
  exists d' u' w',
    V101.drain_chain client n d (u, w) = (Ok d', (u', w'))
    /\ ready u' = ready u /\ readyListener u' = readyListener u
    /\ background u' = background u
    /\ (first_tried client w0 m u -> first_tried client w0 m u')
    /\ (in_work queued d u -> in_work queued d' u').
Proof.
  revert d u w. induction n as [|n IH]; intros d u w.
  { exists d, u, w. split; [now destruct d as [[]|]|]. now repeat split. }
  destruct d as [[msg looked rest|msg reply rest]|]; cbn [V101.drain_chain];
    try (do 3 eexists; split; [reflexivity|]; now repeat split).
  unfold bind.
  destruct (resume_keeps queued msg looked rest u w)
    as (d1 & u1 & w1 & -> & A1 & A2 & A3 & A4 & A5 & A6).
  destruct (IH d1 u1 w1) as (d2 & u2 & w2 & -> & B1 & B2 & B3 & B4 & B5).
  exists d2, u2, w2. split; [reflexivity|].
  rewrite B1, B2, B3. repeat split; auto.
  intros H. apply B4. now apply (first_tried_mono w0 m u u1).
Qed.

(** The drain that the [ready] listener starts, at the moment it is
    parked: the first message of the snapshot has been tried, and every
    message of the snapshot is accounted for. *)
Lemma flush_start_first_turn (n : nat) (u : DiscordMcpServer) (w : W)
  (m : PendingMessage.t) (rest : list PendingMessage.t) :
  ready u = true ->
  pendingMessages u = m :: rest ->
  exists u' w',
    V101.flushPendingMessages_start client n (u, w) = (Ok tt, (u', w'))
    /\ ready u' = true /\ readyListener u' = readyListener u
    /\ first_tried client w m u'
    /\ (forall x, In x (m :: rest) -> accounted x u').
Proof.
  intros Hr Hq.
  unfold V101.flushPendingMessages_start. unfold bind at 1, this. cbn [fst snd].
  rewrite Hq. cbn [length Nat.eqb].
  unfold bind at 1, update. cbn [fst snd].
  unfold bind at 1. cbn [V101.drain_next].
  unfold V101.getChannelByName at 1. cbn [fst snd ready set_pendingMessages].
  rewrite Hr. cbn [negb]. unfold bind at 1. cbn [V101.drain_chain].
  unfold bind at 1.
  set (u0 := set_pendingMessages [] u).
  set (looked := fst (match findChannel (guilds_cache client w)
                              (PendingMessage.channel_name m) with
                      | Some channel => (Ok channel, (u0, w))
                      | None => (Throw (McpError InvalidParams
                                          ("Channel #"
                                           +:+ PendingMessage.channel_name m
                                           +:+ " not found.")), (u0, w))
                      end)).
  assert (Hwork0 : in_work (m :: rest) (Some (AwaitChannel m looked rest)) u0).
  { intros x Hx. right. left. eexists. split; [reflexivity | exact Hx]. }
  destruct (resume_keeps (m :: rest) m looked rest u0 w)
    as (d1 & u1 & w1 & E1 & A1 & A2 & A3 & A4 & A5 & A6).
  assert (Hfirst : first_tried client w m u1).
  { unfold first_tried. subst looked. revert E1.
    destruct (findChannel (guilds_cache client w) (PendingMessage.channel_name m))
      as [channel|]; cbn [fst V101.drain_resume].
    - unfold V101.send, ask. cbn [fst snd].
      destruct (channel_send client channel _ w) as [reply w']. cbn [fst].
      intros [= _ <- _]. cbn. apply in_or_app. right. now left.
    - unfold bind, update. cbn [fst snd].
      destruct (drain_next_run client rest (push m u0, w)) as (d & -> & _).
      intros [= _ <- _]. cbn. now left. }
  rewrite E1.
  destruct (chain_keeps (m :: rest) w m n d1 u1 w1)
    as (d2 & u2 & w2 & -> & B1 & B2 & B3 & B4 & B5).
  unfold update. cbn [fst snd].
  exists (V101.park d2 u2), w2. split; [reflexivity|].
  unfold V101.park. cbn [ready readyListener set_background].
  rewrite B1, B2, A1, A2. subst u0. cbn. rewrite Hr.
  split; [reflexivity|]. split; [reflexivity|]. split.
  - apply (first_tried_mono w m u2); [auto | auto | now apply B4].
  - intros x Hx. destruct (B5 (A6 Hwork0) x Hx) as [Hp|[(d0 & -> & Hd)|Hs]].
    + now left.
    + right. left. exists d0. split; [|exact Hd].
      cbn. apply in_or_app. right. now left.
    + now right; right.
Qed.

(** X15. When a call of [ensureConnected] brings the first login about,
    the [ready] listener starts the drain of what was queued, and the
    drain takes its first turn before the call returns: the send of the
    first queued message is in the log if its channel exists, the message
    is back in the queue if it does not. No queued message is lost: each
    is in the queue again, in the hands of the drain, or sent. If no
    disconnect arrives meanwhile the session is ready at the return. *)
Theorem first_login_starts_drain (s : DiscordMcpServer) (w : W)
  (m : PendingMessage.t) (rest : list PendingMessage.t) :
  readyListener s = true ->
  ready s = false ->
  loggingIn s = false ->
  pendingMessages s = m :: rest ->
  fst (V101.ensureConnected client (s, w)) = Ok tt ->
  let s' := fst (snd (V101.ensureConnected client (s, w))) in
  readyListener s' = false
  /\ first_tried client (snd (client_login client w)) m s'
  /\ (forall x, In x (m :: rest) -> accounted x s')
  /\ (Forall (fun ev => ev <> EvShardDisconnect)
             (during_login (fst (client_login client w))) ->
      ready s' = true).
Proof.
  intros Hl Hr Hg Hq Hok. cbv zeta. revert Hok.
  set (w0 := snd (client_login client w)).
  set (script := fst (client_login client w)).
  set (n := ticks script).
  set (quiet := Forall (fun ev => ev <> EvShardDisconnect) (during_login script)).
  (* what holds of the session once the listener has fired *)
  set (Q := fun u : DiscordMcpServer =>
              readyListener u = false
              /\ first_tried client w0 m u
              /\ (forall x, In x (m :: rest) -> accounted x u)).
  assert (HQ : forall u u', Q u -> spent_frame u u' -> Q u').
  { intros u u' (Q1 & Q2 & Q3) (F1 & F2 & F3 & F4 & F5).
    unfold Q, first_tried, accounted in *. rewrite F2, F3, F4. now repeat split. }
  (* where the events can take the session *)
  set (Inv := fun (b : Prop) (u : DiscordMcpServer) (w' : W) =>
                (readyListener u = true /\ ready u = false
                 /\ pendingMessages u = m :: rest /\ w' = w0)
                \/ (Q u /\ (b -> ready u = true))).
  assert (Hstep : forall (b : Prop) ev u w',
            (b -> ev <> EvShardDisconnect) -> Inv b u w' ->
            Inv b (fst (snd (V101.emit client n ev (u, w'))))
                  (snd (snd (V101.emit client n ev (u, w'))))).
  { intros b ev u w' Hev [(A1 & A2 & A3 & A4)|(B1 & B2)].
    - destruct ev as [|e| |]; cbn [V101.emit]; unfold update; cbn [fst snd].
      + right. rewrite (on_ready_armed client n u w' A1).
        destruct (flush_start_first_turn n
                    (set_loggingIn false (set_ready true (set_readyListener false u)))
                    w' m rest eq_refl A3)
          as (u' & w'' & -> & K1 & K2 & K3 & K4).
        cbn [fst snd]. subst w'. unfold Q. now repeat split.
      + left. now repeat split.
      + left. now repeat split.
      + left. now repeat split.
    - right. destruct (emit_spent client n ev u w' (proj1 B1)) as (u' & E & F).
      rewrite E. cbn [fst snd]. split; [now apply (HQ u u')|].
      intros Hb. specialize (B2 Hb). specialize (Hev Hb).
      destruct ev as [|e| |]; cbn [V101.emit] in E; unfold update in E;
        cbn [fst snd] in E.
      * rewrite (on_ready_spent client n u w' (proj1 B1)) in E.
        now injection E as <-.
      * injection E as <-. exact B2.
      * contradiction.
      * injection E as <-. exact B2. }
  assert (Hrun : forall (b : Prop) evs u w',
            (b -> Forall (fun ev => ev <> EvShardDisconnect) evs) -> Inv b u w' ->
            Inv b (fst (snd (V101.emit_all client n evs (u, w'))))
                  (snd (snd (V101.emit_all client n evs (u, w'))))).
  { intros b evs. induction evs as [|ev evs IH]; intros u w' Hb H;
      cbn [V101.emit_all]; [exact H|].
    unfold bind.
    destruct (emit_run client n ev u w') as (u1 & w1 & E & _).
    pose proof (Hstep b ev u w') as Hs. rewrite E in Hs |- *. cbn [fst snd] in Hs.
    apply IH.
    - intros Hb'. specialize (Hb Hb'). now inversion Hb.
    - apply Hs; [|exact H]. intros Hb'. specialize (Hb Hb'). now inversion Hb. }
  (* the call *)
  unfold V101.ensureConnected, V101.ensureConnected_enter. cbn [fst snd].
  rewrite Hr, Hg. cbn [V101.ensureConnected_resume].
  unfold V101.await_loginPromise. cbn [fst snd settlements set_settlements].
  rewrite lookup_delete_eq.
  set (t := set_settlements _ _).
  rewrite loginAttempt_run. fold script. fold w0. fold n.
  assert (Ht : Inv quiet t w0).
  { left. subst t. cbn. now repeat split. }
  pose proof (Hrun quiet (during_login script) t w0 (fun H => H) Ht) as H1.
  set (s1 := fst (snd (V101.emit_all client n (during_login script) (t, w0)))) in *.
  set (w1 := snd (snd (V101.emit_all client n (during_login script) (t, w0)))) in *.
  assert (Hend : forall r u, Q u /\ (quiet -> ready u = true) ->
            readyListener (V101.settle (attempts s) r (V101.attempt_finally u)) = false
            /\ first_tried client w0 m
                 (V101.settle (attempts s) r (V101.attempt_finally u))
            /\ (forall x, In x (m :: rest) ->
                  accounted x (V101.settle (attempts s) r (V101.attempt_finally u)))
            /\ (quiet ->
                ready (V101.settle (attempts s) r (V101.attempt_finally u)) = true)).
  { intros r u ((Q1 & Q2 & Q3) & Q4).
    unfold first_tried, accounted, V101.settle, V101.attempt_finally in *. cbn.
    now repeat split. }
  destruct (login_result script) as [[]|e]; cbn [fst snd]; [|discriminate].
  destruct (ready s1) eqn:Hr1; cbn [fst snd].
  - intros _. apply Hend.
    destruct H1 as [(A1 & A2 & _)|H1]; [congruence | exact H1].
  - destruct (race script); cbn [fst snd]; try discriminate.
    intros _. apply Hend.
    pose proof (Hstep quiet EvReady s1 w1 (fun _ => ltac:(discriminate)) H1) as H2.
    destruct H2 as [(A1 & A2 & A3 & A4)|H2]; [|exact H2].
    exfalso. destruct H1 as [(B1 & B2 & B3 & B4)|((B1 & _) & _)].
    + revert A1. cbn [V101.emit]. rewrite (on_ready_armed client n s1 w1 B1).
      destruct (flush_start_first_turn n
                  (set_loggingIn false (set_ready true (set_readyListener false s1)))
                  w1 m rest eq_refl B3)
        as (u' & w'' & -> & K1 & K2 & _).
      cbn [fst snd]. rewrite K2. cbn. discriminate.
    + destruct (emit_spent client n EvReady s1 w1 B1) as (u' & E & F).
      rewrite E in A1. cbn [fst snd] in A1. rewrite (proj1 F) in A1. discriminate.
Qed.

End FirstLogin.

Lemma first_login_starts_drain_witness :
  let r := V101.ensureConnected Fake.client
             (set_pendingMessages [Fake.hi; Fake.hi] constructor,
              Fake.world Fake.logs_in [] []) in
  readyListener (fst (snd r)) = false
  /\ In (CallSend "100" ("[mcp-servers] hi" +:+ delay_note) true) (calls (fst (snd r)))
  /\ accounted Fake.hi (fst (snd r))
  /\ ready (fst (snd r)) = true.
Proof.
  cbv zeta.
  destruct (first_login_starts_drain Fake.client
              (set_pendingMessages [Fake.hi; Fake.hi] constructor)
              (Fake.world Fake.logs_in [] []) Fake.hi [Fake.hi]
              eq_refl eq_refl eq_refl eq_refl eq_refl)
    as (H1 & H2 & H3 & H4).
  split; [exact H1|]. split; [exact H2|].
  split; [apply H3; now left | apply H4; constructor].
Defined.

(** ** More on the read path *)

Lemma concat_starts (sep first : string) (rest : list string) (c : Ascii.ascii)
  (tail : string) :
  first = String c tail ->
  exists tail', String.concat sep (first :: rest) = String c tail'.
Proof.
  intros ->. destruct rest as [|x rest]; cbn [String.concat]; [eauto|].
  change (String c tail +:+ sep +:+ String.concat sep (x :: rest))
    with (String c (tail +:+ sep +:+ String.concat sep (x :: rest))).
  eauto.
Qed.

Lemma read_text_sentinel (line : Message.t -> string) (a : ReadMessagesSchema.t)
  (messages : list Message.t) :
  (forall m, exists tail, line m = String letter_I tail) ->
  (read_text line a messages = "No messages found."
   <-> selected a messages = []).
Proof.
  intros Hline. unfold read_text, lines.
  destruct (selected a messages) as [|m l] eqn:E.
  - cbn. tauto.
  - split; [|discriminate]. intros H. exfalso.
    destruct (rev (map line (m :: l))) as [|x xs] eqn:Er.
    { apply (f_equal (@length string)) in Er.
      rewrite length_rev, length_map in Er. discriminate. }
    assert (Hx : exists m', x = line m').
    { assert (Hin : In x (rev (map line (m :: l)))) by (rewrite Er; now left).
      apply in_rev, in_map_iff in Hin. destruct Hin as (m' & <- & _). eauto. }
    destruct Hx as [m' ->]. destruct (Hline m') as [tail Ht].
    destruct (concat_starts nl (line m') xs letter_I tail Ht) as [tail' Hc].
    rewrite Hc in H. cbn in H. discriminate.
Qed.

Lemma line_V101_starts (toISOString : Z -> string) (m : Message.t) :
  exists tail, V101.line toISOString m = String letter_I tail.
Proof. unfold V101.line. eexists. reflexivity. Qed.

Lemma line_V100_starts (toISOString : Z -> string) (m : Message.t) :
  exists tail, V100.line toISOString m = String letter_I tail.
Proof. unfold V100.line. eexists. reflexivity. Qed.

(** X16. A read answers with the text [No messages found.] exactly when
    no message is left after the filters and the cut; otherwise the text
    begins with the line of a message. In both versions. *)
Theorem read_sentinel_iff_nothing_shown {W : Type} (client : Platform W)
  (CONFIG : Config) (toISOString : Z -> string) (args : Arguments_)
  (a : ReadMessagesSchema.t) (s : DiscordMcpServer) (w : W) (channel : Channel)
  (messages : list Message.t) :
  ReadMessagesSchema.parse args = Ok a ->
  ready s = true ->
  findChannel (guilds_cache client w) (ReadMessagesSchema.channel_name a)
    = Some channel ->
  fst (messages_fetch client channel (fetchLimit a) w) = Ok messages ->
  (fst (V101.callTool client CONFIG toISOString
          {| name := "read_recent_messages"; arguments := args |} (s, w))
   = Ok (text_result "No messages found.")
   <-> selected a messages = [])
  /\ (fst (V100.callTool client toISOString
             {| name := "read_recent_messages"; arguments := args |} (s, w))
      = Ok (text_result "No messages found.")
      <-> selected a messages = []).
Proof.
  intros Hp Hr Hc Hf.
  rewrite (read_run_V101 client CONFIG toISOString args a s w channel Hp Hr Hc).
  rewrite (read_run_V100 client toISOString args a s w channel Hp Hr Hc).
  cbn [fst snd]. rewrite Hf.
  pose proof (read_text_sentinel (V101.line toISOString) a messages
                (line_V101_starts toISOString)) as H101.
  pose proof (read_text_sentinel (V100.line toISOString) a messages
                (line_V100_starts toISOString)) as H100.
  split; (split; [intros [= H] | intros H]).
  - now apply H101.
  - do 2 f_equal. unfold text_result. do 2 f_equal. now apply H101.
  - now apply H100.
  - do 2 f_equal. unfold text_result. do 2 f_equal. now apply H100.
Qed.

Lemma read_sentinel_iff_nothing_shown_witness :
  fst (V101.callTool Fake.client Fake.CONFIG Fake.toISOString
         {| name := "read_recent_messages"; arguments := Fake.read_args 10 true |}
         (Fake.online, Fake.world Fake.logs_in [Fake.message 1 [Fake.mine]] []))
  = Ok (text_result "No messages found.").
Proof.
  destruct (read_sentinel_iff_nothing_shown Fake.client Fake.CONFIG
              Fake.toISOString (Fake.read_args 10 true) (Fake.read_parsed 10 true)
              Fake.online (Fake.world Fake.logs_in [Fake.message 1 [Fake.mine]] [])
              Fake.general [Fake.message 1 [Fake.mine]]
              eq_refl eq_refl eq_refl eq_refl) as [[_ H] _].
  apply H. reflexivity.
Defined.

Lemma filter_bool_sublist {A : Type} (f : A -> bool) (l : list A) :
  sublist (List.filter f l) l.
Proof.
  induction l as [|x l IH]; cbn; [constructor|].
  destruct (f x); now constructor.
Qed.

Lemma filter_messages_sublist (a : ReadMessagesSchema.t) (messages : list Message.t) :
  sublist (filter_messages a messages) messages.
Proof.
  unfold filter_messages.
  assert (H1 : sublist
                 match ReadMessagesSchema.reaction_filter a with
                 | Some rf => if truthy rf
                              then List.filter (some_reaction rf) messages
                              else messages
                 | None => messages
                 end messages).
  { destruct (ReadMessagesSchema.reaction_filter a) as [rf|]; [|reflexivity].
    destruct (truthy rf); [apply filter_bool_sublist | reflexivity]. }
  destruct (ReadMessagesSchema.unread_only a); [|exact H1].
  etransitivity; [apply filter_bool_sublist | exact H1].
Qed.

(** X17. What a read shows is taken from what the fetch delivered:
    reversed, it is a sub-sequence of the fetched window (no message is
    made up, repeated or moved), and for a limit that is not negative it
    has at most [limit] messages. In both versions. *)
Theorem read_shows_part_of_window {W : Type} (client : Platform W)
  (CONFIG : Config) (toISOString : Z -> string) (args : Arguments_)
  (a : ReadMessagesSchema.t) (s : DiscordMcpServer) (w : W) (channel : Channel)
  (messages : list Message.t) :
  ReadMessagesSchema.parse args = Ok a ->
  ready s = true ->
  findChannel (guilds_cache client w) (ReadMessagesSchema.channel_name a)
    = Some channel ->
  fst (messages_fetch client channel (fetchLimit a) w) = Ok messages ->
  exists shown : list Message.t,
    fst (V101.callTool client CONFIG toISOString
           {| name := "read_recent_messages"; arguments := args |} (s, w))
    = Ok (text_result
            (or_else (String.concat nl (map (V101.line toISOString) shown))
                     "No messages found."))
    /\ fst (V100.callTool client toISOString
              {| name := "read_recent_messages"; arguments := args |} (s, w))
       = Ok (text_result
               (or_else (String.concat nl (map (V100.line toISOString) shown))
                        "No messages found."))
    /\ sublist (rev shown) messages
    /\ (0 <= ReadMessagesSchema.limit a ->
        Z.of_nat (length shown) <= ReadMessagesSchema.limit a).
Proof.
  intros Hp Hr Hc Hf.
  exists (rev (selected a messages)).
  rewrite (read_run_V101 client CONFIG toISOString args a s w channel Hp Hr Hc).
  rewrite (read_run_V100 client toISOString args a s w channel Hp Hr Hc).
  cbn [fst snd]. rewrite Hf. unfold read_text. rewrite !lines_map.
  split; [reflexivity|]. split; [reflexivity|]. split.
  - rewrite rev_involutive. unfold selected.
    destruct (slice0_take (ReadMessagesSchema.limit a) (filter_messages a messages))
      as [n ->].
    etransitivity; [apply sublist_take | apply filter_messages_sublist].
  - intros Hl. rewrite length_rev. unfold selected.
    rewrite slice0_nonneg by exact Hl. rewrite length_take. lia.
Qed.

Lemma read_shows_part_of_window_witness :
  exists shown : list Message.t,
    fst (V101.callTool Fake.client Fake.CONFIG Fake.toISOString
           {| name := "read_recent_messages"; arguments := Fake.read_args 2 false |}
           (Fake.online, Fake.world Fake.logs_in Fake.three_messages []))
    = Ok (text_result
            (or_else (String.concat nl (map (V101.line Fake.toISOString) shown))
                     "No messages found."))
    /\ sublist (rev shown) (take 2 Fake.three_messages).
Proof.
  destruct (read_shows_part_of_window Fake.client Fake.CONFIG Fake.toISOString
              (Fake.read_args 2 false) (Fake.read_parsed 2 false) Fake.online
              (Fake.world Fake.logs_in Fake.three_messages []) Fake.general
              (take 2 Fake.three_messages) eq_refl eq_refl eq_refl eq_refl)
    as (shown & H101 & _ & Hsub & _).
  exists shown. split; [exact H101 | exact Hsub].
Defined.

Lemma some_reaction_carries (e : string) (m : Message.t) :
  some_reaction e m = true ->
  exists r, In r (Message.reactions_cache m) /\ emoji_name r = Some e.
Proof.
  unfold some_reaction. intros H. apply existsb_exists in H.
  destruct H as (r & Hin & Hr). apply bool_decide_eq_true_1 in Hr. eauto.
Qed.

(** X18. With a [reaction_filter] that is not empty, every message a
    read shows carries a reaction of that very emoji, from whatever
    user. *)
Theorem reaction_filter_keeps_marked {W : Type} (client : Platform W)
  (CONFIG : Config) (toISOString : Z -> string) (args : Arguments_)
  (a : ReadMessagesSchema.t) (s : DiscordMcpServer) (w : W) (channel : Channel)
  (messages : list Message.t) (e : string) :
  ReadMessagesSchema.parse args = Ok a ->
  ReadMessagesSchema.reaction_filter a = Some e ->
  truthy e = true ->
  ready s = true ->
  findChannel (guilds_cache client w) (ReadMessagesSchema.channel_name a)
    = Some channel ->
  fst (messages_fetch client channel (fetchLimit a) w) = Ok messages ->
  exists shown : list Message.t,
    fst (V101.callTool client CONFIG toISOString
           {| name := "read_recent_messages"; arguments := args |} (s, w))
    = Ok (text_result
            (or_else (String.concat nl (map (V101.line toISOString) shown))
                     "No messages found."))
    /\ shown = rev (selected a messages)
    /\ Forall (fun m => exists r, In r (Message.reactions_cache m)
                                  /\ emoji_name r = Some e) shown.
Proof.
  intros Hp He Ht Hr Hc Hf.
  exists (rev (selected a messages)).
  rewrite (read_run_V101 client CONFIG toISOString args a s w channel Hp Hr Hc).
  cbn [fst snd]. rewrite Hf. unfold read_text. rewrite lines_map.
  split; [reflexivity|]. split; [reflexivity|].
  apply List.Forall_rev. unfold selected.
  destruct (slice0_take (ReadMessagesSchema.limit a) (filter_messages a messages))
    as [n ->].
  apply Forall_take. unfold filter_messages. rewrite He, Ht.
  assert (H1 : Forall (fun m => exists r, In r (Message.reactions_cache m)
                                          /\ emoji_name r = Some e)
                      (List.filter (some_reaction e) messages)).
  { apply List.Forall_forall. intros m Hm. apply List.filter_In in Hm.
    now apply some_reaction_carries. }
  destruct (ReadMessagesSchema.unread_only a); [|exact H1].
  now apply Forall_filter_bool.
Qed.

Lemma reaction_filter_keeps_marked_witness :
  fst (V101.callTool Fake.client Fake.CONFIG Fake.toISOString
         {| name := "read_recent_messages";
            arguments := Samples.filter_args Samples.red |}
         (Fake.online, Fake.world Fake.logs_in Samples.window []))
  = Ok (text_result ("ID:3 [READ] [T997] alice: hello" +:+ nl
                     +:+ "ID:1 [NEW] [T999] alice: hello")).
Proof.
  destruct (reaction_filter_keeps_marked Fake.client Fake.CONFIG Fake.toISOString
              (Samples.filter_args Samples.red)
              (Samples.filter_parsed (Some Samples.red)) Fake.online
              (Fake.world Fake.logs_in Samples.window []) Fake.general
              Samples.window Samples.red)
    as (shown & Htext & Hshown & _);
    [vm_compute; reflexivity .. |].
  rewrite Htext, Hshown. vm_compute. reflexivity.
Defined.

(** X19. A [reaction_filter] that is the empty string is no filter: the
    read asks the client for the same number of messages and answers the
    same as when the field is absent. In both versions. *)
Theorem empty_reaction_filter_is_none {W : Type} (client : Platform W)
  (CONFIG : Config) (toISOString : Z -> string) (args args' : Arguments_)
  (a : ReadMessagesSchema.t) (s : DiscordMcpServer) (w : W) (channel : Channel) :
  ReadMessagesSchema.parse args = Ok a ->
  ReadMessagesSchema.reaction_filter a = Some EmptyString ->
  ReadMessagesSchema.parse args'
  = Ok {| ReadMessagesSchema.channel_name := ReadMessagesSchema.channel_name a;
          ReadMessagesSchema.limit := ReadMessagesSchema.limit a;
          ReadMessagesSchema.unread_only := ReadMessagesSchema.unread_only a;
          ReadMessagesSchema.reaction_filter := None |} ->
  ready s = true ->
  findChannel (guilds_cache client w) (ReadMessagesSchema.channel_name a)
    = Some channel ->
  V101.callTool client CONFIG toISOString
    {| name := "read_recent_messages"; arguments := args |} (s, w)
  = V101.callTool client CONFIG toISOString
      {| name := "read_recent_messages"; arguments := args' |} (s, w)
  /\ V100.callTool client toISOString
       {| name := "read_recent_messages"; arguments := args |} (s, w)
     = V100.callTool client toISOString
         {| name := "read_recent_messages"; arguments := args' |} (s, w).
Proof.
  intros Hp He Hp' Hr Hc.
  set (a' := {| ReadMessagesSchema.channel_name := ReadMessagesSchema.channel_name a;
                ReadMessagesSchema.limit := ReadMessagesSchema.limit a;
                ReadMessagesSchema.unread_only := ReadMessagesSchema.unread_only a;
                ReadMessagesSchema.reaction_filter := None |}) in *.
  assert (Hl : fetchLimit a = fetchLimit a').
  { unfold fetchLimit, filtering. now rewrite He. }
  assert (Ht : forall line messages, read_text line a messages
                                     = read_text line a' messages).
  { intros line messages. unfold read_text, lines, selected, filter_messages.
    now rewrite He. }
  rewrite (read_run_V101 client CONFIG toISOString args a s w channel Hp Hr Hc).
  rewrite (read_run_V101 client CONFIG toISOString args' a' s w channel Hp' Hr Hc).
  rewrite (read_run_V100 client toISOString args a s w channel Hp Hr Hc).
  rewrite (read_run_V100 client toISOString args' a' s w channel Hp' Hr Hc).
  rewrite Hl.
  destruct (messages_fetch client channel (fetchLimit a') w) as [[ms|e] w'];
    cbn [fst snd]; [now rewrite !Ht | now split].
Qed.

Lemma empty_reaction_filter_is_none_witness :
  V101.callTool Fake.client Fake.CONFIG Fake.toISOString
    {| name := "read_recent_messages";
       arguments := Samples.filter_args EmptyString |}
    (Fake.online, Fake.world Fake.logs_in Samples.window [])
  = V101.callTool Fake.client Fake.CONFIG Fake.toISOString
      {| name := "read_recent_messages"; arguments := Samples.bare_args |}
      (Fake.online, Fake.world Fake.logs_in Samples.window []).
Proof.
  apply (empty_reaction_filter_is_none Fake.client Fake.CONFIG Fake.toISOString
           (Samples.filter_args EmptyString) Samples.bare_args
           (Samples.filter_parsed (Some EmptyString)) Fake.online
           (Fake.world Fake.logs_in Samples.window []) Fake.general);
    vm_compute; reflexivity.
Defined.

(** X20. A read whose arguments give only a channel asks the client for
    exactly 10 messages (the default limit, below the cap of 50) and shows
    what it gets, unfiltered, in the reverse of the fetched order. In both
    versions the request to the client is the same. *)
Theorem read_with_defaults {W : Type} (client : Platform W)
  (CONFIG : Config) (toISOString : Z -> string) (fields : gmap string Json)
  (c : string) (s : DiscordMcpServer) (w : W) (channel : Channel)
  (messages : list Message.t) :
  fields !! "channel_name" = Some (JStr c) ->
  fields !! "limit" = None ->
  fields !! "unread_only" = None ->
  fields !! "reaction_filter" = None ->
  ready s = true ->
  findChannel (guilds_cache client w) c = Some channel ->
  fst (messages_fetch client channel 10 w) = Ok messages ->
  V101.callTool client CONFIG toISOString
    {| name := "read_recent_messages"; arguments := Some fields |} (s, w)
  = (Ok (text_result
           (or_else (String.concat nl
                       (map (V101.line toISOString) (rev (take 10 messages))))
                    "No messages found.")),
     (log_call (CallFetchMessages (ch_id channel) 10) s,
      snd (messages_fetch client channel 10 w)))
  /\ snd (V100.callTool client toISOString
            {| name := "read_recent_messages"; arguments := Some fields |} (s, w))
     = (log_call (CallFetchMessages (ch_id channel) 10) s,
        snd (messages_fetch client channel 10 w)).
Proof.
  intros Hc Hl Hu Hf Hr Hch Hm.
  assert (Hp : ReadMessagesSchema.parse (Some fields)
               = Ok {| ReadMessagesSchema.channel_name := c;
                       ReadMessagesSchema.limit := 10;
                       ReadMessagesSchema.unread_only := false;
                       ReadMessagesSchema.reaction_filter := None |}).
  { unfold ReadMessagesSchema.parse. now rewrite Hc, Hl, Hu, Hf. }
  rewrite (read_run_V101 client CONFIG toISOString _ _ s w channel Hp Hr Hch).
  rewrite (read_run_V100 client toISOString _ _ s w channel Hp Hr Hch).
  change (fetchLimit _) with 10. rewrite Hm. cbn [fst snd].
  split; [|reflexivity]. unfold read_text. rewrite lines_map. reflexivity.
Qed.

Lemma read_with_defaults_witness :
  calls (fst (snd (V101.callTool Fake.client Fake.CONFIG Fake.toISOString
                     {| name := "read_recent_messages";
                        arguments := Samples.bare_args |}
                     (Fake.online, Fake.world Fake.logs_in Samples.window []))))
  = [CallFetchMessages "100" 10].
Proof.
  destruct (read_with_defaults Fake.client Fake.CONFIG Fake.toISOString
              (list_to_map [("channel_name", JStr "general")]) "general"
              Fake.online (Fake.world Fake.logs_in Samples.window [])
              Fake.general Samples.window) as [H _];
    [vm_compute; reflexivity .. |].
  unfold Samples.bare_args. rewrite H. reflexivity.
Defined.

(** ** Reactions and deletion *)

(** X21. [add_reaction] without an [emoji], or with an empty one, reacts
    with the check mark: the message is fetched, then reacted to with it,
    and the answer names it. In both versions. *)
Theorem add_reaction_default_emoji {W : Type} (client : Platform W)
  (CONFIG : Config) (toISOString : Z -> string) (fields : gmap string Json)
  (c message_id : string) (s : DiscordMcpServer) (w w1 w2 : W)
  (channel : Channel) (message : Message.t) :
  fields !! "channel_name" = Some (JStr c) ->
  fields !! "message_id" = Some (JStr message_id) ->
  fields !! "emoji" = None \/ fields !! "emoji" = Some (JStr EmptyString) ->
  ready s = true ->
  findChannel (guilds_cache client w) c = Some channel ->
  messages_fetch_one client channel message_id w = (Ok message, w1) ->
  message_react client message check_mark w1 = (Ok tt, w2) ->
  let done :=
    (Ok (text_result ("Added " +:+ check_mark +:+ " to message " +:+ message_id)),
     (log_call (CallReact message_id check_mark)
        (log_call (CallFetchMessage (ch_id channel) message_id) s), w2)) in
  V101.callTool client CONFIG toISOString
    {| name := "add_reaction"; arguments := Some fields |} (s, w) = done
  /\ V100.callTool client toISOString
       {| name := "add_reaction"; arguments := Some fields |} (s, w) = done.
Proof.
  intros Hc Hm He Hr Hch Hf Hreact. cbv zeta.
  assert (Hp : exists e, ReactionSchema.parse (Some fields)
                         = Ok {| ReactionSchema.channel_name := c;
                                 ReactionSchema.message_id := message_id;
                                 ReactionSchema.emoji := e |}
                         /\ or_else e check_mark = check_mark).
  { unfold ReactionSchema.parse. rewrite Hc, Hm.
    destruct He as [-> | ->]; cbn; eauto. }
  destruct Hp as (e & Hp & He').
  split.
  - unfold V101.callTool. route. unfold V101.add_reaction. monad_unfold.
    rewrite (ensureConnected_ready client s w Hr), Hp. cbn [fst snd].
    cbn [ReactionSchema.channel_name ReactionSchema.message_id ReactionSchema.emoji].
    rewrite (getChannelByName_found_V101 client _ s w channel Hr Hch).
    cbn [fst snd]. rewrite Hf. cbn [fst snd]. rewrite He', Hreact. reflexivity.
  - unfold V100.callTool. route. unfold V100.add_reaction. monad_unfold.
    rewrite Hp. cbn [fst snd].
    cbn [ReactionSchema.channel_name ReactionSchema.message_id ReactionSchema.emoji].
    rewrite (getChannelByName_found_V100 client _ s w channel Hr Hch).
    cbn [fst snd]. rewrite Hf. cbn [fst snd]. rewrite He', Hreact. reflexivity.
Qed.

Lemma add_reaction_default_emoji_witness :
  calls (fst (snd (V101.callTool Fake.client Fake.CONFIG Fake.toISOString
                     {| name := "add_reaction";
                        arguments := Samples.target_args "2" |}
                     (Fake.online, Fake.world Fake.logs_in Fake.three_messages []))))
  = [CallFetchMessage "100" "2"; CallReact "2" check_mark].
Proof.
  destruct (add_reaction_default_emoji Fake.client Fake.CONFIG Fake.toISOString
              (list_to_map [("channel_name", JStr "general");
                            ("message_id", JStr "2")])
              "general" "2" Fake.online
              (Fake.world Fake.logs_in Fake.three_messages [])
              (Fake.world Fake.logs_in Fake.three_messages [])
              (Fake.world Fake.logs_in Fake.three_messages [])
              Fake.general (Fake.message 2 [Fake.mine])) as [H _];
    [vm_compute; reflexivity | vm_compute; reflexivity
    | left; vm_compute; reflexivity | vm_compute; reflexivity ..|].
  unfold Samples.target_args. rewrite H. reflexivity.
Defined.

(** X22. The 1.0.0 server never connects on demand: while it is not
    ready, each of its five tools, given valid arguments, fails with the
    not-ready error; nothing is asked of the client and the server is left
    as it was. *)
Theorem V100_not_ready {W : Type} (client : Platform W)
  (toISOString : Z -> string) (args : Arguments_)
  (s : DiscordMcpServer) (w : W) :
  ready s = false ->
  let not_ready :=
    (Throw (McpError InternalError "Discord client is not ready yet."), (s, w)) in
  (forall a, ReadMessagesSchema.parse args = Ok a ->
     V100.callTool client toISOString
       {| name := "read_recent_messages"; arguments := args |} (s, w)
     = not_ready)
  /\ (forall a, SendMessageSchema.parse_v100 args = Ok a ->
        V100.callTool client toISOString
          {| name := "send_message"; arguments := args |} (s, w) = not_ready)
  /\ (forall a, ReactionSchema.parse args = Ok a ->
        V100.callTool client toISOString
          {| name := "add_reaction"; arguments := args |} (s, w) = not_ready
        /\ V100.callTool client toISOString
             {| name := "remove_reaction"; arguments := args |} (s, w)
           = not_ready)
  /\ (forall a, DeleteMessageSchema.parse args = Ok a ->
        V100.callTool client toISOString
          {| name := "delete_message"; arguments := args |} (s, w) = not_ready).
Proof.
  intros Hr. cbv zeta.
  assert (Hg : forall n, V100.getChannelByName client n (s, w)
                         = (Throw (McpError InternalError
                                     "Discord client is not ready yet."), (s, w))).
  { intros n. unfold V100.getChannelByName. cbn [fst snd]. now rewrite Hr. }
  split; [|split; [|split]]; intros a Hp; [|  | split |];
    unfold V100.callTool; route;
    [unfold V100.read_recent_messages | unfold V100.send_message
    | unfold V100.add_reaction | unfold V100.remove_reaction
    | unfold V100.delete_message];
    monad_unfold; rewrite Hp; cbn [fst snd]; now rewrite Hg.
Qed.

Lemma V100_not_ready_witness :
  V100.callTool Fake.client Fake.toISOString
    {| name := "delete_message"; arguments := Samples.target_args "1" |}
    (constructor, Fake.world Fake.logs_in Fake.three_messages [])
  = (Throw (McpError InternalError "Discord client is not ready yet."),
     (constructor, Fake.world Fake.logs_in Fake.three_messages [])).
Proof.
  destruct (V100_not_ready Fake.client Fake.toISOString
              (Samples.target_args "1") constructor
              (Fake.world Fake.logs_in Fake.three_messages []) eq_refl)
    as (_ & _ & _ & H).
  apply (H (Samples.delete_parsed "1")). vm_compute. reflexivity.
Defined.

(** X23. In 1.0.0, [remove_reaction] on a fetched message that carries
    the emoji removes the bot's user from the first reaction of that emoji
    in the cache, once, and says so. *)
Theorem remove_reaction_removes_first {W : Type} (client : Platform W)
  (toISOString : Z -> string) (args : Arguments_) (a : ReactionSchema.t)
  (s : DiscordMcpServer) (w w1 w2 : W) (channel : Channel) (message : Message.t)
  (before after : list MessageReaction) (r : MessageReaction) :
  ReactionSchema.parse args = Ok a ->
  ready s = true ->
  findChannel (guilds_cache client w) (ReactionSchema.channel_name a)
    = Some channel ->
  messages_fetch_one client channel (ReactionSchema.message_id a) w
    = (Ok message, w1) ->
  Message.reactions_cache message = before ++ r :: after ->
  (forall x, In x before ->
             emoji_name x <> Some (or_else (ReactionSchema.emoji a) check_mark)) ->
  emoji_name r = Some (or_else (ReactionSchema.emoji a) check_mark) ->
  reaction_users_remove client message r w1 = (Ok tt, w2) ->
  V100.callTool client toISOString
    {| name := "remove_reaction"; arguments := args |} (s, w)
  = (Ok (text_result ("Removed " +:+ or_else (ReactionSchema.emoji a) check_mark
                      +:+ " from message " +:+ ReactionSchema.message_id a)),
     (log_call (CallRemoveReaction (ReactionSchema.message_id a) (emoji_name r))
        (log_call (CallFetchMessage (ch_id channel) (ReactionSchema.message_id a)) s),
      w2)).
Proof.
  intros Hp Hr Hc Hf Hcache Hb He Hrm.
  unfold V100.callTool. route. unfold V100.remove_reaction. monad_unfold.
  rewrite Hp. cbn [fst snd].
  rewrite (getChannelByName_found_V100 client _ s w channel Hr Hc). cbn [fst snd].
  rewrite Hf. cbn [fst snd]. rewrite Hcache.
  rewrite (find_skip
             (fun r0 => bool_decide
                          (emoji_name r0
                           = Some (or_else (ReactionSchema.emoji a) check_mark)))
             before after r).
  - cbn [fst snd]. rewrite Hrm. reflexivity.
  - intros x Hx. apply bool_decide_eq_false_2. now apply Hb.
  - now apply bool_decide_eq_true_2.
Qed.

Lemma remove_reaction_removes_first_witness :
  V100.callTool Fake.client Fake.toISOString
    {| name := "remove_reaction"; arguments := Samples.target_args "3" |}
    (Fake.online, Fake.world Fake.logs_in Samples.window [])
  = (Ok (text_result ("Removed " +:+ check_mark +:+ " from message 3")),
     (log_call (CallRemoveReaction "3" (Some check_mark))
        (log_call (CallFetchMessage "100" "3") Fake.online),
      Fake.world Fake.logs_in Samples.window [])).
Proof.
  apply (remove_reaction_removes_first Fake.client Fake.toISOString
           (Samples.target_args "3") (Samples.target_parsed "3") Fake.online
           (Fake.world Fake.logs_in Samples.window [])
           (Fake.world Fake.logs_in Samples.window [])
           (Fake.world Fake.logs_in Samples.window [])
           Fake.general (Fake.message 3 [Samples.flagged; Fake.mine])
           [Samples.flagged] [] Fake.mine);
    try (vm_compute; reflexivity).
  intros x [<-|[]]. vm_compute. discriminate.
Defined.

(** X24. In 1.0.0, [delete_message] deletes only a message it has
    fetched: when the fetch fails its error goes to the caller and no
    deletion is asked for; when it succeeds the deletion follows, once. *)
Theorem delete_only_after_fetch {W : Type} (client : Platform W)
  (toISOString : Z -> string) (args : Arguments_) (a : DeleteMessageSchema.t)
  (s : DiscordMcpServer) (w : W) (channel : Channel) :
  DeleteMessageSchema.parse args = Ok a ->
  ready s = true ->
  findChannel (guilds_cache client w) (DeleteMessageSchema.channel_name a)
    = Some channel ->
  let message_id := DeleteMessageSchema.message_id a in
  let fetched := log_call (CallFetchMessage (ch_id channel) message_id) s in
  let r := V100.callTool client toISOString
             {| name := "delete_message"; arguments := args |} (s, w) in
  (forall e w1,
     messages_fetch_one client channel message_id w = (Throw e, w1) ->
     r = (fst (@rethrow W CallToolResult e (fetched, w1)), (fetched, w1)))
  /\ (forall message w1 w2,
        messages_fetch_one client channel message_id w = (Ok message, w1) ->
        message_delete client message w1 = (Ok tt, w2) ->
        r = (Ok (text_result ("Deleted message " +:+ message_id)),
             (log_call (CallDelete message_id) fetched, w2))).
Proof.
  intros Hp Hr Hc. cbv zeta.
  unfold V100.callTool. route. unfold V100.delete_message. monad_unfold.
  rewrite Hp. cbn [fst snd].
  rewrite (getChannelByName_found_V100 client _ s w channel Hr Hc). cbn [fst snd].
  split.
  - intros e w1 Hf. rewrite Hf. cbn [fst snd]. now destruct e.
  - intros message w1 w2 Hf Hd. rewrite Hf. cbn [fst snd]. now rewrite Hd.
Qed.

Lemma delete_only_after_fetch_witness :
  V100.callTool Fake.client Fake.toISOString
    {| name := "delete_message"; arguments := Samples.target_args "9" |}
    (Fake.online, Fake.world Fake.logs_in Samples.window [])
  = (Throw (PlainError "Unknown Message"),
     (log_call (CallFetchMessage "100" "9") Fake.online,
      Fake.world Fake.logs_in Samples.window [])).
Proof.
  destruct (delete_only_after_fetch Fake.client Fake.toISOString
              (Samples.target_args "9") (Samples.delete_parsed "9") Fake.online
              (Fake.world Fake.logs_in Samples.window []) Fake.general)
    as [H _]; [vm_compute; reflexivity .. |].
  apply (H (PlainError "Unknown Message")
           (Fake.world Fake.logs_in Samples.window [])).
  vm_compute. reflexivity.
Defined.

(** ** Channel lookup, again *)

Lemma find_split {A : Type} (f : A -> bool) (l : list A) (x : A) :
  List.find f l = Some x ->
  exists before after,
    l = before ++ x :: after /\ f x = true
    /\ forall y, In y before -> f y = false.
Proof.
  induction l as [|y l IH]; cbn; [discriminate|].
  destruct (f y) eqn:E.
  - intros [= <-]. exists [], l. repeat split; auto. intros z [].
  - intros H. destruct (IH H) as (before & after & -> & Hx & Hb).
    exists (y :: before), after. repeat split; auto.
    intros z [<-|Hz]; auto.
Qed.

Lemma findChannel_first (guilds : list Guild) (n : string) (c : Channel) :
  findChannel guilds n = Some c ->
  exists before after,
    concat (map channels_cache guilds) = before ++ c :: after
    /\ forall x, In x before -> ~ (ch_name x = n /\ ch_isTextBased x = true).
Proof.
  induction guilds as [|g guilds IH]; cbn [findChannel]; [discriminate|].
  destruct (List.find _ (channels_cache g)) as [c'|] eqn:E.
  - intros [= ->]. destruct (find_split _ _ _ E) as (before & after & Hl & _ & Hb).
    exists before, (after ++ concat (map channels_cache guilds)).
    cbn [map concat]. rewrite Hl, <- app_assoc. split; [reflexivity|].
    intros x Hx [Hn Ht]. specialize (Hb x Hx). cbn beta in Hb.
    rewrite Ht, bool_decide_eq_true_2 in Hb; [discriminate | exact Hn].
  - intros H. destruct (IH H) as (before & after & Hl & Hb).
    exists (channels_cache g ++ before), after.
    cbn [map concat]. rewrite Hl, <- app_assoc. split; [reflexivity|].
    intros x Hx. apply in_app_or in Hx. destruct Hx as [Hx|Hx]; [|now apply Hb].
    now apply (find_channel_none x n (channels_cache g)).
Qed.

(** X25. On a ready session, whenever some joined guild has a
    text-capable channel of the requested name, [getChannelByName] succeeds
    and returns the first such channel in the order of the guilds and,
    within a guild, of its channels; channels of that name that are not
    text-capable are passed over. In both versions. *)
Theorem getChannelByName_first_match {W : Type} (client : Platform W)
  (n : string) (s : DiscordMcpServer) (w : W) :
  ready s = true ->
  text_channel_named n (guilds_cache client w) ->
  exists c before after,
    V101.getChannelByName client n (s, w) = (Ok c, (s, w))
    /\ V100.getChannelByName client n (s, w) = (Ok c, (s, w))
    /\ ch_name c = n /\ ch_isTextBased c = true
    /\ concat (map channels_cache (guilds_cache client w)) = before ++ c :: after
    /\ forall x, In x before -> ~ (ch_name x = n /\ ch_isTextBased x = true).
Proof.
  intros Hr Hex.
  destruct (findChannel (guilds_cache client w) n) as [c|] eqn:E.
  - destruct (findChannel_some _ _ _ E) as (Hn & Ht & _).
    destruct (findChannel_first _ _ _ E) as (before & after & Hl & Hb).
    exists c, before, after.
    rewrite (getChannelByName_found_V101 client n s w c Hr E).
    rewrite (getChannelByName_found_V100 client n s w c Hr E).
    now repeat split.
  - exfalso. destruct Hex as (g & c & Hg & Hc & Hn & Ht).
    revert E. induction (guilds_cache client w) as [|g' gs IH];
      [destruct Hg|]. cbn [findChannel].
    destruct (List.find _ (channels_cache g')) eqn:Ef; [discriminate|].
    destruct Hg as [->|Hg]; [|now apply IH].
    intros _. exact (find_channel_none c n (channels_cache g) Ef Hc (conj Hn Ht)).
Qed.

Lemma getChannelByName_first_match_witness :
  exists c,
    V101.getChannelByName Fake.client "general"
      (Fake.online, Fake.world Fake.logs_in [] [])
    = (Ok c, (Fake.online, Fake.world Fake.logs_in [] []))
    /\ ch_isTextBased c = true.
Proof.
  destruct (getChannelByName_first_match Fake.client "general" Fake.online
              (Fake.world Fake.logs_in [] []) eq_refl)
    as (c & _ & _ & H & _ & _ & Ht & _).
  - exists Fake.home, Fake.general. cbn. repeat split; auto.
  - exists c. split; [exact H | exact Ht].
Defined.

(** ** The later turns of the drain *)

Section Turns.
Context {W : Type} (client : Platform W).

Lemma drain_next_measure (rest : list PendingMessage.t) (st st' : DiscordMcpServer * W)
  (d : option Drain) :
  V101.drain_next client rest st = (Ok d, st') ->
  drain_measure d = (2 * length rest)%nat.
Proof.
  destruct rest as [|msg rest]; cbn [V101.drain_next].
  - intros [= <- _]. reflexivity.
  - intros [= <- _]. cbn. lia.
Qed.

(** Every turn brings the drain nearer to its end. *)
Lemma drain_resume_measure (d : Drain) (st st' : DiscordMcpServer * W)
  (d' : option Drain) :
  V101.drain_resume client d st = (Ok d', st') ->
  (drain_measure d' < drain_measure (Some d))%nat.
Proof.
  destruct d as [msg [channel|e] rest | msg [[]|e] rest]; cbn [V101.drain_resume].
  - destruct (V101.send client channel _ st) as [reply st1].
    intros [= <- _]. cbn. lia.
  - unfold bind, update.
    destruct (V101.drain_next client rest _) as [[d1|e1] st1] eqn:E;
      [|discriminate].
    intros [= <- _]. rewrite (drain_next_measure _ _ _ _ E). cbn. lia.
  - intros E. rewrite (drain_next_measure _ _ _ _ E). cbn. lia.
  - unfold bind, update.
    destruct (V101.drain_next client rest _) as [[d1|e1] st1] eqn:E;
      [|discriminate].
    intros [= <- _]. rewrite (drain_next_measure _ _ _ _ E). cbn. lia.
Qed.

(** With enough turns to come to its end, how many more does not
    matter. *)
Lemma drain_finish_fuel (n n' : nat) (d : option Drain) (st : DiscordMcpServer * W) :
  (drain_measure d <= n)%nat -> (drain_measure d <= n')%nat ->
  V101.drain_finish client n d st = V101.drain_finish client n' d st.
Proof.
  revert n' d st. induction n as [|n IH]; intros n' d st Hn Hn'.
  - destruct d as [[]|]; cbn in Hn; try lia. now destruct n'.
  - destruct d as [d|]; [|now destruct n'].
    destruct n' as [|n']; [destruct d; cbn in Hn'; lia|].
    rewrite !drain_finish_step. destruct st as [s w].
    destruct (drain_resume_run client d s w) as (d1 & s1 & w1 & E & _).
    rewrite E. pose proof (drain_resume_measure _ _ _ _ E) as Hm.
    apply IH; lia.
Qed.

(** A chain of continuations followed by the rest of the turns is the
    drain followed from the start. *)
Lemma chain_then_finish (k n : nat) (d : option Drain) (st : DiscordMcpServer * W) :
  (drain_measure d <= n)%nat ->
  (let* suspended := V101.drain_chain client k d in
   V101.drain_finish client n suspended) st
  = V101.drain_finish client n d st.
Proof.
  revert n d st. induction k as [|k IH]; intros n d st Hn.
  { unfold bind. now destruct d as [[]|]. }
  destruct d as [[msg looked rest|msg reply rest]|]; cbn [V101.drain_chain];
    try reflexivity.
  destruct n as [|n]; [cbn in Hn; lia|].
  rewrite drain_finish_step. unfold bind at 1. unfold bind at 1.
  destruct st as [s w].
  destruct (drain_resume_run client (AwaitChannel msg looked rest) s w)
    as (d1 & s1 & w1 & E & _).
  rewrite E. pose proof (drain_resume_measure _ _ _ _ E) as Hm.
  fold (bind (V101.drain_chain client k d1)
             (fun suspended => V101.drain_finish client (S n) suspended) (s1, w1)).
  rewrite IH by lia. apply drain_finish_fuel; lia.
Qed.

Lemma set_background_same (u : DiscordMcpServer) :
  set_background (background u) u = u.
Proof. now destruct u. Qed.

Lemma drain_turns_idle (n : nat) (u : DiscordMcpServer) (w : W) :
  background u = [] -> V101.drain_turns client n (u, w) = (Ok tt, (u, w)).
Proof.
  intros H. induction n as [|n IH]; [reflexivity|].
  cbn [V101.drain_turns]. unfold bind at 1.
  unfold V101.drain_turn. unfold bind at 1, this. cbn [fst snd]. now rewrite H.
Qed.

Lemma park_none (u : DiscordMcpServer) :
  background u = [] -> V101.park None u = u.
Proof. intros H. destruct u. cbn in H. subst. reflexivity. Qed.

(** A turn of the only drain that is parked. *)
Lemma drain_turn_parked (d : Drain) (u : DiscordMcpServer) (w : W) :
  background u = [] ->
  exists d' u' w',
    V101.drain_resume client d (u, w) = (Ok d', (u', w'))
    /\ V101.drain_turn client (V101.park (Some d) u, w)
       = (Ok tt, (V101.park d' u', w'))
    /\ background u' = [].
Proof.
  intros Hb.
  destruct (drain_resume_run client d u w) as (d1 & u1 & w1 & E & _ & Hb1 & _).
  exists d1, u1, w1. split; [exact E|]. rewrite Hb in Hb1. split; [|exact Hb1].
  assert (Hu : set_background [] (set_background [d] u) = u).
  { destruct u. cbn in Hb. subst. reflexivity. }
  unfold V101.drain_turn, V101.park, bind, this, update.
  cbn [fst snd background set_background]. rewrite Hb.
  change ([] ++ option_list (Some d)) with [d]. cbn [fst snd].
  rewrite Hu, E. cbn [fst snd]. now rewrite Hb1, app_nil_r.
Qed.

(** The turns of a parked drain, when it is the only one and nothing
    else runs, are the drain resumed again and again. *)
Lemma turns_finish (n : nat) (d : option Drain) (u : DiscordMcpServer) (w : W) :
  background u = [] ->
  (drain_measure d <= n)%nat ->
  V101.drain_turns client n (V101.park d u, w) = V101.drain_finish client n d (u, w).
Proof.
  revert d u w. induction n as [|n IH]; intros d u w Hb Hn.
  - destruct d as [[]|]; cbn in Hn; try lia. now rewrite park_none.
  - destruct d as [d|].
    2:{ rewrite park_none by exact Hb. now rewrite drain_turns_idle. }
    rewrite drain_finish_step. cbn [V101.drain_turns]. unfold bind at 1.
    destruct (drain_turn_parked d u w Hb) as (d1 & u1 & w1 & E & -> & Hb1).
    rewrite E. pose proof (drain_resume_measure _ _ _ _ E) as Hm.
    apply IH; [exact Hb1 | lia].
Qed.

Lemma flushPendingMessages_run (s : DiscordMcpServer) (w : W) :
  V101.flushPendingMessages client (s, w)
  = match pendingMessages s with
    | [] => (Ok tt, (s, w))
    | msg :: rest =>
        V101.flush_loop client (msg :: rest) (set_pendingMessages [] s, w)
    end.
Proof.
  unfold V101.flushPendingMessages, bind, this, update, ret. cbn [fst snd].
  now destruct (pendingMessages s).
Qed.

Lemma flush_start_eq (ticks : nat) (s : DiscordMcpServer) (w : W) :
  V101.flushPendingMessages_start client ticks (s, w)
  = match pendingMessages s with
    | [] => (Ok tt, (s, w))
    | msg :: rest =>
        match V101.drain_next client (msg :: rest) (set_pendingMessages [] s, w) with
        | (Ok d0, st0) =>
            match V101.drain_chain client (S ticks) d0 st0 with
            | (Ok d1, st1) => (Ok tt, (V101.park d1 (fst st1), snd st1))
            | (Throw e, st1) => (Throw e, st1)
            end
        | (Throw e, st0) => (Throw e, st0)
        end
    end.
Proof.
  unfold V101.flushPendingMessages_start. unfold bind at 1, this. cbn [fst snd].
  destruct (pendingMessages s) as [|msg rest]; cbn [length Nat.eqb]; [reflexivity|].
  unfold bind, update. cbn [fst snd V101.drain_next].
  destruct (V101.drain_chain client (S ticks) _ _) as [[d1|e] st1]; reflexivity.
Qed.

Lemma drain_chain_measure (k : nat) (d d' : option Drain)
  (st st' : DiscordMcpServer * W) :
  V101.drain_chain client k d st = (Ok d', st') ->
  (drain_measure d' <= drain_measure d)%nat.
Proof.
  revert d st. induction k as [|k IH]; intros d st E.
  { assert (d' = d) by (destruct d as [[]|]; now injection E). subst. lia. }
  destruct d as [[m looked r|m reply r]|]; cbn [V101.drain_chain] in E;
    try (injection E as <-; lia).
  unfold bind in E. destruct st as [u w].
  destruct (drain_resume_run client (AwaitChannel m looked r) u w)
    as (d2 & u2 & w2 & E2 & _).
  rewrite E2 in E. pose proof (drain_resume_measure _ _ _ _ E2) as Hm.
  specialize (IH _ _ E). lia.
Qed.

(** X29. The drain that the [ready] listener starts, followed through
    its turns to its end with nothing else running in between, is one
    drain cycle: the same sends to the client, in the same order, and the
    same messages put back, as when the loop is awaited (the cycle of
    C3). How many continuations ran at the start makes no difference. *)
Theorem started_drain_runs_the_cycle (ticks n : nat)
  (s : DiscordMcpServer) (w : W) :
  background s = [] ->
  (2 * length (pendingMessages s) <= n)%nat ->
  (run V101.flushPendingMessages_start client ticks in
   V101.drain_turns client n) (s, w)
  = V101.flushPendingMessages client (s, w).
Proof.
  intros Hb Hn. unfold bind at 1.
  rewrite flush_start_eq, flushPendingMessages_run.
  destruct (pendingMessages s) as [|msg rest] eqn:Hq.
  { now rewrite drain_turns_idle. }
  set (u0 := set_pendingMessages [] s).
  destruct (drain_next_run client (msg :: rest) (u0, w)) as (d0 & E0 & _).
  rewrite <- (drain_uninterrupted client (msg :: rest) n (u0, w) d0 Hn E0).
  pose proof (drain_next_measure _ _ _ _ E0) as Hm0.
  rewrite <- (chain_then_finish (S ticks) n d0 (u0, w)) by lia.
  rewrite E0. unfold bind.
  destruct (drain_chain_run client (S ticks) d0 u0 w)
    as (d1 & u1 & w1 & E1 & _ & Hb1).
  rewrite E1. cbn [fst snd].
  pose proof (drain_chain_measure _ _ _ _ _ E1) as Hm1.
  apply turns_finish; [|lia].
  rewrite Hb1. subst u0. exact Hb.
Qed.

End Turns.

Lemma started_drain_runs_the_cycle_witness :
  let s := set_pendingMessages
             [ {| PendingMessage.channel_name := "nowhere";
                  PendingMessage.content := "a" |};
               {| PendingMessage.channel_name := "general";
                  PendingMessage.content := "b" |};
               {| PendingMessage.channel_name := "inbox";
                  PendingMessage.content := "c" |} ] Fake.online in
  let r := (run V101.flushPendingMessages_start Fake.client 0 in
            V101.drain_turns Fake.client 6)
             (s, Fake.world Fake.logs_in [] ["101"]) in
  pendingMessages (fst (snd r))
  = [ {| PendingMessage.channel_name := "nowhere";
         PendingMessage.content := "a" |};
      {| PendingMessage.channel_name := "inbox";
         PendingMessage.content := "c" |} ]
  /\ Fake.outbox (snd (snd r)) = [("100", "b" +:+ delay_note)].
Proof.
  cbv zeta.
  rewrite (started_drain_runs_the_cycle Fake.client 0 6); [|reflexivity|cbn; lia].
  split; vm_compute; reflexivity.
Defined.

(** ** Sending, again *)

Lemma send_message_failed {W : Type} (client : Platform W) (CONFIG : Config)
  (toISOString : Z -> string) (args : Arguments_) (a : SendMessageSchema.t)
  (st : DiscordMcpServer * W) (e : JsError) :
  SendMessageSchema.parse args = Ok a ->
  readyListener (fst st) = false ->
  fst (V101.send_now client CONFIG a st) = Throw e ->
  let r := V101.callTool client CONFIG toISOString
             {| name := "send_message"; arguments := args |} st in
  fst r = Ok (text_result (V101.queue_notice e))
  /\ readyListener (fst (snd r)) = false
  /\ pendingMessages (fst (snd r))
     = pendingMessages (fst st) ++ [V101.queued CONFIG a]
  /\ background (fst (snd r)) = background (fst st).
Proof.
  intros Hp Hl Hf. cbv zeta.
  rewrite (send_message_run client CONFIG toISOString args a st Hp).
  destruct st as [s w]. cbn [fst] in Hl.
  destruct (send_now_spent client CONFIG a s w Hl) as (H1 & H2 & H3).
  destruct (V101.send_now client CONFIG a (s, w)) as [[r|e'] [s1 w1]];
    cbn [fst snd] in *; [discriminate|].
  injection Hf as ->. split; [reflexivity|].
  unfold push. cbn. rewrite H2. now repeat split.
Qed.

(** X26. Where no drain can start any more (the [ready] listener has
    gone) and none is under way, sends that fail are kept in the order
    they were made, and nothing is merged: after two [send_message]
    requests whose attempts both fail, the queue is what it was before,
    then the message of the first, then the message of the second, also
    when the two are the same. *)
Theorem failed_sends_queue_in_order {W : Type} (client : Platform W)
  (CONFIG : Config) (toISOString : Z -> string) (args1 args2 : Arguments_)
  (a1 a2 : SendMessageSchema.t) (st : DiscordMcpServer * W) (e1 e2 : JsError) :
  SendMessageSchema.parse args1 = Ok a1 ->
  SendMessageSchema.parse args2 = Ok a2 ->
  readyListener (fst st) = false ->
  background (fst st) = [] ->
  let r1 := V101.callTool client CONFIG toISOString
              {| name := "send_message"; arguments := args1 |} st in
  let r2 := V101.callTool client CONFIG toISOString
              {| name := "send_message"; arguments := args2 |} (snd r1) in
  fst (V101.send_now client CONFIG a1 st) = Throw e1 ->
  fst (V101.send_now client CONFIG a2 (snd r1)) = Throw e2 ->
  fst r1 = Ok (text_result (V101.queue_notice e1))
  /\ fst r2 = Ok (text_result (V101.queue_notice e2))
  /\ pendingMessages (fst (snd r2))
     = pendingMessages (fst st) ++ [V101.queued CONFIG a1; V101.queued CONFIG a2]
  /\ background (fst (snd r2)) = [].
Proof.
  intros Hp1 Hp2 Hl Hb. cbv zeta. intros H1 H2.
  destruct (send_message_failed client CONFIG toISOString args1 a1 st e1 Hp1 Hl H1)
    as (Hr1 & Hl1 & Hq1 & Hb1).
  destruct (send_message_failed client CONFIG toISOString args2 a2 _ e2 Hp2 Hl1 H2)
    as (Hr2 & Hl2 & Hq2 & Hb2).
  split; [exact Hr1|]. split; [exact Hr2|]. split.
  - rewrite Hq2, Hq1, <- app_assoc. reflexivity.
  - now rewrite Hb2, Hb1.
Qed.

Lemma failed_sends_queue_in_order_witness :
  let st := (Fake.online, Fake.world Fake.logs_in [] ["100"]) in
  let r1 := V101.callTool Fake.client Fake.CONFIG Fake.toISOString
              {| name := "send_message"; arguments := Fake.send_args |} st in
  let r2 := V101.callTool Fake.client Fake.CONFIG Fake.toISOString
              {| name := "send_message"; arguments := Fake.send_args |} (snd r1) in
  pendingMessages (fst (snd r2)) = [Fake.hi; Fake.hi].
Proof.
  cbv zeta.
  destruct (failed_sends_queue_in_order Fake.client Fake.CONFIG Fake.toISOString
              Fake.send_args Fake.send_args Fake.send_parsed Fake.send_parsed
              (Fake.online, Fake.world Fake.logs_in [] ["100"])
              (PlainError "Missing Access") (PlainError "Missing Access")
              eq_refl eq_refl eq_refl eq_refl) as (_ & _ & H & _);
    [vm_compute; reflexivity .. |].
  rewrite H. reflexivity.
Defined.

(** X27. On a ready session, [send_message] to a channel that exists and
    accepts the message sends it there once, with the project prefix, and
    reports it; no login is attempted and nothing is queued. *)
Theorem send_message_delivers {W : Type} (client : Platform W)
  (CONFIG : Config) (toISOString : Z -> string) (args : Arguments_)
  (a : SendMessageSchema.t) (s : DiscordMcpServer) (w w1 : W) (channel : Channel) :
  SendMessageSchema.parse args = Ok a ->
  ready s = true ->
  findChannel (guilds_cache client w) (SendMessageSchema.channel_name a)
    = Some channel ->
  channel_send client channel (V101.messageContent CONFIG a) w = (Ok tt, w1) ->
  V101.callTool client CONFIG toISOString
    {| name := "send_message"; arguments := args |} (s, w)
  = (Ok (text_result ("✅ Message sent to #" +:+ SendMessageSchema.channel_name a)),
     (log_call (CallSend (ch_id channel) (V101.messageContent CONFIG a) true) s,
      w1)).
Proof.
  intros Hp Hr Hc Hs.
  rewrite (send_message_run client CONFIG toISOString args a (s, w) Hp).
  unfold V101.send_now. monad_unfold.
  rewrite (ensureConnected_ready client s w Hr). cbn [fst snd].
  rewrite (getChannelByName_found_V101 client _ s w channel Hr Hc). cbn [fst snd].
  unfold V101.send, ask. cbn [fst snd]. rewrite Hs. reflexivity.
Qed.

Lemma send_message_delivers_witness :
  V101.callTool Fake.client Fake.CONFIG Fake.toISOString
    {| name := "send_message"; arguments := Fake.send_args |}
    (Fake.online, Fake.world Fake.logs_in [] [])
  = (Ok (text_result "✅ Message sent to #general"),
     (log_call (CallSend "100" "[mcp-servers] hi" true) Fake.online,
      Fake.deliver_to Fake.general "[mcp-servers] hi"
        (Fake.world Fake.logs_in [] []))).
Proof.
  apply (send_message_delivers Fake.client Fake.CONFIG Fake.toISOString
           Fake.send_args Fake.send_parsed Fake.online
           (Fake.world Fake.logs_in [] []) _ Fake.general);
    vm_compute; reflexivity.
Defined.

(** ** What 1.0.0 leaves alone *)

Lemma only_asks_refl (s : DiscordMcpServer) : only_asks 0 s s.
Proof.
  unfold only_asks. repeat split. exists []. rewrite app_nil_r.
  repeat split; auto.
Qed.

Lemma only_asks_trans (n k : nat) (s1 s2 s3 : DiscordMcpServer) :
  only_asks n s1 s2 -> only_asks k s2 s3 -> only_asks (n + k) s1 s3.
Proof.
  intros (A1 & A2 & A3 & A4 & A5 & l1 & Al & An & Ai)
         (B1 & B2 & B3 & B4 & B5 & l2 & Bl & Bn & Bi).
  unfold only_asks. rewrite B1, B2, B3, B4, B5. repeat split; auto.
  exists (l1 ++ l2). rewrite Bl, Al, app_assoc, length_app.
  repeat split; [lia|]. intros H. apply in_app_or in H. tauto.
Qed.

Lemma only_asks_le (n k : nat) (s s' : DiscordMcpServer) :
  (n <= k)%nat -> only_asks n s s' -> only_asks k s s'.
Proof.
  intros Hnk (A1 & A2 & A3 & A4 & A5 & l & Al & An & Ai).
  unfold only_asks. repeat split; auto. exists l. repeat split; auto. lia.
Qed.

Section Asks.
Context {W : Type} (client : Platform W).

Lemma asks_of_result {A : Type} (r : result A) : @asks W A 0 (of_result r).
Proof. intros st. apply only_asks_refl. Qed.

Lemma asks_ret {A : Type} (a : A) : @asks W A 0 (ret a).
Proof. intros st. apply only_asks_refl. Qed.

Lemma asks_throw {A : Type} (e : JsError) : @asks W A 0 (throw e).
Proof. intros st. apply only_asks_refl. Qed.

Lemma asks_rethrow {A : Type} (e : JsError) : @asks W A 0 (rethrow e).
Proof. intros st. destruct e; apply only_asks_refl. Qed.

Lemma asks_bind {A B : Type} (n k : nat) (m : @M W A) (f : A -> @M W B) :
  asks n m -> (forall a, asks k (f a)) -> asks (n + k) (bind m f).
Proof.
  intros Hm Hf st. unfold bind. specialize (Hm st).
  destruct (m st) as [[a|e] st1]; cbn [fst snd] in *.
  - eapply only_asks_trans; [exact Hm | apply Hf].
  - eapply only_asks_le; [|exact Hm]. lia.
Qed.

Lemma asks_try_catch {A : Type} (n k : nat) (m : @M W A) (h : JsError -> @M W A) :
  asks n m -> (forall e, asks k (h e)) -> asks (n + k) (try_catch m h).
Proof.
  intros Hm Hh st. unfold try_catch. specialize (Hm st).
  destruct (m st) as [[a|e] st1]; cbn [fst snd] in *.
  - eapply only_asks_le; [|exact Hm]. lia.
  - eapply only_asks_trans; [exact Hm | apply Hh].
Qed.

Lemma asks_ask {A : Type} (q : W -> result A * W) (c : result A -> Call) :
  (forall r, c r <> CallLogin) -> asks 1 (ask q c).
Proof.
  intros Hc st. unfold ask. destruct (q (snd st)) as [r w']. cbn [fst snd].
  unfold only_asks. cbn. repeat split. exists [c r]. repeat split; auto.
  intros [H|[]]. exact (Hc r H).
Qed.

Lemma asks_getChannelByName (n : string) : asks 0 (V100.getChannelByName client n).
Proof.
  intros st. unfold V100.getChannelByName.
  destruct (negb (ready (fst st))); [apply only_asks_refl|].
  destruct (findChannel _ _); apply only_asks_refl.
Qed.

Lemma asks_weaken {A : Type} (n k : nat) (m : @M W A) :
  (n <= k)%nat -> asks n m -> asks k m.
Proof. intros Hnk Hm st. eapply only_asks_le; [exact Hnk | apply Hm]. Qed.

(** X28. Whatever the request, the 1.0.0 dispatcher leaves the session
    as it is and asks the client at most two things, never a login:
    connecting is not its business, and it has no queue to fill. *)
Theorem V100_leaves_session_alone (toISOString : Z -> string)
  (request : CallToolRequest) (st : DiscordMcpServer * W) :
  only_asks 2 (fst st) (fst (snd (V100.callTool client toISOString request st))).
Proof.
  revert st. change (asks 2 (V100.callTool client toISOString request)).
  unfold V100.callTool.
  apply (asks_try_catch 2 0); [|intros e; apply asks_rethrow].
  repeat (case_decide;
          [first
             [ apply (asks_bind 0 2); [apply asks_of_result|]; intros a;
               apply (asks_bind 0 2); [apply asks_getChannelByName|];
               intros channel;
               first
                 [ apply (asks_bind 1 1);
                   [apply asks_ask; discriminate|]; intros x;
                   first
                     [ apply (asks_weaken 0); [lia | apply asks_ret]
                     | apply (asks_bind 1 0);
                       [apply asks_ask; discriminate | intros y; apply asks_ret]
                     | destruct (List.find _ _);
                       [ apply (asks_bind 1 0);
                         [apply asks_ask; discriminate
                         | intros y; apply asks_ret]
                       | apply (asks_weaken 0); [lia | apply asks_ret] ] ] ] ]
          |]).
  apply (asks_weaken 0); [lia | apply asks_throw].
Qed.

End Asks.
